(** * Search assistant pipeline (engine2.py): a shallow embedding

    The program is sequential glue around four external services: three HTTP
    endpoints (a web search results page, the Wikipedia search API, the
    DuckDuckGo instant-answer API) and a local language model.  The embedding
    keeps the Python control flow -- [try]/[except], early [return], the
    in-place updates of the [combined] dictionary and of the [results] list --
    in a small monad that carries

      - a trace of the external effects performed (HTTP requests, HTML
        parsing, the model call, log records, the sleep), and
      - the mutable local of the function being run, which survives a raised
        exception exactly as a Python local does.

    What the outside world answers is a parameter, the [World] record: every
    external call may raise or return.  Python values are dynamically typed
    ([pyval]); strings are sequences of characters with code points below 256;
    a float is NaN, an infinity, a zero, or the decimal digits and the exponent
    that [repr] prints of it. *)

From Stdlib Require Import String Ascii List ZArith Bool Lia.
From Stdlib Require Import DecimalString DecimalZ DecimalPos DecimalN.
Import ListNotations.
Open Scope list_scope.
Open Scope string_scope.

(** ** Python values *)

(** A float.  The program computes with none: floats reach it inside the
    payloads that [response.json()] decodes, and leave it in what [json.dumps]
    writes.  A finite float other than zero is given by what [repr] finds of
    it: the shortest decimal digits [d1 ... dn] that identify it (here the
    digits of [significand]) and the position [decpt] of the decimal point,
    the value being [0.d1...dn * 10 ^ decpt].  The decoder also builds the two
    infinities (from [Infinity], or from a literal too large, such as [1e999])
    and NaN. *)
Inductive pyfloat : Type :=
| FNaN
| FInfinity (negative : bool)
| FZero (negative : bool)
| FDecimal (negative : bool) (significand : positive) (decpt : Z).

#[warnings="-register-all"]
Inductive pyval : Type :=
| PyNone
| PyBool (b : bool)
| PyInt (n : Z)
| PyFloat (x : pyfloat)
| PyStr (s : string)
| PyList (xs : list pyval)
| PyDict (kvs : list (string * pyval)).

(** An exception object; [str(e)] is its message. *)
Record pyexn : Type := PyExn { exn_type : string; exn_msg : string }.

Definition str_of_exn (e : pyexn) : string := exn_msg e.

Inductive outcome (A : Type) : Type :=
| Returned (a : A)
| Raised (e : pyexn).
Arguments Returned {A} a.
Arguments Raised {A} e.

(** Python truthiness, as used by [not x], [if x] and [any(...)]. *)
Definition truthy (v : pyval) : bool :=
  match v with
  | PyNone => false
  | PyBool b => b
  | PyInt n => negb (Z.eqb n 0)
  | PyFloat x => match x with FZero _ => false | _ => true end
  | PyStr s => negb (String.eqb s EmptyString)
  | PyList xs => match xs with [] => false | _ :: _ => true end
  | PyDict kvs => match kvs with [] => false | _ :: _ => true end
  end.

Definition type_name (v : pyval) : string :=
  match v with
  | PyNone => "NoneType"
  | PyBool _ => "bool"
  | PyInt _ => "int"
  | PyFloat _ => "float"
  | PyStr _ => "str"
  | PyList _ => "list"
  | PyDict _ => "dict"
  end.

(** Dictionaries keep insertion order (it decides how they are serialised and
    the order of [.values()]). *)
Fixpoint dict_lookup (k : string) (kvs : list (string * pyval)) : option pyval :=
  match kvs with
  | [] => None
  | (k', v) :: rest => if String.eqb k k' then Some v else dict_lookup k rest
  end.

Fixpoint dict_set (k : string) (v : pyval) (kvs : list (string * pyval))
  : list (string * pyval) :=
  match kvs with
  | [] => [(k, v)]
  | (k', v') :: rest =>
      if String.eqb k k' then (k', v) :: rest else (k', v') :: dict_set k v rest
  end.

Definition dict_has (k : string) (kvs : list (string * pyval)) : bool :=
  match dict_lookup k kvs with Some _ => true | None => false end.

(** [sub in s] on strings. *)
Definition is_substring (sub s : string) : bool :=
  match String.index 0 sub s with Some _ => true | None => false end.

Definition startswith (p s : string) : bool := String.prefix p s.

(** [str.isspace] on one character (code points below 256). *)
Definition py_isspace (c : ascii) : bool :=
  let n := nat_of_ascii c in
  (((9 <=? n) && (n <=? 13)) || ((28 <=? n) && (n <=? 32))
   || (n =? 133) || (n =? 160))%nat.

Fixpoint lstrip (s : string) : string :=
  match s with
  | EmptyString => EmptyString
  | String c rest => if py_isspace c then lstrip rest else s
  end.

Fixpoint rstrip (s : string) : string :=
  match s with
  | EmptyString => EmptyString
  | String c rest =>
      match rstrip rest with
      | EmptyString => if py_isspace c then EmptyString else String c EmptyString
      | r => String c r
      end
  end.

(** [s.strip()] *)
Definition strip (s : string) : string := rstrip (lstrip s).

(** Whitespace-separated tokens of an attribute value (a [class] list). *)
Fixpoint tokens_aux (cur : string) (s : string) : list string :=
  match s with
  | EmptyString =>
      match cur with EmptyString => [] | _ => [cur] end
  | String c rest =>
      if py_isspace c
      then match cur with
           | EmptyString => tokens_aux EmptyString rest
           | _ => cur :: tokens_aux EmptyString rest
           end
      else tokens_aux (cur ++ String c EmptyString) rest
  end.

Definition tokens (s : string) : list string := tokens_aux EmptyString s.

(** ** Effects *)

Inductive level : Type := INFO | WARNING | ERROR.

Inductive event : Type :=
| Log (lvl : level) (msg : string)
| Sleep
| HttpGet (url : string) (params : list (string * pyval))
| ParseHtml (markup : string)
| OllamaChat (model : string) (prompt : string).

(** A computation with a mutable local of type [S]: it yields the effects it
    performed, the final value of the local, and either a result or the
    exception that ended it. *)
Definition Py (S A : Type) : Type := S -> list event * S * outcome A.

Definition ret {S A} (a : A) : Py S A := fun s => ([], s, Returned a).

Definition raise {S A} (e : pyexn) : Py S A := fun s => ([], s, Raised e).

Definition bind {S A B} (m : Py S A) (k : A -> Py S B) : Py S B :=
  fun s =>
    match m s with
    | (t, s', Returned a) =>
        match k a s' with
        | (t', s'', o) => ((t ++ t')%list, s'', o)
        end
    | (t, s', Raised e) => (t, s', Raised e)
    end.

Declare Scope py_scope.
Delimit Scope py_scope with py.
Notation "x <- m ;; k" := (bind m (fun x => k))
  (at level 61, m at next level, right associativity) : py_scope.
Notation "m ;; k" := (bind m (fun _ => k))
  (at level 61, right associativity) : py_scope.
Open Scope py_scope.

(** [try: body except Exception as e: handler e].  The local keeps whatever
    the body had assigned before it raised. *)
Definition try_except {S A} (body : Py S A) (handler : pyexn -> Py S A) : Py S A :=
  fun s =>
    match body s with
    | (t, s', Returned a) => (t, s', Returned a)
    | (t, s', Raised e) =>
        match handler e s' with
        | (t', s'', o) => ((t ++ t')%list, s'', o)
        end
    end.

Definition emit {S} (ev : event) : Py S unit := fun s => ([ev], s, Returned tt).

Definition logging (lvl : level) (msg : string) {S} : Py S unit := emit (Log lvl msg).

Definition get_local {S} : Py S S := fun s => ([], s, Returned s).

Definition set_local {S} (s' : S) : Py S unit := fun _ => ([], s', Returned tt).

Definition of_outcome {S A} (o : outcome A) : Py S A := fun s => ([], s, o).

(** Functions without a mutable local run on [unit]. *)
Definition Eff (A : Type) : Type := Py unit A.

Definition run {A} (m : Eff A) : list event * outcome A :=
  match m tt with (t, _, o) => (t, o) end.

(** Calling a function from a body that has a local of its own. *)
Definition call {S A} (m : Eff A) : Py S A :=
  fun s => match run m with (t, o) => (t, s, o) end.

(** Running a block that has a local [S] (initialised to [s0]) inside a
    function that has none. *)
Definition with_local {S A} (s0 : S) (m : Py S A) : Eff A :=
  fun _ => match m s0 with (t, _, o) => (t, tt, o) end.

Fixpoint for_each {S A} (xs : list A) (body : A -> Py S unit) : Py S unit :=
  match xs with
  | [] => ret tt
  | x :: rest => body x ;; for_each rest body
  end.

(** ** Operations on Python values that may raise *)

Definition TypeError (msg : string) : pyexn := PyExn "TypeError" msg.
Definition KeyError (k : string) : pyexn := PyExn "KeyError" ("'" ++ k ++ "'").
Definition AttributeError (msg : string) : pyexn := PyExn "AttributeError" msg.

(** [k in v] for a string [k]. *)
Definition py_contains {S} (k : string) (v : pyval) : Py S bool :=
  match v with
  | PyDict kvs => ret (dict_has k kvs)
  | PyList xs =>
      ret (existsb (fun x => match x with PyStr s => String.eqb s k | _ => false end) xs)
  | PyStr s => ret (is_substring k s)
  | _ => raise (TypeError ("argument of type '" ++ type_name v ++ "' is not iterable"))
  end.

(** [v[k]] for a string [k]. *)
Definition py_getitem {S} (v : pyval) (k : string) : Py S pyval :=
  match v with
  | PyDict kvs =>
      match dict_lookup k kvs with
      | Some x => ret x
      | None => raise (KeyError k)
      end
  | PyList _ => raise (TypeError "list indices must be integers or slices, not str")
  | PyStr _ => raise (TypeError "string indices must be integers, not 'str'")
  | _ => raise (TypeError ("'" ++ type_name v ++ "' object is not subscriptable"))
  end.

(** [v[k] = x] for a string [k]. *)
Definition py_setitem {S} (v : pyval) (k : string) (x : pyval) : Py S pyval :=
  match v with
  | PyDict kvs => ret (PyDict (dict_set k x kvs))
  | _ => raise (TypeError ("'" ++ type_name v
                             ++ "' object does not support item assignment"))
  end.

(** [v.get(k, default)] *)
Definition py_get {S} (v : pyval) (k : string) (default : pyval) : Py S pyval :=
  match v with
  | PyDict kvs =>
      match dict_lookup k kvs with
      | Some x => ret x
      | None => ret default
      end
  | _ => raise (AttributeError ("'" ++ type_name v ++ "' object has no attribute 'get'"))
  end.

(** [v.values()] *)
Definition py_values {S} (v : pyval) : Py S (list pyval) :=
  match v with
  | PyDict kvs => ret (map snd kvs)
  | _ => raise (AttributeError ("'" ++ type_name v
                                  ++ "' object has no attribute 'values'"))
  end.

(** [any(xs)] *)
Definition any (xs : list pyval) : bool := existsb truthy xs.

(** ** The parsed page

    What [BeautifulSoup(text, 'html.parser')] builds: a tree of tags and text
    nodes.  Selectors are evaluated on the tree; turning markup into the tree
    is the parser's work and is part of the [World]. *)

(** The class the parser gives a string of the tree.  Text is a
    [NavigableString], except below a [script], [style], [template], [rt] or
    [rp] element, where the parser makes it a [Script], [Stylesheet],
    [TemplateString], [RubyTextString] or [RubyParenthesisString].  A CDATA
    section is a [CData]; a comment, a declaration, the document type and a
    processing instruction are a [Comment], a [Declaration], a [Doctype] and a
    [ProcessingInstruction]. *)
Inductive string_class : Type :=
| NavigableString
| CData
| Comment
| Declaration
| Doctype
| ProcessingInstruction
| Stylesheet
| Script
| TemplateString
| RubyTextString
| RubyParenthesisString.

Definition string_class_eqb (a b : string_class) : bool :=
  match a, b with
  | NavigableString, NavigableString | CData, CData | Comment, Comment
  | Declaration, Declaration | Doctype, Doctype
  | ProcessingInstruction, ProcessingInstruction
  | Stylesheet, Stylesheet | Script, Script | TemplateString, TemplateString
  | RubyTextString, RubyTextString
  | RubyParenthesisString, RubyParenthesisString => true
  | _, _ => false
  end.

#[warnings="-register-all"]
Inductive node : Type :=
| TextNode (cls : string_class) (s : string)
| Tag (name : string) (attrs : list (string * string)) (children : list node).

(** Proper descendants in document order. *)
Fixpoint descendants (n : node) : list node :=
  match n with
  | TextNode _ _ => []
  | Tag _ _ cs => flat_map (fun c => c :: descendants c) cs
  end.

(** The elements whose text the parser sets apart, with the class it gives
    that text (the builder's [string_containers]). *)
Definition string_container (name : string) : option string_class :=
  if String.eqb name "rt" then Some RubyTextString
  else if String.eqb name "rp" then Some RubyParenthesisString
  else if String.eqb name "style" then Some Stylesheet
  else if String.eqb name "script" then Some Script
  else if String.eqb name "template" then Some TemplateString
  else None.

(** [tag.interesting_string_types]: the classes of strings that make up the
    text of a tag of that name.  For an ordinary tag these are
    [NavigableString] and [CData], so comments and the contents of scripts,
    style sheets and templates below it are left out; a container is
    interested in its own class only. *)
Definition interesting (name : string) (cls : string_class) : bool :=
  match string_container name with
  | Some own => string_class_eqb cls own
  | None =>
      match cls with
      | NavigableString | CData => true
      | _ => false
      end
  end.

(** Every string below a node, in document order. *)
Fixpoint strings (n : node) : list (string_class * string) :=
  match n with
  | TextNode cls s => [(cls, s)]
  | Tag _ _ cs => flat_map strings cs
  end.

(** [tag.text]: the strings below the tag that are of a class the tag is
    interested in, concatenated. *)
Definition get_text (n : node) : string :=
  match n with
  | TextNode _ s => s
  | Tag name _ _ =>
      String.concat EmptyString
        (map snd (filter (fun x => interesting name (fst x)) (strings n)))
  end.

Fixpoint attr_lookup (k : string) (attrs : list (string * string)) : option string :=
  match attrs with
  | [] => None
  | (k', v) :: rest => if String.eqb k k' then Some v else attr_lookup k rest
  end.

Definition is_tag (nm : string) (n : node) : bool :=
  match n with
  | Tag nm' _ _ => String.eqb nm nm'
  | TextNode _ _ => false
  end.

Definition has_attr (k : string) (n : node) : bool :=
  match n with
  | Tag _ attrs _ => match attr_lookup k attrs with Some _ => true | None => false end
  | TextNode _ _ => false
  end.

Definition attr_is (k v : string) (n : node) : bool :=
  match n with
  | Tag _ attrs _ =>
      match attr_lookup k attrs with Some v' => String.eqb v v' | None => false end
  | TextNode _ _ => false
  end.

Definition has_class (c : string) (n : node) : bool :=
  match n with
  | Tag _ attrs _ =>
      match attr_lookup "class" attrs with
      | Some v => existsb (String.eqb c) (tokens v)
      | None => false
      end
  | TextNode _ _ => false
  end.

(** The selectors of the scraper. *)

(** ['div.g, div[data-snf], div[data-header-feature]'] *)
Definition sel_result_block (n : node) : bool :=
  is_tag "div" n
  && (has_class "g" n || has_attr "data-snf" n || has_attr "data-header-feature" n).

(** ['h3, [role="heading"]'] (the quotes of the selector delimit the value) *)
Definition sel_title (n : node) : bool :=
  is_tag "h3" n || attr_is "role" "heading" n.

(** ['.VwiC3b, .lyLwlc, .ITZIwc, .MUxGbd'] *)
Definition sel_snippet (n : node) : bool :=
  has_class "VwiC3b" n || has_class "lyLwlc" n
  || has_class "ITZIwc" n || has_class "MUxGbd" n.

(** [soup.select(sel)]: every matching tag of the document, in document order. *)
Definition soup_select (sel : node -> bool) (soup : list node) : list node :=
  filter sel (flat_map (fun c => c :: descendants c) soup).

(** [tag.select_one(sel)]: the first matching descendant, or [None]. *)
Definition select_one (sel : node -> bool) (n : node) : option node :=
  find sel (descendants n).

(** [tag.find(name)]: the first descendant tag of that name, or [None]. *)
Definition find_tag (nm : string) (n : node) : option node :=
  find (is_tag nm) (descendants n).

(** [x.text] where [x] may be [None]. *)
Definition text_of {S} (x : option node) : Py S string :=
  match x with
  | Some n => ret (get_text n)
  | None => raise (AttributeError "'NoneType' object has no attribute 'text'")
  end.

(** [x[k]] where [x] is a tag or [None]. *)
Definition tag_getitem {S} (x : option node) (k : string) : Py S string :=
  match x with
  | Some (Tag _ attrs _) =>
      match attr_lookup k attrs with
      | Some v => ret v
      | None => raise (KeyError k)
      end
  | Some (TextNode _ _) => raise (TypeError "string indices must be integers, not 'str'")
  | None => raise (TypeError "'NoneType' object is not subscriptable")
  end.

(** ** json.dumps

    The encoder of the standard library with its default [ensure_ascii]:
    inside a string, every character outside the printable ASCII range and the
    two characters quote and backslash are escaped. *)

Definition quote : ascii := "034"%char.
Definition backslash : ascii := "092"%char.
Definition newline : ascii := "010"%char.

Definition hex_digit (n : nat) : ascii :=
  match n with
  | 0 => "0" | 1 => "1" | 2 => "2" | 3 => "3" | 4 => "4"
  | 5 => "5" | 6 => "6" | 7 => "7" | 8 => "8" | 9 => "9"
  | 10 => "a" | 11 => "b" | 12 => "c" | 13 => "d" | 14 => "e"
  | _ => "f"
  end%char.

(** ['\\u{0:04x}'.format(n)] for [n < 256] *)
Definition unicode_escape (n : nat) : string :=
  String backslash
    (String "u" (String "0" (String "0"
       (String (hex_digit (n / 16)) (String (hex_digit (n mod 16)) EmptyString))))).

Definition escape_char (c : ascii) : string :=
  let n := nat_of_ascii c in
  if (n =? 34)%nat then String backslash (String quote EmptyString)
  else if (n =? 92)%nat then String backslash (String backslash EmptyString)
  else if (n =? 8)%nat then String backslash "b"
  else if (n =? 12)%nat then String backslash "f"
  else if (n =? 10)%nat then String backslash "n"
  else if (n =? 13)%nat then String backslash "r"
  else if (n =? 9)%nat then String backslash "t"
  else if ((32 <=? n) && (n <=? 126))%nat then String c EmptyString
  else unicode_escape n.

Fixpoint escape_string (s : string) : string :=
  match s with
  | EmptyString => EmptyString
  | String c rest => escape_char c ++ escape_string rest
  end.

Definition encode_string (s : string) : string :=
  String quote (escape_string s ++ String quote EmptyString).

(** [int.__repr__] *)
Definition string_of_Z (n : Z) : string := NilZero.string_of_int (Z.to_int n).

(** The text of a number: sign, integer part, fraction, exponent (its sign
    and its digits). *)
Record literal : Type := {
  lit_negative : bool;
  lit_int : string;
  lit_frac : option string;
  lit_exp : option (bool * string)
}.

Definition print_literal (l : literal) : string :=
  (if lit_negative l then "-" else "")
  ++ lit_int l
  ++ match lit_frac l with Some f => "." ++ f | None => "" end
  ++ match lit_exp l with
     | Some (neg, ds) => "e" ++ (if neg then "-" else "+") ++ ds
     | None => ""
     end.

Fixpoint zeros (n : nat) : string :=
  match n with
  | O => EmptyString
  | S n' => String "0" (zeros n')
  end.

(** [s[:n]] and [s[n:]] *)
Fixpoint string_take (n : nat) (s : string) : string :=
  match n, s with
  | S n', String c r => String c (string_take n' r)
  | _, _ => EmptyString
  end.

Fixpoint string_drop (n : nat) (s : string) : string :=
  match n, s with
  | S n', String _ r => string_drop n' r
  | _, _ => s
  end.

Definition digits (u : Decimal.uint) : string := NilEmpty.string_of_uint u.

(** The digits of an exponent as C's [%+.02d] prints them: two at least. *)
Definition exponent_digits (e : Z) : string :=
  let ds := NilZero.string_of_uint (N.to_uint (Z.abs_N e)) in
  if (String.length ds <? 2)%nat then "0" ++ ds else ds.

(** [float.__repr__] on a finite float other than zero, from its digits
    [d1 ... dn] and the position [decpt] of the point:
      - [d1.d2...dn e+XX] (exponent [decpt - 1]) when [decpt <= -4] or
        [decpt > 16];
      - [0.0...0d1...dn] when [-4 < decpt <= 0];
      - [d1...dk.dk+1...dn] when [0 < decpt < n];
      - [d1...dn0...0.0] when [n <= decpt <= 16]. *)
Definition float_literal (negative : bool) (significand : positive) (decpt : Z)
  : literal :=
  let ds := digits (Pos.to_uint significand) in
  let n := Z.of_nat (String.length ds) in
  if (decpt <=? -4)%Z || (16 <? decpt)%Z then
    {| lit_negative := negative;
       lit_int := string_take 1 ds;
       lit_frac := match string_drop 1 ds with
                   | EmptyString => None
                   | r => Some r
                   end;
       lit_exp := Some ((decpt - 1 <? 0)%Z, exponent_digits (decpt - 1)) |}
  else if (decpt <=? 0)%Z then
    {| lit_negative := negative;
       lit_int := "0";
       lit_frac := Some (zeros (Z.to_nat (- decpt)) ++ ds);
       lit_exp := None |}
  else if (decpt <? n)%Z then
    {| lit_negative := negative;
       lit_int := string_take (Z.to_nat decpt) ds;
       lit_frac := Some (string_drop (Z.to_nat decpt) ds);
       lit_exp := None |}
  else
    {| lit_negative := negative;
       lit_int := ds ++ zeros (Z.to_nat (decpt - n));
       lit_frac := Some "0";
       lit_exp := None |}.

(** [0.0] and [-0.0] *)
Definition zero_literal (negative : bool) : literal :=
  {| lit_negative := negative; lit_int := "0"; lit_frac := Some "0";
     lit_exp := None |}.

(** The encoder's [floatstr] with the default [allow_nan]: the three values
    that are not finite are written as [NaN], [Infinity] and [-Infinity],
    every other float as its [repr]. *)
Definition encode_float (x : pyfloat) : string :=
  match x with
  | FNaN => "NaN"
  | FInfinity false => "Infinity"
  | FInfinity true => "-Infinity"
  | FZero negative => print_literal (zero_literal negative)
  | FDecimal negative significand decpt =>
      print_literal (float_literal negative significand decpt)
  end.

Fixpoint spaces (n : nat) : string :=
  match n with
  | O => EmptyString
  | S n' => String " " (spaces n')
  end.

(** The line break and indentation written before an item at nesting level
    [lvl]; nothing when no [indent] was given. *)
Definition newline_indent (indent : option nat) (lvl : nat) : string :=
  match indent with
  | Some n => String newline (spaces (n * lvl))
  | None => EmptyString
  end.

Definition item_separator (indent : option nat) : string :=
  match indent with
  | Some _ => ","
  | None => ", "
  end.

Definition key_separator : string := ": ".

Fixpoint encode (indent : option nat) (lvl : nat) (v : pyval) : string :=
  match v with
  | PyNone => "null"
  | PyBool true => "true"
  | PyBool false => "false"
  | PyInt n => string_of_Z n
  | PyFloat x => encode_float x
  | PyStr s => encode_string s
  | PyList [] => "[]"
  | PyList xs =>
      "[" ++ newline_indent indent (S lvl)
          ++ String.concat (item_separator indent ++ newline_indent indent (S lvl))
               (map (encode indent (S lvl)) xs)
          ++ newline_indent indent lvl ++ "]"
  | PyDict [] => "{}"
  | PyDict kvs =>
      "{" ++ newline_indent indent (S lvl)
          ++ String.concat (item_separator indent ++ newline_indent indent (S lvl))
               (map (fun kv => encode_string (fst kv) ++ key_separator
                                 ++ encode indent (S lvl) (snd kv)) kvs)
          ++ newline_indent indent lvl ++ "}"
  end.

(** [json.dumps(v)] and [json.dumps(v, indent=n)] *)
Definition json_dumps (indent : option nat) (v : pyval) : string :=
  encode indent 0 v.

(** ** The outside world *)

(** An HTTP response: its body, and what [response.json()] gives on it. *)
Record Response : Type := { text : string; json : outcome pyval }.

(** The reply of [ollama.chat]: [{message: {role, content}}], the content a
    string. *)
Record Message : Type := { role : string; content : string }.
Record ChatResponse : Type := { message : Message }.

Record World : Type := {
  requests_get : string -> list (string * pyval) -> outcome Response;
  BeautifulSoup : string -> outcome (list node);
  ollama_chat : string -> string -> outcome ChatResponse
}.

Section Pipeline.

Variable w : World.

Definition http_get {S} (url : string) (params : list (string * pyval)) : Py S Response :=
  emit (HttpGet url params) ;; of_outcome (requests_get w url params).

Definition response_json {S} (r : Response) : Py S pyval := of_outcome (json r).

Definition parse_html {S} (markup : string) : Py S (list node) :=
  emit (ParseHtml markup) ;; of_outcome (BeautifulSoup w markup).

Definition chat {S} (model prompt : string) : Py S ChatResponse :=
  emit (OllamaChat model prompt) ;; of_outcome (ollama_chat w model prompt).

Definition wikipedia_url : string := "https://en.wikipedia.org/w/api.php".
Definition duckduckgo_url : string := "https://api.duckduckgo.com/".
Definition google_url : string := "https://www.google.co.in/search".

Definition wikipedia_params (query : string) : list (string * pyval) :=
  [("action", PyStr "query"); ("list", PyStr "search");
   ("srsearch", PyStr query); ("format", PyStr "json")].

Definition duckduckgo_params (query : string) : list (string * pyval) :=
  [("q", PyStr query); ("format", PyStr "json");
   ("no_html", PyInt 1); ("no_redirect", PyInt 1)].

Definition google_params (query : string) : list (string * pyval) :=
  [("q", PyStr query); ("hl", PyStr "en"); ("gl", PyStr "in"); ("num", PyInt 5)].

(** *** search_wikipedia

    The elapsed time printed by the second log record is left out of the
    message. *)
Definition search_wikipedia (query : string) : Eff pyval :=
  logging INFO ("Starting Wikipedia search for: " ++ query) ;;
  try_except
    (let url := wikipedia_url in
     let params := wikipedia_params query in
     response <- http_get url params ;;
     logging INFO "Wikipedia search completed" ;;
     response_json response)
    (fun e =>
       logging ERROR ("Wikipedia search failed: " ++ str_of_exn e) ;;
       ret (PyDict [("error", PyStr (str_of_exn e))])).

(** *** search_duckduckgo

    The log record prints the decoded payload; its text is left out of the
    message. *)
Definition search_duckduckgo (query : string) : Eff (list pyval) :=
  try_except
    (response <- http_get duckduckgo_url (duckduckgo_params query) ;;
     data <- response_json response ;;
     logging INFO "response received" ;;
     title <- py_get data "Heading" (PyStr EmptyString) ;;
     url <- py_get data "AbstractURL" (PyStr EmptyString) ;;
     snippet <- py_get data "AbstractText" (PyStr EmptyString) ;;
     ret [PyDict [("title", title); ("url", url); ("snippet", snippet);
                  ("source", PyStr "duckduckgo")]])
    (fun e =>
       logging ERROR ("DuckDuckGo fallback failed: " ++ str_of_exn e) ;;
       ret []).

(** *** search_google *)

Definition block_phrases : list string :=
  ["CAPTCHA"; "unusual traffic"; "automated requests"].

(** [any(phrase in body for phrase in block_phrases)] *)
Definition blocked (body : string) : bool :=
  existsb (fun phrase => is_substring phrase body) block_phrases.

(** The body of the [for] loop, first the statements under [try]; the local
    is the [results] list.  Returning without an append is the [continue] of
    the URL filter. *)
Definition scrape_body (result : node) : Py (list pyval) unit :=
  title <- text_of (select_one sel_title result) ;;
  url <- tag_getitem (find_tag "a" result) "href" ;;
  let snippet := select_one sel_snippet result in
  let snippet_text :=
    match snippet with Some s => get_text s | None => EmptyString end in
  if startswith "/search?" url || startswith "/url?" url
  then ret tt
  else
    results <- get_local ;;
    set_local (results ++ [PyDict [("title", PyStr (strip title));
                                   ("url", PyStr url);
                                   ("snippet", PyStr (strip snippet_text));
                                   ("source", PyStr "google")]])%list.

Definition scrape_block (result : node) : Py (list pyval) unit :=
  try_except
    (scrape_body result)
    (fun e => logging WARNING ("Skipping result: " ++ str_of_exn e)).

Definition string_of_nat (n : nat) : string :=
  NilZero.string_of_uint (Nat.to_uint n).

Definition search_google (query : string) : Eff (list pyval) :=
  logging INFO ("Starting Google search for: " ++ query) ;;
  let base_url := google_url in
  let params := google_params query in
  try_except
    (emit Sleep ;;
     response <- http_get base_url params ;;
     if blocked (text response)
     then
       logging ERROR "Google blocked request (CAPTCHA detected)" ;;
       ret []
     else
       soup <- parse_html (text response) ;;
       with_local []
         (for_each (soup_select sel_result_block soup) scrape_block ;;
          results <- get_local ;;
          logging INFO ("Google search completed with "
                          ++ string_of_nat (List.length results) ++ " results") ;;
          ret results))
    (fun e =>
       logging ERROR ("Google search failed: " ++ str_of_exn e) ;;
       ret []).

(** *** combine_results

    The local is the [combined] dictionary. *)

(** [combined["sources"][k] = v] *)
Definition assign_source (k : string) (v : pyval) : Py pyval unit :=
  combined <- get_local ;;
  sources <- py_getitem combined "sources" ;;
  sources' <- py_setitem sources k v ;;
  combined' <- py_setitem combined "sources" sources' ;;
  set_local combined'.

Definition empty_sources : pyval :=
  PyDict [("google", PyList []); ("wikipedia", PyDict []); ("fallback", PyList [])].

Definition initial_composite (query : string) : pyval :=
  PyDict [("query", PyStr query); ("sources", empty_sources)].

(** The statements under [if use_google:]. *)
Definition web_stage (query : string) : Py pyval unit :=
  google_results <- call (search_google query) ;;
  if negb (truthy (PyList google_results)) then
    logging WARNING "Google failed, using DuckDuckGo fallback" ;;
    fallback <- call (search_duckduckgo query) ;;
    assign_source "fallback" (PyList fallback)
  else
    assign_source "google" (PyList google_results).

(** The statements under [if use_wiki:]. *)
Definition wiki_stage (query : string) : Py pyval unit :=
  wiki_data <- call (search_wikipedia query) ;;
  has_query <- py_contains "query" wiki_data ;;
  if (has_query : bool) then
    q1 <- py_getitem wiki_data "query" ;;
    results <- py_getitem q1 "search" ;;
    q2 <- py_getitem wiki_data "query" ;;
    searchinfo <- py_get q2 "searchinfo" (PyDict []) ;;
    suggestion <- py_get searchinfo "suggestion" PyNone ;;
    assign_source "wikipedia"
      (PyDict [("results", results); ("suggestion", suggestion)])
  else ret tt.

(** [if enabled: body] *)
Definition stage {S} (enabled : bool) (body : Py S unit) : Py S unit :=
  if enabled then body else ret tt.

Definition combine_results (query : string) (use_google use_wiki : bool) : Eff pyval :=
  with_local (initial_composite query)
    (try_except
       (stage use_google (web_stage query) ;;
        stage use_wiki (wiki_stage query) ;;
        get_local)
       (fun e =>
          logging ERROR ("Combination failed: " ++ str_of_exn e) ;;
          get_local)).

(** *** generate_answer *)

Definition no_results_message : string :=
  "No search results found. Try rephrasing your question or check your network connection.".

Definition model_name : string := "deepseek-r1:14b".

Definition make_prompt (query context : string) : string :=
  "Analyze available information and answer:
    Query: " ++ query ++ "
    Available Context: " ++ context ++ "
    
    If information is conflicting:
    - Prioritize official sources
    - Note disagreements in the answer
    - Maintain neutral tone
    
    Structure your answer with:
    1. Key points
    2. Step-by-step instructions (if applicable)
    3. Common mistakes to avoid".

Definition generate_answer (query : string) (combined_results : pyval) : Eff string :=
  let context := json_dumps (Some 2) combined_results in
  sources <- py_getitem combined_results "sources" ;;
  values <- py_values sources ;;
  if negb (any values) then
    ret no_results_message
  else
    let prompt := make_prompt query context in
    try_except
      (response <- chat model_name prompt ;;
       ret (content (message response)))
      (fun e => ret ("Error generating answer: " ++ str_of_exn e)).

(** *** full_pipeline *)

Definition banner : string :=
  String newline "==================================================".

Definition full_pipeline (query : string) (use_google use_wiki : bool)
  : Eff (string * string) :=
  logging INFO banner ;;
  logging INFO ("Starting pipeline for query: '" ++ query ++ "'") ;;
  try_except
    (results <- combine_results query use_google use_wiki ;;
     logging INFO "Results combined, generating answer..." ;;
     answer <- generate_answer query results ;;
     logging INFO "Pipeline completed successfully" ;;
     ret (answer, json_dumps (Some 2) results))
    (fun e =>
       logging ERROR ("Pipeline failed: " ++ str_of_exn e) ;;
       ret ("Pipeline error: " ++ str_of_exn e,
            json_dumps None (PyDict [("error", PyStr (str_of_exn e))]))).

End Pipeline.

(** ** Shapes of results *)

(** The composite built by the aggregator. *)
Definition composite (query : string) (google : list pyval) (wikipedia : pyval)
  (fallback : list pyval) : pyval :=
  PyDict [("query", PyStr query);
          ("sources", PyDict [("google", PyList google);
                              ("wikipedia", wikipedia);
                              ("fallback", PyList fallback)])].

(** The record produced by the fallback client. *)
Definition duckduckgo_record (title url snippet : pyval) : pyval :=
  PyDict [("title", title); ("url", url); ("snippet", snippet);
          ("source", PyStr "duckduckgo")].

(** A computation that comes back with a value, whatever its local was. *)
Definition returns {S A} (m : Py S A) : Prop :=
  forall s, exists t s' a, m s = (t, s', Returned a).

(** How often an endpoint was requested and a page was parsed, read off a
    trace. *)
Definition is_request_to (url : string) (ev : event) : bool :=
  match ev with
  | HttpGet url' _ => String.eqb url url'
  | _ => false
  end.

Definition is_parse (ev : event) : bool :=
  match ev with ParseHtml _ => true | _ => false end.

Definition count (p : event -> bool) (t : list event) : nat :=
  List.length (filter p t).

(** ** Sample worlds *)

Definition network_down : World := {|
  requests_get := fun _ _ => Raised (PyExn "ConnectionError" "network unreachable");
  BeautifulSoup := fun _ => Returned [];
  ollama_chat := fun _ _ => Raised (PyExn "ConnectionError" "connection refused")
|}.

Definition assistant_says (s : string) : outcome ChatResponse :=
  Returned {| message := {| role := "assistant"; content := s |} |}.

(** Every endpoint answers with the given decoded payload. *)
Definition answers_with (body : string) (payload : outcome pyval) (page : list node)
  : World := {|
  requests_get := fun _ _ => Returned {| text := body; json := payload |};
  BeautifulSoup := fun _ => Returned page;
  ollama_chat := fun _ _ => assistant_says "model reply"
|}.

(** ** Observing a run *)

Definition trace_of {S A} (r : list event * S * outcome A) : list event :=
  fst (fst r).

(** Every effect of the computation satisfies [P], whether it returns or
    raises. *)
Definition emits {S A} (P : event -> Prop) (m : Py S A) : Prop :=
  forall s, Forall P (trace_of (m s)).

(** Not a request to the fallback endpoint. *)
Definition off_fallback (ev : event) : Prop :=
  is_request_to duckduckgo_url ev = false.

(** The decoded payload of the fallback endpoint, when the request and the
    decoding succeed and the payload is an object. *)
Definition duckduckgo_payload (w : World) (query : string)
  : option (list (string * pyval)) :=
  match requests_get w duckduckgo_url (duckduckgo_params query) with
  | Returned r =>
      match json r with
      | Returned (PyDict d) => Some d
      | _ => None
      end
  | Raised _ => None
  end.

(** A field of the payload, the empty string when it is absent. *)
Definition field (k : string) (d : list (string * pyval)) : pyval :=
  match dict_lookup k d with
  | Some x => x
  | None => PyStr EmptyString
  end.

Definition fallback_notice : event :=
  Log WARNING "Google failed, using DuckDuckGo fallback".

(** What the encyclopedia stage stores on success. *)
Definition wikipedia_entry (results suggestion : pyval) : pyval :=
  PyDict [("results", results); ("suggestion", suggestion)].

(** The records the extraction loop collects from a list of candidate
    blocks. *)
Definition scraped (blocks : list node) : list pyval :=
  match for_each blocks scrape_block [] with
  | (_, results, _) => results
  end.

(** Extracting the fields of a block raises. *)
Definition extraction_raises (block : node) : Prop :=
  exists t results e, scrape_body block [] = (t, results, Raised e).

(** The [except] block of the aggregator. *)
Definition on_failure (e : pyexn) : Py pyval pyval :=
  logging ERROR ("Combination failed: " ++ str_of_exn e) ;; get_local.

(** What the web stage leaves behind, given what the two web clients answer:
    its trace and the [google] and [fallback] fields. *)
Definition web_trace (use_google : bool) (tg : list event) (g : list pyval)
  (td : list event) : list event :=
  if use_google then
    match g with
    | [] => (tg ++ fallback_notice :: td)%list
    | _ :: _ => tg
    end
  else [].

Definition web_google (use_google : bool) (g : list pyval) : list pyval :=
  if use_google then g else [].

Definition web_fallback (use_google : bool) (g f : list pyval) : list pyval :=
  if use_google then match g with [] => f | _ :: _ => [] end else [].

(** The reply of the model call, or the string describing its failure. *)
Definition model_answer (w : World) (prompt : string) : string :=
  match ollama_chat w model_name prompt with
  | Returned response => content (message response)
  | Raised e => "Error generating answer: " ++ str_of_exn e
  end.

(** A results page with three candidate blocks, the second without a title
    element. *)
Definition titled_block (href title : string) : node :=
  Tag "div" [("class", "g")]
    [Tag "a" [("href", href)] [Tag "h3" [] [TextNode NavigableString title]];
     Tag "span" [("class", "VwiC3b")] [TextNode NavigableString "about it"]].

Definition untitled_block : node :=
  Tag "div" [("class", "g")]
    [Tag "a" [("href", "https://b.example/")]
       [TextNode NavigableString "no heading here"]].

Definition sample_page : list node :=
  [Tag "html" []
     [Tag "body" []
        [titled_block "https://a.example/" " First ";
         untitled_block;
         titled_block "https://c.example/" "Third"]]].

Definition page_response : Response :=
  {| text := "<html>"; json := Returned (PyDict []) |}.

(** A Wikipedia success response with no hit and no suggestion. *)
Definition no_hits : list (string * pyval) :=
  [("query", PyDict [("searchinfo", PyDict [("totalhits", PyInt 0)]);
                     ("search", PyList [])])].

(** ** Reading JSON text (RFC 8259) *)

Definition is_json_ws (c : ascii) : bool :=
  let n := nat_of_ascii c in
  ((n =? 32) || (n =? 9) || (n =? 10) || (n =? 13))%nat.

Fixpoint skip_ws (s : string) : string :=
  match s with
  | EmptyString => EmptyString
  | String c rest => if is_json_ws c then skip_ws rest else s
  end.

Definition is_digit (c : ascii) : bool :=
  let n := nat_of_ascii c in ((48 <=? n) && (n <=? 57))%nat.

Definition hex_value (c : ascii) : option nat :=
  let n := nat_of_ascii c in
  if ((48 <=? n) && (n <=? 57))%nat then Some (n - 48)
  else if ((97 <=? n) && (n <=? 102))%nat then Some (n - 87)
  else if ((65 <=? n) && (n <=? 70))%nat then Some (n - 55)
  else None.

(** The character an escape letter stands for. *)
Definition unescape (c : ascii) : option ascii :=
  let n := nat_of_ascii c in
  if (n =? 34)%nat then Some quote
  else if (n =? 92)%nat then Some backslash
  else if (n =? 47)%nat then Some "/"%char
  else if (n =? 98)%nat then Some "008"%char
  else if (n =? 102)%nat then Some "012"%char
  else if (n =? 110)%nat then Some "010"%char
  else if (n =? 114)%nat then Some "013"%char
  else if (n =? 116)%nat then Some "009"%char
  else None.

Definition code_point (h1 h2 h3 h4 : ascii) : option nat :=
  match hex_value h1, hex_value h2, hex_value h3, hex_value h4 with
  | Some a, Some b, Some c, Some d => Some (((a * 16 + b) * 16 + c) * 16 + d)
  | _, _, _, _ => None
  end.

Definition prepend (c : ascii) (r : option (string * string)) : option (string * string) :=
  match r with
  | Some (s, rest) => Some (String c s, rest)
  | None => None
  end.

(** The characters of a string up to its closing quote, escapes decoded; the
    text starts after the opening quote. *)
Fixpoint read_string (s : string) : option (string * string) :=
  match s with
  | EmptyString => None
  | String c rest =>
      if Ascii.eqb c quote then Some (EmptyString, rest)
      else if Ascii.eqb c backslash then
        match rest with
        | EmptyString => None
        | String e rest' =>
            if Ascii.eqb e "u" then
              match rest' with
              | String h1 (String h2 (String h3 (String h4 rest''))) =>
                  match code_point h1 h2 h3 h4 with
                  | Some n =>
                      if (n <? 256)%nat
                      then prepend (ascii_of_nat n) (read_string rest'')
                      else None
                  | None => None
                  end
              | _ => None
              end
            else
              match unescape e with
              | Some ch => prepend ch (read_string rest')
              | None => None
              end
        end
      else if (nat_of_ascii c <? 32)%nat then None
      else prepend c (read_string rest)
  end.

Fixpoint span_digits (s : string) : string * string :=
  match s with
  | EmptyString => (EmptyString, EmptyString)
  | String c rest =>
      if is_digit c
      then match span_digits rest with (ds, r) => (String c ds, r) end
      else (EmptyString, s)
  end.

(** A fraction or an exponent follows. *)
Definition continues_number (s : string) : bool :=
  match s with
  | String c _ => Ascii.eqb c "." || Ascii.eqb c "e" || Ascii.eqb c "E"
  | EmptyString => false
  end.

Definition read_sign (s : string) : bool * string :=
  match s with
  | String c rest => if Ascii.eqb c "-" then (true, rest) else (false, s)
  | EmptyString => (false, s)
  end.

(** [int = zero / ( digit1-9 *DIGIT )] *)
Definition read_int (s : string) : option (string * string) :=
  match span_digits s with
  | (EmptyString, _) => None
  | (String d ds, rest) =>
      if Ascii.eqb d "0" && negb (String.eqb ds EmptyString) then None
      else Some (String d ds, rest)
  end.

(** [frac = decimal-point 1*DIGIT], optional *)
Definition read_frac (s : string) : option (option string * string) :=
  match s with
  | String c rest =>
      if Ascii.eqb c "." then
        match span_digits rest with
        | (EmptyString, _) => None
        | (ds, r) => Some (Some ds, r)
        end
      else Some (None, s)
  | EmptyString => Some (None, s)
  end.

Definition read_exp_sign (s : string) : bool * string :=
  match s with
  | String c rest =>
      if Ascii.eqb c "-" then (true, rest)
      else if Ascii.eqb c "+" then (false, rest)
      else (false, s)
  | EmptyString => (false, s)
  end.

(** [exp = e [ minus / plus ] 1*DIGIT], optional *)
Definition read_exp (s : string) : option (option (bool * string) * string) :=
  match s with
  | String c rest =>
      if Ascii.eqb c "e" || Ascii.eqb c "E" then
        match read_exp_sign rest with
        | (neg, rest') =>
            match span_digits rest' with
            | (EmptyString, _) => None
            | (ds, r) => Some (Some (neg, ds), r)
            end
        end
      else Some (None, s)
  | EmptyString => Some (None, s)
  end.

(** [number = [ minus ] int [ frac ] [ exp ]] *)
Definition read_literal (s : string) : option (literal * string) :=
  match read_sign s with
  | (neg, s1) =>
      match read_int s1 with
      | None => None
      | Some (i, s2) =>
          match read_frac s2 with
          | None => None
          | Some (f, s3) =>
              match read_exp s3 with
              | None => None
              | Some (e, s4) =>
                  Some ({| lit_negative := neg; lit_int := i;
                           lit_frac := f; lit_exp := e |}, s4)
              end
          end
      end
  end.

(** The number a string of decimal digits denotes. *)
Definition digits_value (s : string) : N :=
  match NilEmpty.uint_of_string s with
  | Some u => N.of_uint u
  | None => 0%N
  end.

Fixpoint lstrip_zeros (s : string) : string :=
  match s with
  | EmptyString => EmptyString
  | String c rest => if Ascii.eqb c "0" then lstrip_zeros rest else s
  end.

Fixpoint rstrip_zeros (s : string) : string :=
  match s with
  | EmptyString => EmptyString
  | String c rest =>
      match rstrip_zeros rest with
      | EmptyString => if Ascii.eqb c "0" then EmptyString else String c EmptyString
      | r => String c r
      end
  end.

Definition exponent_value (e : option (bool * string)) : Z :=
  match e with
  | Some (neg, ds) =>
      let n := Z.of_N (digits_value ds) in if neg then (- n)%Z else n
  | None => 0%Z
  end.

(** The float that a literal with a fraction or an exponent denotes: its
    significant digits, and where the decimal point stands before the first
    of them.  The literal is taken at its decimal value: rounding to the
    nearest binary float, and with it the overflow of a large literal to an
    infinity, is not modelled. *)
Definition float_of_literal (l : literal) : pyfloat :=
  let all := lit_int l ++ match lit_frac l with Some f => f | None => "" end in
  let body := lstrip_zeros all in
  match digits_value (rstrip_zeros body) with
  | N0 => FZero (lit_negative l)
  | Npos p =>
      FDecimal (lit_negative l) p
        (Z.of_nat (String.length (lit_int l)) + exponent_value (lit_exp l)
         - Z.of_nat (String.length all - String.length body))
  end.

(** An integer when the literal has neither fraction nor exponent, a float
    otherwise. *)
Definition literal_value (l : literal) : pyval :=
  match lit_frac l, lit_exp l with
  | None, None =>
      let n := Z.of_N (digits_value (lit_int l)) in
      PyInt (if lit_negative l then (- n)%Z else n)
  | _, _ => PyFloat (float_of_literal l)
  end.

Definition read_number (s : string) : option (pyval * string) :=
  match read_literal s with
  | Some (l, rest) => Some (literal_value l, rest)
  | None => None
  end.

(** The text after a given word, when the text starts with it. *)
Fixpoint strip_prefix (word s : string) : option string :=
  match word with
  | EmptyString => Some s
  | String a word' =>
      match s with
      | EmptyString => None
      | String b s' => if Ascii.eqb a b then strip_prefix word' s' else None
      end
  end.

Definition expect (word : string) (s : string) (v : pyval) : option (pyval * string) :=
  match strip_prefix word s with
  | Some rest => Some (v, rest)
  | None => None
  end.

(** [dict(pairs)]: a later pair with the same key replaces the value. *)
Definition dict_of_pairs (pairs : list (string * pyval)) : list (string * pyval) :=
  fold_left (fun d kv => dict_set (fst kv) (snd kv) d) pairs [].

Fixpoint read_value (fuel : nat) (s : string) {struct fuel} : option (pyval * string) :=
  match fuel with
  | O => None
  | S fuel' =>
      match s with
      | EmptyString => None
      | String c rest =>
          if Ascii.eqb c "n" then expect "ull" rest PyNone
          else if Ascii.eqb c "t" then expect "rue" rest (PyBool true)
          else if Ascii.eqb c "f" then expect "alse" rest (PyBool false)
          else if Ascii.eqb c quote then
            match read_string rest with
            | Some (str, r) => Some (PyStr str, r)
            | None => None
            end
          else if Ascii.eqb c "[" then
            match skip_ws rest with
            | EmptyString => None
            | String c' r as items =>
                if Ascii.eqb c' "]" then Some (PyList [], r)
                else
                  match read_elements fuel' items with
                  | Some (xs, r') => Some (PyList xs, r')
                  | None => None
                  end
            end
          else if Ascii.eqb c "{" then
            match skip_ws rest with
            | EmptyString => None
            | String c' r as members =>
                if Ascii.eqb c' "}" then Some (PyDict [], r)
                else
                  match read_members fuel' members with
                  | Some (kvs, r') => Some (PyDict (dict_of_pairs kvs), r')
                  | None => None
                  end
            end
          else read_number s
      end
  end

with read_elements (fuel : nat) (s : string) {struct fuel}
  : option (list pyval * string) :=
  match fuel with
  | O => None
  | S fuel' =>
      match read_value fuel' s with
      | None => None
      | Some (x, r) =>
          match skip_ws r with
          | EmptyString => None
          | String c r' =>
              if Ascii.eqb c "," then
                match read_elements fuel' (skip_ws r') with
                | Some (xs, r'') => Some (x :: xs, r'')
                | None => None
                end
              else if Ascii.eqb c "]" then Some ([x], r')
              else None
          end
      end
  end

with read_members (fuel : nat) (s : string) {struct fuel}
  : option (list (string * pyval) * string) :=
  match fuel with
  | O => None
  | S fuel' =>
      match s with
      | EmptyString => None
      | String q r0 =>
          if Ascii.eqb q quote then
            match read_string r0 with
            | None => None
            | Some (k, r1) =>
                match skip_ws r1 with
                | EmptyString => None
                | String c r2 =>
                    if Ascii.eqb c ":" then
                      match read_value fuel' (skip_ws r2) with
                      | None => None
                      | Some (x, r3) =>
                          match skip_ws r3 with
                          | EmptyString => None
                          | String c' r4 =>
                              if Ascii.eqb c' "," then
                                match read_members fuel' (skip_ws r4) with
                                | Some (kvs, r5) => Some ((k, x) :: kvs, r5)
                                | None => None
                                end
                              else if Ascii.eqb c' "}" then Some ([(k, x)], r4)
                              else None
                          end
                      end
                    else None
                end
            end
          else None
      end
  end.

(** [json.loads]: one value, surrounded by optional whitespace. *)
Definition json_loads (s : string) : option pyval :=
  match read_value (String.length s) (skip_ws s) with
  | Some (v, rest) =>
      match skip_ws rest with
      | EmptyString => Some v
      | String _ _ => None
      end
  | None => None
  end.


(** What the reader makes of a float the encoder wrote. *)
Definition float_read_back (x : pyfloat) : pyfloat :=
  match x with
  | FDecimal negative significand decpt =>
      float_of_literal (float_literal negative significand decpt)
  | _ => x
  end.

(** What [json.loads] gives back on the encoding of a value without NaN and
    infinities: the value, its dictionaries rebuilt pair by pair and its
    floats read from their digits. *)
Fixpoint canon (v : pyval) : pyval :=
  match v with
  | PyFloat x => PyFloat (float_read_back x)
  | PyList xs => PyList (map canon xs)
  | PyDict kvs => PyDict (dict_of_pairs (map (fun kv => (fst kv, canon (snd kv))) kvs))
  | _ => v
  end.

(** The recursion depth the reader needs on the encoding of a value. *)
Fixpoint weight (v : pyval) : nat :=
  match v with
  | PyList xs => S (list_sum (map (fun x => S (weight x)) xs))
  | PyDict kvs => S (list_sum (map (fun kv => S (weight (snd kv))) kvs))
  | _ => 1
  end.

(** The text after a number must not extend it. *)
Definition delimited (s : string) : bool :=
  match s with
  | EmptyString => true
  | String c _ => negb (is_digit c) && negb (continues_number s)
  end.

(** A character that opens a value. *)
Definition opens_value (c : ascii) : bool :=
  negb (is_json_ws c) && negb (Ascii.eqb c "]") && negb (Ascii.eqb c "}").

(** Definitions used to relate the encoder and the reader. *)

Fixpoint all_digits (s : string) : bool :=
  match s with
  | EmptyString => true
  | String c rest => is_digit c && all_digits rest
  end.

(** An integer part: digits, the first a zero only when it is the only one. *)
Definition int_part (s : string) : bool :=
  match s with
  | EmptyString => false
  | String d ds =>
      all_digits s && negb (Ascii.eqb d "0" && negb (String.eqb ds EmptyString))
  end.

(** One digit or more. *)
Definition digit_run (s : string) : bool :=
  all_digits s && negb (String.eqb s EmptyString).

Definition well_formed (l : literal) : bool :=
  int_part (lit_int l)
  && match lit_frac l with Some f => digit_run f | None => true end
  && match lit_exp l with Some (_, ds) => digit_run ds | None => true end.

(** The text does not go on with a digit. *)
Definition stops (s : string) : bool :=
  match s with
  | EmptyString => true
  | String c _ => negb (is_digit c)
  end.

Definition float_finite (x : pyfloat) : bool :=
  match x with
  | FNaN | FInfinity _ => false
  | _ => true
  end.

(** Neither NaN nor an infinity anywhere in the value. *)
Fixpoint finite (v : pyval) : bool :=
  match v with
  | PyFloat x => float_finite x
  | PyList xs => forallb finite xs
  | PyDict kvs => forallb (fun kv => finite (snd kv)) kvs
  | _ => true
  end.

Definition opens_number (c : ascii) : bool := is_digit c || Ascii.eqb c "-".

(** After the comma of a separator comes white space only. *)
Definition gap (indent : option nat) (lvl : nat) : string :=
  match indent with
  | Some _ => newline_indent indent lvl
  | None => " "
  end.

Definition reads (v : pyval) : Prop :=
  forall indent lvl fuel rest,
    weight v <= fuel ->
    delimited rest = true ->
    read_value fuel (encode indent lvl v ++ rest) = Some (canon v, rest).

Definition elements_weight (xs : list pyval) : nat :=
  list_sum (map (fun x => S (weight x)) xs).

Definition member (indent : option nat) (lvl : nat) (kv : string * pyval) : string :=
  encode_string (fst kv) ++ key_separator ++ encode indent lvl (snd kv).

Definition members_weight (kvs : list (string * pyval)) : nat :=
  list_sum (map (fun kv => S (weight (snd kv))) kvs).

Definition canon_pair (kv : string * pyval) : string * pyval :=
  (fst kv, canon (snd kv)).

(** ** What the clients work on and give back, read off the world *)

(** The endpoints requested, in the order of the requests. *)
Fixpoint requests (t : list event) : list string :=
  match t with
  | [] => []
  | HttpGet url _ :: rest => url :: requests rest
  | _ :: rest => requests rest
  end.

Definition is_request (ev : event) : bool :=
  match ev with HttpGet _ _ => true | _ => false end.

Definition is_model_call (ev : event) : bool :=
  match ev with OllamaChat _ _ => true | _ => false end.

Definition is_sleep (ev : event) : bool :=
  match ev with Sleep => true | _ => false end.

(** Neither a request, nor a sleep, nor a model call. *)
Definition local_effect (ev : event) : Prop :=
  is_request ev = false /\ is_sleep ev = false /\ is_model_call ev = false.

Definition not_model (ev : event) : Prop := is_model_call ev = false.

(** What the Wikipedia endpoint gives: the decoded payload, or the exception of
    the request or of the decoding. *)
Definition wikipedia_outcome (w : World) (query : string) : outcome pyval :=
  match requests_get w wikipedia_url (wikipedia_params query) with
  | Returned r => json r
  | Raised e => Raised e
  end.

(** What the Wikipedia client returns. *)
Definition wikipedia_data (w : World) (query : string) : pyval :=
  match wikipedia_outcome w query with
  | Returned payload => payload
  | Raised e => PyDict [("error", PyStr (str_of_exn e))]
  end.

(** The page the primary client gets to scrape: none when the request raises,
    the body is blocked, or the parser raises. *)
Definition primary_page (w : World) (query : string) : option (list node) :=
  match requests_get w google_url (google_params query) with
  | Returned resp =>
      if blocked (text resp) then None
      else
        match BeautifulSoup w (text resp) with
        | Returned soup => Some soup
        | Raised _ => None
        end
  | Raised _ => None
  end.

Definition primary_records (w : World) (query : string) : list pyval :=
  match primary_page w query with
  | Some soup => scraped (soup_select sel_result_block soup)
  | None => []
  end.

(** [url.startswith('/search?') or url.startswith('/url?')] *)
Definition internal_link (url : string) : bool :=
  startswith "/search?" url || startswith "/url?" url.

(** The record the loop body appends for a block, if any: the block needs a
    title element and an anchor with an [href] that is not an internal link. *)
Definition block_record (block : node) : option pyval :=
  match select_one sel_title block, find_tag "a" block with
  | Some title, Some (Tag _ attrs _) =>
      match attr_lookup "href" attrs with
      | Some url =>
          if internal_link url then None
          else
            Some (PyDict
                    [("title", PyStr (strip (get_text title)));
                     ("url", PyStr url);
                     ("snippet",
                      PyStr (strip match select_one sel_snippet block with
                                   | Some s => get_text s
                                   | None => EmptyString
                                   end));
                     ("source", PyStr "google")])
      | None => None
      end
  | _, _ => None
  end.

Definition record_list (block : node) : list pyval :=
  match block_record block with
  | Some r => [r]
  | None => []
  end.

(** The shape of a record of the primary client. *)
Definition google_record (r : pyval) : Prop :=
  exists title url snippet,
    r = PyDict [("title", PyStr title); ("url", PyStr url);
                ("snippet", PyStr snippet); ("source", PyStr "google")]
    /\ strip title = title
    /\ strip snippet = snippet
    /\ internal_link url = false.

(** What the fallback client returns, read off the payload. *)
Definition fallback_records (w : World) (query : string) : list pyval :=
  match duckduckgo_payload w query with
  | Some d => [duckduckgo_record (field "Heading" d) (field "AbstractURL" d)
                 (field "AbstractText" d)]
  | None => []
  end.

(** [wiki_data["query"].get("searchinfo", {}).get("suggestion")] on a success
    response: the suggestion, [None] when there is none, and no value when
    [searchinfo] is not a mapping (the second [.get] raises). *)
Definition suggestion_of (qd : list (string * pyval)) : option pyval :=
  match dict_lookup "searchinfo" qd with
  | None => Some PyNone
  | Some (PyDict si) =>
      Some match dict_lookup "suggestion" si with
           | Some s => s
           | None => PyNone
           end
  | Some _ => None
  end.

(** The [wikipedia] field of the aggregate when the encyclopedia is enabled:
    the two extracted fields when the client's result is a mapping whose
    [query] is a mapping with a [search] key and a usable [searchinfo], the
    empty mapping in every other case. *)
Definition wikipedia_field (w : World) (query : string) : pyval :=
  match wikipedia_data w query with
  | PyDict d =>
      match dict_lookup "query" d with
      | Some (PyDict qd) =>
          match dict_lookup "search" qd, suggestion_of qd with
          | Some results, Some suggestion => wikipedia_entry results suggestion
          | _, _ => PyDict []
          end
      | _ => PyDict []
      end
  | _ => PyDict []
  end.

(** The three source fields of the aggregate and the aggregate itself, as
    functions of the toggles and of what the world answers. *)
Definition google_field (w : World) (query : string) (use_google : bool) : list pyval :=
  web_google use_google (primary_records w query).

Definition fallback_field (w : World) (query : string) (use_google : bool)
  : list pyval :=
  web_fallback use_google (primary_records w query) (fallback_records w query).

Definition encyclopedia_field (w : World) (query : string) (use_wiki : bool) : pyval :=
  if use_wiki then wikipedia_field w query else PyDict [].

Definition aggregate (w : World) (query : string) (use_google use_wiki : bool) : pyval :=
  composite query (google_field w query use_google)
    (encyclopedia_field w query use_wiki) (fallback_field w query use_google).

(** The answer of the pipeline: the fixed message when the three fields are
    empty, otherwise what the model call gives. *)
Definition pipeline_answer (w : World) (query : string) (use_google use_wiki : bool)
  : string :=
  if any [PyList (google_field w query use_google);
          encyclopedia_field w query use_wiki;
          PyList (fallback_field w query use_google)]
  then model_answer w
         (make_prompt query
            (json_dumps (Some 2) (aggregate w query use_google use_wiki)))
  else no_results_message.

(** The endpoints the aggregation requests, in order. *)
Definition expected_requests (w : World) (query : string) (use_google use_wiki : bool)
  : list string :=
  ((if use_google
    then google_url
           :: match primary_records w query with
              | [] => [duckduckgo_url]
              | _ :: _ => []
              end
    else [])
   ++ (if use_wiki then [wikipedia_url] else []))%list.

Fixpoint distinct (ks : list string) : bool :=
  match ks with
  | [] => true
  | k :: rest => negb (existsb (String.eqb k) rest) && distinct rest
  end.

(** The digits of the float are the shortest ones, as [repr] finds them: the
    last one is not a zero. *)
Definition float_shortest (x : pyfloat) : bool :=
  match x with
  | FDecimal _ significand _ =>
      String.eqb (rstrip_zeros (digits (Pos.to_uint significand)))
        (digits (Pos.to_uint significand))
  | _ => true
  end.

(** A value that text can carry exactly: every dictionary inside it has
    pairwise distinct keys, as every Python dictionary has, and every float is
    finite and given by its shortest digits, as every finite Python float
    is. *)
Fixpoint exact (v : pyval) : bool :=
  match v with
  | PyFloat x => float_finite x && float_shortest x
  | PyList xs => forallb exact xs
  | PyDict kvs => distinct (map fst kvs) && forallb (fun kv => exact (snd kv)) kvs
  | _ => true
  end.

(** Every payload the endpoints deliver satisfies [ok]. *)
Definition payloads (ok : pyval -> bool) (w : World) : Prop :=
  forall url params r v,
    requests_get w url params = Returned r ->
    json r = Returned v ->
    ok v = true.

(** More sample data: a block whose link is a redirect, a Wikipedia success
    response with one hit and a suggestion. *)
Definition redirect_block : node :=
  Tag "div" [("class", "g")]
    [Tag "a" [("href", "/url?q=https://d.example/")]
       [Tag "h3" [] [TextNode NavigableString "Redirect"]]].

Definition one_hit : list (string * pyval) :=
  [("query",
    PyDict [("searchinfo", PyDict [("totalhits", PyInt 1); ("suggestion", PyStr "cat")]);
            ("search", PyList [PyDict [("title", PyStr "Cat"); ("pageid", PyInt 6678)]])])].

(** A Wikipedia success response whose hit carries a score that
    [response.json()] decoded to a float. *)
Definition scored_hit (score : pyfloat) : list (string * pyval) :=
  [("query",
    PyDict [("searchinfo", PyDict [("totalhits", PyInt 1)]);
            ("search",
             PyList [PyDict [("title", PyStr "Cat"); ("score", PyFloat score)]])])].

(** A candidate block whose title and snippet elements hold a script, a style
    sheet, a template and a comment next to their text. *)
Definition noisy_block : node :=
  Tag "div" [("class", "g")]
    [Tag "a" [("href", "https://e.example/")]
       [Tag "h3" []
          [TextNode NavigableString "Title";
           Tag "script" [] [TextNode Script "var x=1;"];
           Tag "style" [] [TextNode Stylesheet "h3{color:red}"];
           TextNode Comment " note "]];
     Tag "span" [("class", "VwiC3b")]
       [TextNode NavigableString "snip";
        Tag "template" [] [Tag "b" [] [TextNode TemplateString "tpl"]]]].

(** ** The clients never raise *)

Create HintDb py.

Ltac py_unfold :=
  unfold http_get, response_json, parse_html, chat, logging;
  unfold run, call, with_local, try_except, bind, ret, raise, emit,
    get_local, set_local, of_outcome.

Lemma returns_ret {S A} (a : A) : returns (@ret S A a).
Proof. intros s; unfold ret; eauto. Qed.

Lemma returns_bind {S A B} (m : Py S A) (k : A -> Py S B) :
  returns m -> (forall a, returns (k a)) -> returns (bind m k).
Proof.
  intros Hm Hk s. unfold bind.
  destruct (Hm s) as (t & s' & a & ->).
  destruct (Hk a s') as (t' & s'' & b & ->). eauto.
Qed.

Lemma returns_try_except {S A} (body : Py S A) (handler : pyexn -> Py S A) :
  (forall e, returns (handler e)) -> returns (try_except body handler).
Proof.
  intros Hh s. unfold try_except.
  destruct (body s) as [[t s'] [a | e]]; eauto.
  destruct (Hh e s') as (t' & s'' & b & ->). eauto.
Qed.

Lemma returns_logging {S} lvl msg : returns (@logging lvl msg S).
Proof. intros s; unfold logging, emit; eauto. Qed.

Lemma returns_get_local {S} : returns (@get_local S).
Proof. intros s; unfold get_local; eauto. Qed.

Lemma returns_for_each {S A} (xs : list A) (body : A -> Py S unit) :
  (forall x, returns (body x)) -> returns (for_each xs body).
Proof.
  intros Hb. induction xs as [| x xs IH]; simpl.
  - apply returns_ret.
  - apply returns_bind; [apply Hb | intros _; exact IH].
Qed.

Lemma returns_run {A} (m : Eff A) :
  returns m -> exists t a, run m = (t, Returned a).
Proof.
  intros H. unfold run. destruct (H tt) as (t & s' & a & ->). eauto.
Qed.

#[local] Hint Resolve returns_ret returns_logging returns_get_local : py.

Lemma search_wikipedia_returns w query : returns (search_wikipedia w query).
Proof.
  unfold search_wikipedia.
  apply returns_bind; [auto with py | intros _].
  apply returns_try_except; intros e.
  apply returns_bind; auto with py.
Qed.

Lemma search_duckduckgo_returns w query : returns (search_duckduckgo w query).
Proof.
  unfold search_duckduckgo.
  apply returns_try_except; intros e.
  apply returns_bind; auto with py.
Qed.

Lemma scrape_block_returns result : returns (scrape_block result).
Proof.
  unfold scrape_block. apply returns_try_except; intros e; auto with py.
Qed.

Lemma search_google_returns w query : returns (search_google w query).
Proof.
  unfold search_google.
  apply returns_bind; [auto with py | intros _].
  apply returns_try_except; intros e.
  apply returns_bind; auto with py.
Qed.

(** ** Effects of the clients *)

Section Emits.
Context {S : Type} (P : event -> Prop).

Lemma emits_ret {A} (a : A) : emits P (@ret S A a).
Proof. intros s; constructor. Qed.

Lemma emits_raise {A} e : emits P (@raise S A e).
Proof. intros s; constructor. Qed.

Lemma emits_of_outcome {A} (o : outcome A) : emits P (@of_outcome S A o).
Proof. intros s; constructor. Qed.

Lemma emits_get_local : emits P (@get_local S).
Proof. intros s; constructor. Qed.

Lemma emits_set_local s' : emits P (@set_local S s').
Proof. intros s; constructor. Qed.

Lemma emits_emit ev : P ev -> emits P (@emit S ev).
Proof. intros H s; repeat constructor; exact H. Qed.

Lemma emits_bind {A B} (m : Py S A) (k : A -> Py S B) :
  emits P m -> (forall a, emits P (k a)) -> emits P (bind m k).
Proof.
  intros Hm Hk s. specialize (Hm s). unfold bind, trace_of in *.
  destruct (m s) as [[t s'] [a | e]]; simpl in *; auto.
  specialize (Hk a s'). destruct (k a s') as [[t' s''] o]; simpl in *.
  apply Forall_app; auto.
Qed.

Lemma emits_try_except {A} (body : Py S A) handler :
  emits P body -> (forall e, emits P (handler e)) -> emits P (try_except body handler).
Proof.
  intros Hm Hk s. specialize (Hm s). unfold try_except, trace_of in *.
  destruct (body s) as [[t s'] [a | e]]; simpl in *; auto.
  specialize (Hk e s'). destruct (handler e s') as [[t' s''] o]; simpl in *.
  apply Forall_app; auto.
Qed.

Lemma emits_for_each {A} (xs : list A) (body : A -> Py S unit) :
  (forall x, emits P (body x)) -> emits P (for_each xs body).
Proof.
  intros Hb. induction xs as [| x xs IH]; simpl.
  - apply emits_ret.
  - apply emits_bind; auto.
Qed.

Lemma emits_call {A} (m : Eff A) : emits P m -> emits P (@call S A m).
Proof.
  intros Hm s. specialize (Hm tt). unfold call, run, trace_of in *.
  destruct (m tt) as [[t s'] o]; simpl in *; auto.
Qed.

End Emits.

Lemma emits_with_local {S A} P (s0 : S) (m : Py S A) :
  emits P m -> emits P (with_local s0 m).
Proof.
  intros Hm s. specialize (Hm s0). unfold with_local, trace_of in *.
  destruct (m s0) as [[t s'] o]; simpl in *; auto.
Qed.

Lemma emits_run {A} P (m : Eff A) t o :
  emits P m -> run m = (t, o) -> Forall P t.
Proof.
  intros Hm H. specialize (Hm tt). unfold run, trace_of in *.
  destruct (m tt) as [[t' s'] o']; simpl in *. inversion H; subst; auto.
Qed.

Lemma count_none p t : Forall (fun ev => p ev = false) t -> count p t = 0.
Proof.
  unfold count. induction 1 as [| ev t Hev _ IH]; simpl; auto.
  rewrite Hev. exact IH.
Qed.

Lemma count_app p t1 t2 : count p (t1 ++ t2) = count p t1 + count p t2.
Proof. unfold count. rewrite filter_app, length_app. reflexivity. Qed.

Ltac emits_tac :=
  repeat first
    [ apply emits_ret | apply emits_raise | apply emits_of_outcome
    | apply emits_get_local | apply emits_set_local
    | apply emits_emit; reflexivity
    | apply emits_bind; [| intros ?]
    | apply emits_try_except; [| intros ?]
    | apply emits_with_local
    | progress unfold logging, http_get, response_json, parse_html, chat
    | match goal with |- emits _ (if ?b then _ else _) => destruct b end
    | match goal with |- emits _ (match ?x with _ => _ end) => destruct x end ].

Lemma scrape_block_off_fallback result : emits off_fallback (scrape_block result).
Proof.
  unfold scrape_block, scrape_body, text_of, tag_getitem. emits_tac.
Qed.

Lemma search_google_off_fallback w query :
  emits off_fallback (search_google w query).
Proof.
  unfold search_google.  emits_tac.
  apply emits_for_each. apply scrape_block_off_fallback.
Qed.

Lemma search_wikipedia_off_fallback w query :
  emits off_fallback (search_wikipedia w query).
Proof. unfold search_wikipedia. emits_tac. Qed.

Lemma call_run {S A} (m : Eff A) t o (s : S) :
  run m = (t, o) -> call m s = (t, s, o).
Proof. intros H. unfold call. rewrite H. reflexivity. Qed.

Lemma search_google_run w query : exists t g, run (search_google w query) = (t, Returned g).
Proof. apply returns_run, search_google_returns. Qed.

Lemma search_duckduckgo_run w query :
  exists t f, run (search_duckduckgo w query) = (t, Returned f).
Proof. apply returns_run, search_duckduckgo_returns. Qed.

Lemma search_wikipedia_run w query :
  exists t d, run (search_wikipedia w query) = (t, Returned d).
Proof. apply returns_run, search_wikipedia_returns. Qed.

Lemma assign_source_google query G W F v :
  assign_source "google" (PyList v) (composite query G W F)
  = ([], composite query v W F, Returned tt).
Proof. reflexivity. Qed.

Lemma assign_source_fallback query G W F v :
  assign_source "fallback" (PyList v) (composite query G W F)
  = ([], composite query G W v, Returned tt).
Proof. reflexivity. Qed.

Lemma assign_source_wikipedia query G W F v :
  assign_source "wikipedia" v (composite query G W F)
  = ([], composite query G v F, Returned tt).
Proof. reflexivity. Qed.

Lemma web_stage_run w query tg g td f :
  run (search_google w query) = (tg, Returned g) ->
  run (search_duckduckgo w query) = (td, Returned f) ->
  web_stage w query (initial_composite query)
  = match g with
    | [] => ((tg ++ fallback_notice :: td)%list,
             composite query [] (PyDict []) f, Returned tt)
    | _ :: _ => (tg, composite query g (PyDict []) [], Returned tt)
    end.
Proof.
  intros Hg Hd. unfold web_stage, bind.
  rewrite (call_run _ _ _ _ Hg).
  destruct g as [| x g]; cbn [truthy negb].
  - unfold logging, emit. rewrite (call_run _ _ _ _ Hd).
    change (initial_composite query) with (composite query [] (PyDict []) []).
    rewrite assign_source_fallback. cbn [app]. rewrite app_nil_r. reflexivity.
  - change (initial_composite query) with (composite query [] (PyDict []) []).
    rewrite assign_source_google. rewrite app_nil_r. reflexivity.
Qed.

Ltac wiki_case Htw :=
  simpl; rewrite ?app_nil_r;
  do 3 eexists; split; [reflexivity | split; [exact Htw |]];
  first [ left; eexists; split; reflexivity
        | right; split; [reflexivity | left; reflexivity]
        | right; split; [reflexivity | right; do 2 eexists; reflexivity] ].

(** The encyclopedia stage either raises and leaves the composite as it was, or
    returns having stored nothing or the two extracted fields. *)
Lemma wiki_stage_run w query G F :
  exists t c o,
    wiki_stage w query (composite query G (PyDict []) F) = (t, c, o)
    /\ Forall off_fallback t
    /\ ((exists e, o = Raised e /\ c = composite query G (PyDict []) F)
        \/ (o = Returned tt
            /\ (c = composite query G (PyDict []) F
                \/ exists r s, c = composite query G (wikipedia_entry r s) F))).
Proof.
  destruct (search_wikipedia_run w query) as (tw & d & Hw).
  pose proof (emits_run _ _ _ _ (search_wikipedia_off_fallback w query) Hw) as Htw.
  unfold wiki_stage, bind. rewrite (call_run _ _ _ _ Hw).
  unfold py_contains, py_getitem, py_get, ret, raise.
  destruct d as [ | b | n | fl | s | xs | kvs ]; try solve [wiki_case Htw].
  - destruct (is_substring "query" s); wiki_case Htw.
  - destruct (existsb _ xs); wiki_case Htw.
  - unfold dict_has. destruct (dict_lookup "query" kvs) as [q1 |]; [| wiki_case Htw].
    destruct q1 as [ | b | n | fl | s | xs | qd ]; try solve [wiki_case Htw].
    destruct (dict_lookup "search" qd) as [results |]; [| wiki_case Htw].
    destruct (dict_lookup "searchinfo" qd) as [si |].
    + destruct si as [ | b | n | fl | s | xs | sd ]; try solve [wiki_case Htw].
      destruct (dict_lookup "suggestion" sd); wiki_case Htw.
    + wiki_case Htw.
Qed.

(** A response without a [query] field stores nothing. *)
Lemma wiki_stage_no_query w query tw d c :
  run (search_wikipedia w query) = (tw, Returned (PyDict d)) ->
  dict_has "query" d = false ->
  wiki_stage w query c = (tw, c, Returned tt).
Proof.
  intros Hw Hq. unfold wiki_stage, bind. rewrite (call_run _ _ _ _ Hw).
  unfold py_contains, ret. rewrite Hq. rewrite !app_nil_r. reflexivity.
Qed.

(** A success response whose [searchinfo] offers no suggestion is unpacked
    into the hit list and [None]. *)
Lemma wiki_stage_hits w query tw d qd results G W F :
  run (search_wikipedia w query) = (tw, Returned (PyDict d)) ->
  dict_lookup "query" d = Some (PyDict qd) ->
  dict_lookup "search" qd = Some results ->
  (forall si, dict_lookup "searchinfo" qd = Some si ->
              exists sd, si = PyDict sd /\ dict_lookup "suggestion" sd = None) ->
  wiki_stage w query (composite query G W F)
  = (tw, composite query G (wikipedia_entry results PyNone) F, Returned tt).
Proof.
  intros Hw Hq Hs Hi. unfold wiki_stage, bind. rewrite (call_run _ _ _ _ Hw).
  unfold py_contains, py_getitem, py_get, ret, raise, dict_has.
  rewrite Hq. cbn iota beta. rewrite Hs. cbn iota beta.
  destruct (dict_lookup "searchinfo" qd) as [si |] eqn:Hsi.
  - destruct (Hi si eq_refl) as (sd & -> & Hsd). rewrite Hsd. simpl.
    rewrite !app_nil_r. reflexivity.
  - simpl. rewrite !app_nil_r. reflexivity.
Qed.

Lemma scrape_block_run block results :
  exists t,
    scrape_block block results = (t, (results ++ scraped [block])%list, Returned tt).
Proof.
  unfold scraped, for_each, scrape_block, scrape_body, try_except, bind,
    text_of, tag_getitem, ret, raise, logging, emit, get_local, set_local.
  destruct (select_one sel_title block) as [title |]; cbn iota beta;
    [| rewrite ?app_nil_r; eexists; reflexivity].
  destruct (find_tag "a" block) as [[cls s | nm attrs cs] |]; cbn iota beta;
    try (rewrite ?app_nil_r; eexists; reflexivity).
  destruct (attr_lookup "href" attrs) as [url |]; cbn iota beta;
    [| rewrite ?app_nil_r; eexists; reflexivity].
  destruct (startswith "/search?" url || startswith "/url?" url); cbn iota beta.
  - rewrite ?app_nil_r; eexists; reflexivity.
  - eexists; reflexivity.
Qed.

Lemma for_each_scrape blocks results :
  exists t,
    for_each blocks scrape_block results
    = (t, (results ++ scraped blocks)%list, Returned tt).
Proof.
  revert results. induction blocks as [| b bs IH]; intros results.
  - simpl. unfold ret. rewrite app_nil_r. eauto.
  - unfold scraped. simpl. unfold bind.
    destruct (scrape_block_run b results) as (t1 & ->).
    destruct (scrape_block_run b []) as (t1' & ->).
    destruct (IH (results ++ scraped [b])%list) as (t2 & ->).
    destruct (IH ([] ++ scraped [b])%list) as (t2' & ->).
    simpl. rewrite app_assoc. eauto.
Qed.

Lemma scraped_cons block blocks :
  scraped (block :: blocks) = (scraped [block] ++ scraped blocks)%list.
Proof.
  unfold scraped at 1. simpl. unfold bind.
  destruct (scrape_block_run block []) as (t1 & ->).
  destruct (for_each_scrape blocks ([] ++ scraped [block])%list) as (t2 & ->).
  reflexivity.
Qed.

Lemma scraped_app xs ys : scraped (xs ++ ys) = (scraped xs ++ scraped ys)%list.
Proof.
  induction xs as [| x xs IH]; simpl.
  - reflexivity.
  - rewrite scraped_cons, IH, (scraped_cons x xs), app_assoc. reflexivity.
Qed.

Lemma scrape_body_raised block results t results' e :
  scrape_body block results = (t, results', Raised e) -> results' = results.
Proof.
  unfold scrape_body, bind, text_of, tag_getitem, ret, raise, get_local, set_local.
  destruct (select_one sel_title block) as [title |]; cbn iota beta;
    [| intros H; inversion H; reflexivity].
  destruct (find_tag "a" block) as [[cls s | nm attrs cs] |]; cbn iota beta;
    try (intros H; inversion H; reflexivity).
  destruct (attr_lookup "href" attrs) as [url |]; cbn iota beta;
    [| intros H; inversion H; reflexivity].
  destruct (startswith "/search?" url || startswith "/url?" url); cbn iota beta;
    intros H; inversion H.
Qed.

(** The ways an extraction raises: no title element, no anchor, an anchor
    without [href]. *)
Lemma missing_title_raises block :
  select_one sel_title block = None -> extraction_raises block.
Proof.
  intros H. unfold extraction_raises, scrape_body, bind. rewrite H.
  do 3 eexists. reflexivity.
Qed.

Lemma missing_anchor_raises block :
  find_tag "a" block = None -> extraction_raises block.
Proof.
  intros H. unfold extraction_raises, scrape_body, bind, text_of, ret. rewrite H.
  destruct (select_one sel_title block); do 3 eexists; reflexivity.
Qed.

Lemma missing_href_raises block nm attrs cs :
  find_tag "a" block = Some (Tag nm attrs cs) ->
  attr_lookup "href" attrs = None ->
  extraction_raises block.
Proof.
  intros H Hhref.
  unfold extraction_raises, scrape_body, bind, text_of, tag_getitem, ret.
  rewrite H, Hhref.
  destruct (select_one sel_title block); do 3 eexists; reflexivity.
Qed.

Lemma scraped_raises block : extraction_raises block -> scraped [block] = [].
Proof.
  intros (t & results & e & H).
  pose proof (scrape_body_raised _ _ _ _ _ H) as ->.
  unfold scraped, for_each, scrape_block, try_except, bind.
  rewrite H. reflexivity.
Qed.

Lemma search_google_parsed w query resp soup :
  requests_get w google_url (google_params query) = Returned resp ->
  blocked (text resp) = false ->
  BeautifulSoup w (text resp) = Returned soup ->
  exists t,
    run (search_google w query)
    = (t, Returned (scraped (soup_select sel_result_block soup))).
Proof.
  intros Hget Hblk Hsoup.
  unfold search_google. py_unfold. rewrite Hget. cbn iota beta.
  rewrite Hblk. rewrite Hsoup. cbn iota beta.
  destruct (for_each_scrape (soup_select sel_result_block soup) []) as (t & ->).
  eexists. reflexivity.
Qed.

(** ** The aggregator *)

Lemma try_bind_returned {S A B} (m : Py S A) (k : A -> Py S B) handler s t1 s1 a :
  m s = (t1, s1, Returned a) ->
  try_except (bind m k) handler s
  = match try_except (k a) handler s1 with
    | (t2, s2, o) => ((t1 ++ t2)%list, s2, o)
    end.
Proof.
  intros H. unfold try_except, bind. rewrite H.
  destruct (k a s1) as [[t2 s2] [b | e]]; [reflexivity |].
  destruct (handler e s2) as [[t3 s3] o]. rewrite app_assoc. reflexivity.
Qed.

(** From the encyclopedia stage on: the composite comes back, raised or not,
    with the web fields untouched. *)
Lemma aggregate_tail w query use_wiki G F :
  exists t W,
    try_except (stage use_wiki (wiki_stage w query) ;; get_local) on_failure
      (composite query G (PyDict []) F)
    = (t, composite query G W F, Returned (composite query G W F))
    /\ Forall off_fallback t
    /\ (W = PyDict [] \/ exists r s, W = wikipedia_entry r s).
Proof.
  destruct use_wiki; unfold stage.
  - destruct (wiki_stage_run w query G F) as (t & c & o & Hrun & Ht & Hc).
    unfold try_except, bind, on_failure, logging, emit, get_local. rewrite Hrun.
    destruct Hc as [(e & -> & ->) | (-> & [-> | (r & s & ->)])]; cbn iota beta.
    + exists (t ++ [Log ERROR ("Combination failed: " ++ str_of_exn e)] ++ [])%list,
        (PyDict []).
      repeat split; auto.
      apply Forall_app; split; [exact Ht | repeat constructor].
    + exists (t ++ [])%list, (PyDict []). rewrite app_nil_r. auto.
    + exists (t ++ [])%list, (wikipedia_entry r s). rewrite app_nil_r. eauto 6.
  - exists [], (PyDict []). repeat split; auto.
Qed.

Lemma stage_web_run w query use_google tg g td f :
  run (search_google w query) = (tg, Returned g) ->
  run (search_duckduckgo w query) = (td, Returned f) ->
  stage use_google (web_stage w query) (initial_composite query)
  = (web_trace use_google tg g td,
     composite query (web_google use_google g) (PyDict [])
       (web_fallback use_google g f),
     Returned tt).
Proof.
  intros Hg Hd. destruct use_google; [| reflexivity].
  unfold stage. rewrite (web_stage_run w query _ _ _ _ Hg Hd).
  destruct g; reflexivity.
Qed.

(** The aggregation is the web stage followed by the rest of the [try]
    block, run on the composite the web stage left. *)
Lemma combine_results_via_tail w query use_google use_wiki tg g td f :
  run (search_google w query) = (tg, Returned g) ->
  run (search_duckduckgo w query) = (td, Returned f) ->
  run (combine_results w query use_google use_wiki)
  = match try_except (stage use_wiki (wiki_stage w query) ;; get_local) on_failure
            (composite query (web_google use_google g) (PyDict [])
               (web_fallback use_google g f)) with
    | (t, _, o) => ((web_trace use_google tg g td ++ t)%list, o)
    end.
Proof.
  intros Hg Hd. unfold combine_results, run, with_local.
  fold on_failure.
  rewrite (try_bind_returned _ _ _ _ _ _ _ (stage_web_run w query _ _ _ _ _ Hg Hd)).
  match goal with
  | |- context [try_except ?m ?h ?c] => destruct (try_except m h c) as [[t c'] o]
  end; reflexivity.
Qed.

(** The whole aggregation, given what the two web clients answer. *)
Lemma combine_results_run w query use_google use_wiki tg g td f :
  run (search_google w query) = (tg, Returned g) ->
  run (search_duckduckgo w query) = (td, Returned f) ->
  exists t W,
    Forall off_fallback t
    /\ (W = PyDict [] \/ exists r s, W = wikipedia_entry r s)
    /\ run (combine_results w query use_google use_wiki)
       = if use_google then
           match g with
           | [] => ((tg ++ fallback_notice :: td ++ t)%list,
                    Returned (composite query [] W f))
           | _ :: _ => ((tg ++ t)%list, Returned (composite query g W []))
           end
         else (t, Returned (composite query [] W [])).
Proof.
  intros Hg Hd. rewrite (combine_results_via_tail _ _ _ _ _ _ _ _ Hg Hd).
  destruct (aggregate_tail w query use_wiki (web_google use_google g)
              (web_fallback use_google g f)) as (t & W & -> & Ht & HW).
  exists t, W. repeat split; auto.
  destruct use_google; [destruct g |]; cbn [web_google web_fallback web_trace];
    rewrite <- ?app_assoc; reflexivity.
Qed.

(** ** The fallback client *)

Lemma search_duckduckgo_spec w query :
  exists t,
    run (search_duckduckgo w query)
    = (t, Returned
            match duckduckgo_payload w query with
            | Some d => [duckduckgo_record (field "Heading" d) (field "AbstractURL" d)
                           (field "AbstractText" d)]
            | None => []
            end)
    /\ count (is_request_to duckduckgo_url) t = 1.
Proof.
  unfold search_duckduckgo, duckduckgo_payload. py_unfold.
  destruct (requests_get w duckduckgo_url (duckduckgo_params query)) as [r | e];
    cbn iota beta; [| eexists; split; reflexivity].
  destruct (json r) as [data | e]; cbn iota beta; [| eexists; split; reflexivity].
  destruct data; simpl; try (eexists; split; reflexivity).
  unfold field.
  destruct (dict_lookup "Heading" kvs), (dict_lookup "AbstractURL" kvs),
    (dict_lookup "AbstractText" kvs); simpl; eexists; split; reflexivity.
Qed.

(** C2, as the code has it: for every query the fallback client returns either
    the empty list or a one-element list whose element has exactly the fields
    title, url, snippet and source = "duckduckgo".  It returns the one-element
    list whenever the payload decodes to an object, a missing Heading,
    AbstractURL or AbstractText being replaced by the empty string; it returns
    the empty list exactly when the request raises, the decoding raises, or the
    payload is not an object. *)
Theorem search_duckduckgo_result w query :
  exists t,
    run (search_duckduckgo w query)
    = (t, Returned
            match duckduckgo_payload w query with
            | Some d => [duckduckgo_record (field "Heading" d) (field "AbstractURL" d)
                           (field "AbstractText" d)]
            | None => []
            end).
Proof.
  destruct (search_duckduckgo_spec w query) as (t & H & _). eauto.
Qed.

(** C2 as stated fails: on the payload [{}], which carries none of Heading,
    AbstractURL, AbstractText, the client returns a one-element list of empty
    strings, not the empty list. *)
Lemma search_duckduckgo_empty_payload :
  dict_has "Heading" [] = false
  /\ dict_has "AbstractURL" [] = false
  /\ dict_has "AbstractText" [] = false
  /\ run (search_duckduckgo (answers_with "{}" (Returned (PyDict [])) []) "cats")
     = ([HttpGet duckduckgo_url (duckduckgo_params "cats");
         Log INFO "response received"],
        Returned [duckduckgo_record (PyStr EmptyString) (PyStr EmptyString)
                    (PyStr EmptyString)])
  /\ snd (run (search_duckduckgo (answers_with "{}" (Returned (PyDict [])) []) "cats"))
     <> Returned [].
Proof.
  repeat split; try reflexivity. intros H; discriminate H.
Qed.

(** ** The fallback chain *)

(** C3: with web search enabled, when the primary client returns the empty
    list the fallback endpoint is requested exactly once, the fallback's output
    is stored under [fallback] and [google] stays empty; when the primary client
    returns a non-empty list the fallback endpoint is never requested and the
    primary output is stored under [google]. *)
Theorem fallback_iff_primary_empty w query use_wiki tg g :
  run (search_google w query) = (tg, Returned g) ->
  exists t W td f,
    run (search_duckduckgo w query) = (td, Returned f)
    /\ run (combine_results w query true use_wiki)
       = (t, Returned match g with
                      | [] => composite query [] W f
                      | _ :: _ => composite query g W []
                      end)
    /\ count (is_request_to duckduckgo_url) t
       = match g with [] => 1 | _ :: _ => 0 end.
Proof.
  intros Hg.
  destruct (search_duckduckgo_spec w query) as (td & Hd & Hcount).
  destruct (combine_results_run w query true use_wiki _ _ _ _ Hg Hd)
    as (t & W & Ht & _ & Hrun).
  pose proof (emits_run _ _ _ _ (search_google_off_fallback w query) Hg) as Htg.
  destruct g as [| x g].
  - eexists _, W, td, _. split; [exact Hd | split; [exact Hrun |]].
    rewrite count_app. change (fallback_notice :: td ++ t)%list
      with ([fallback_notice] ++ td ++ t)%list.
    rewrite !count_app, Hcount, (count_none _ tg Htg), (count_none _ t Ht).
    reflexivity.
  - eexists _, W, td, _. split; [exact Hd | split; [exact Hrun |]].
    rewrite count_app, (count_none _ tg Htg), (count_none _ t Ht). reflexivity.
Qed.

(** C4: whatever the query and the toggles, at most one of [google] and
    [fallback] is non-empty in the aggregate. *)
Theorem google_fallback_exclusive w query use_google use_wiki :
  exists t G W F,
    run (combine_results w query use_google use_wiki)
    = (t, Returned (composite query G W F))
    /\ (G = [] \/ F = []).
Proof.
  destruct (search_google_run w query) as (tg & g & Hg).
  destruct (search_duckduckgo_run w query) as (td & f & Hd).
  destruct (combine_results_run w query use_google use_wiki _ _ _ _ Hg Hd)
    as (t & W & _ & _ & Hrun).
  destruct use_google; [destruct g as [| x g] |]; rewrite Hrun.
  - exists (tg ++ fallback_notice :: td ++ t)%list, [], W, f. auto.
  - exists (tg ++ t)%list, (x :: g), W, []. auto.
  - exists t, [], W, []. auto.
Qed.

(** ** The synthesizer *)

Lemma generate_answer_run w query G W F :
  run (generate_answer w query (composite query G W F))
  = if any [PyList G; W; PyList F]
    then
      let prompt :=
        make_prompt query (json_dumps (Some 2) (composite query G W F)) in
      ([OllamaChat model_name prompt], Returned (model_answer w prompt))
    else ([], Returned no_results_message).
Proof.
  unfold generate_answer, model_answer.
  set (prompt := make_prompt query (json_dumps (Some 2) (composite query G W F))).
  unfold composite, py_getitem, py_values, dict_lookup.
  change (String.eqb "sources" "query") with false.
  change (String.eqb "sources" "sources") with true.
  cbn iota. unfold map, snd.
  py_unfold. cbn iota beta.
  destruct (any [PyList G; W; PyList F]); cbn iota beta; [| reflexivity].
  destruct (ollama_chat w model_name prompt) as [r | e]; reflexivity.
Qed.

(** C5: with both toggles off the aggregate has all three source fields empty
    -- and no effect was performed to build it -- and the synthesizer answers it
    with the fixed message without calling the model (its trace is empty). *)
Theorem both_toggles_off w query :
  run (combine_results w query false false)
  = ([], Returned (composite query [] (PyDict []) []))
  /\ run (generate_answer w query (composite query [] (PyDict []) []))
     = ([], Returned no_results_message).
Proof.
  split; [reflexivity |]. rewrite generate_answer_run. reflexivity.
Qed.

(** ** The primary client *)

(** C6: when the response body contains one of the block phrases, the primary
    client returns the empty list at once: its effects are the start record,
    the delay, the request and the error record, and no page is parsed. *)
Theorem search_google_blocked w query resp :
  requests_get w google_url (google_params query) = Returned resp ->
  blocked (text resp) = true ->
  exists t,
    run (search_google w query) = (t, Returned [])
    /\ t = [Log INFO ("Starting Google search for: " ++ query);
            Sleep;
            HttpGet google_url (google_params query);
            Log ERROR "Google blocked request (CAPTCHA detected)"]
    /\ count is_parse t = 0.
Proof.
  intros Hget Hblk. unfold search_google. py_unfold.
  rewrite Hget. cbn iota beta. rewrite Hblk. cbn iota beta.
  eexists. split; [reflexivity | split; reflexivity].
Qed.

(** C6 on a page that carries the phrase "unusual traffic". *)
Lemma search_google_blocked_witness :
  exists t,
    run (search_google
           (answers_with "Our systems have detected unusual traffic"
              (Raised (PyExn "JSONDecodeError" "Expecting value")) [])
           "cats")
    = (t, Returned [])
    /\ t = [Log INFO ("Starting Google search for: " ++ "cats");
            Sleep;
            HttpGet google_url (google_params "cats");
            Log ERROR "Google blocked request (CAPTCHA detected)"]
    /\ count is_parse t = 0.
Proof.
  apply (search_google_blocked
           (answers_with "Our systems have detected unusual traffic"
              (Raised (PyExn "JSONDecodeError" "Expecting value")) [])
           "cats"
           {| text := "Our systems have detected unusual traffic";
              json := Raised (PyExn "JSONDecodeError" "Expecting value") |});
    reflexivity.
Defined.

(** C7: a candidate block whose extraction raises is skipped: the client
    returns, in order, the records of the blocks before it followed by the
    records of the blocks after it, and the error does not leave the client. *)
Theorem search_google_skips_failing_block w query resp soup pre bad post :
  requests_get w google_url (google_params query) = Returned resp ->
  blocked (text resp) = false ->
  BeautifulSoup w (text resp) = Returned soup ->
  soup_select sel_result_block soup = (pre ++ bad :: post)%list ->
  extraction_raises bad ->
  exists t,
    run (search_google w query) = (t, Returned (scraped pre ++ scraped post)%list).
Proof.
  intros Hget Hblk Hsoup Hsel Hbad.
  destruct (search_google_parsed w query resp soup Hget Hblk Hsoup) as (t & Hrun).
  exists t. rewrite Hrun, Hsel.
  rewrite scraped_app, scraped_cons, (scraped_raises bad Hbad). reflexivity.
Qed.

(** ** The encyclopedia stage *)

(** C8: when the Wikipedia client's result is a mapping with an [error] field
    and no [query] field, the aggregate's [wikipedia] field is the empty
    mapping; the error value appears nowhere in the composite. *)
Theorem wikipedia_error_not_surfaced w query use_google use_wiki tw d :
  run (search_wikipedia w query) = (tw, Returned (PyDict d)) ->
  dict_has "error" d = true ->
  dict_has "query" d = false ->
  exists t G F,
    run (combine_results w query use_google use_wiki)
    = (t, Returned (composite query G (PyDict []) F)).
Proof.
  intros Hw _ Hq.
  destruct (search_google_run w query) as (tg & g & Hg).
  destruct (search_duckduckgo_run w query) as (td & f & Hd).
  rewrite (combine_results_via_tail _ _ _ _ _ _ _ _ Hg Hd).
  destruct use_wiki; unfold stage, try_except, bind.
  - rewrite (wiki_stage_no_query w query tw d _ Hw Hq). unfold get_local.
    eauto.
  - unfold ret, get_local. eauto.
Qed.

(** C9: the aggregator always returns, and what it returns has the fixed
    shape with the [query] field equal to the input query.  In particular,
    when the encyclopedia stage raises after the web stage has completed, the
    value returned is the composite exactly as the web stage left it. *)
Theorem combine_results_always_returns w query use_google use_wiki :
  exists t G W F,
    run (combine_results w query use_google use_wiki)
    = (t, Returned (composite query G (PyDict W) F))
    /\ forall t1 c1 t2 c2 e,
         stage use_google (web_stage w query) (initial_composite query)
         = (t1, c1, Returned tt) ->
         stage use_wiki (wiki_stage w query) c1 = (t2, c2, Raised e) ->
         composite query G (PyDict W) F = c1.
Proof.
  destruct (search_google_run w query) as (tg & g & Hg).
  destruct (search_duckduckgo_run w query) as (td & f & Hd).
  rewrite (combine_results_via_tail _ _ _ _ _ _ _ _ Hg Hd).
  pose proof (stage_web_run w query use_google _ _ _ _ Hg Hd) as Hweb.
  set (G := web_google use_google g) in *.
  set (F := web_fallback use_google g f) in *.
  destruct use_wiki; unfold stage at 1, try_except, bind.
  - destruct (wiki_stage_run w query G F) as (t & c & o & Hrun & _ & Hc).
    rewrite Hrun.
    destruct Hc as [(e & -> & ->) | (-> & [-> | (r & s & ->)])];
      unfold on_failure, logging, emit, bind, get_local; cbn iota beta.
    + exists (web_trace use_google tg g td
              ++ t ++ [Log ERROR ("Combination failed: " ++ str_of_exn e)] ++ [])%list,
        G, [], F.
      split; [reflexivity |].
      intros t1 c1 t2 c2 e' H1 H2. rewrite Hweb in H1. inversion H1. reflexivity.
    + exists (web_trace use_google tg g td ++ t ++ [])%list, G, [], F.
      split; [reflexivity |].
      intros t1 c1 t2 c2 e' H1 H2. rewrite Hweb in H1. inversion H1. reflexivity.
    + exists (web_trace use_google tg g td ++ t ++ [])%list, G,
        [("results", r); ("suggestion", s)], F.
      split; [reflexivity |].
      intros t1 c1 t2 c2 e' H1 H2. rewrite Hweb in H1. inversion H1; subst c1.
      unfold stage in H2. rewrite Hrun in H2. discriminate H2.
  - exists (web_trace use_google tg g td ++ [] ++ [])%list, G, [], F.
    split; [reflexivity |].
    intros t1 c1 t2 c2 e' H1 H2. rewrite Hweb in H1. inversion H1. reflexivity.
Qed.

(** C9, an instance: the Wikipedia endpoint answers with the JSON string
    ["query"]; the membership test succeeds (a substring test), the subscript
    raises, and the composite assembled so far comes back. *)
Example combine_results_survives_bad_payload :
  run (combine_results (answers_with "{}" (Returned (PyStr "query")) [])
         "cats" false true)
  = ([Log INFO "Starting Wikipedia search for: cats";
      HttpGet wikipedia_url (wikipedia_params "cats");
      Log INFO "Wikipedia search completed";
      Log ERROR "Combination failed: string indices must be integers, not 'str'"],
     Returned (composite "cats" [] (PyDict []) [])).
Proof. reflexivity. Qed.

(** C10: on an aggregate the short-circuit is taken (fixed message, no
    effect) exactly when [google] is empty, [fallback] is empty and
    [wikipedia] has no key.  In particular, when the Wikipedia API succeeds
    with an empty hit list and no suggestion, the aggregator stores
    [{results: [], suggestion: None}], which has keys: the synthesizer then
    calls the model, once, and answers with what that call gives. *)
Theorem zero_evidence_short_circuit w query :
  (forall G W F,
      run (generate_answer w query (composite query G (PyDict W) F))
      = ([], Returned no_results_message)
      <-> G = [] /\ W = [] /\ F = [])
  /\ (forall use_google tw d qd,
         run (search_wikipedia w query) = (tw, Returned (PyDict d)) ->
         dict_lookup "query" d = Some (PyDict qd) ->
         dict_lookup "search" qd = Some (PyList []) ->
         (forall si, dict_lookup "searchinfo" qd = Some si ->
                     exists sd, si = PyDict sd /\ dict_lookup "suggestion" sd = None) ->
         exists t G F,
           let c := composite query G (wikipedia_entry (PyList []) PyNone) F in
           let prompt := make_prompt query (json_dumps (Some 2) c) in
           run (combine_results w query use_google true) = (t, Returned c)
           /\ run (generate_answer w query c)
              = ([OllamaChat model_name prompt], Returned (model_answer w prompt))).
Proof.
  split.
  - intros G W F. rewrite generate_answer_run. unfold any, existsb, truthy.
    destruct G as [| x G]; [destruct W as [| kv W]; [destruct F as [| y F] |] |];
      cbn iota; cbn [orb]; split; intros H;
      solve [ auto | discriminate H | destruct H as (? & ? & ?); discriminate ].
  - intros use_google tw d qd Hw Hq Hs Hi.
    destruct (search_google_run w query) as (tg & g & Hg).
    destruct (search_duckduckgo_run w query) as (td & f & Hd).
    rewrite (combine_results_via_tail _ _ _ _ _ _ _ _ Hg Hd).
    unfold stage, try_except, bind.
    rewrite (wiki_stage_hits w query tw d qd _ _ _ _ Hw Hq Hs Hi).
    unfold get_local.
    do 3 eexists. cbn zeta. split; [reflexivity |].
    rewrite generate_answer_run. unfold any, existsb, truthy, wikipedia_entry.
    rewrite orb_true_r. reflexivity.
Qed.

(** ** Reading back what the encoder wrote *)

(** Induction on values that reaches the items of lists and dictionaries. *)
Section PyvalInd.

Variable P : pyval -> Prop.
Hypothesis HNone : P PyNone.
Hypothesis HBool : forall b, P (PyBool b).
Hypothesis HInt : forall n, P (PyInt n).
Hypothesis HFloat : forall x, P (PyFloat x).
Hypothesis HStr : forall s, P (PyStr s).
Hypothesis HList : forall xs, Forall P xs -> P (PyList xs).
Hypothesis HDict : forall kvs, Forall (fun kv => P (snd kv)) kvs -> P (PyDict kvs).

Fixpoint pyval_nested_ind (v : pyval) : P v :=
  match v with
  | PyNone => HNone
  | PyBool b => HBool b
  | PyInt n => HInt n
  | PyFloat x => HFloat x
  | PyStr s => HStr s
  | PyList xs =>
      HList xs
        ((fix go (l : list pyval) : Forall P l :=
            match l with
            | [] => Forall_nil P
            | x :: l' => Forall_cons x (pyval_nested_ind x) (go l')
            end) xs)
  | PyDict kvs =>
      HDict kvs
        ((fix go (l : list (string * pyval)) : Forall (fun kv => P (snd kv)) l :=
            match l with
            | [] => Forall_nil _
            | kv :: l' => Forall_cons kv (pyval_nested_ind (snd kv)) (go l')
            end) kvs)
  end.

End PyvalInd.

(** *** Strings *)

Lemma append_assoc (a b c : string) : (a ++ b) ++ c = a ++ (b ++ c).
Proof. induction a as [| x a IH]; simpl; [reflexivity | now rewrite IH]. Qed.

Lemma append_nil_r (a : string) : a ++ EmptyString = a.
Proof. induction a as [| x a IH]; simpl; [reflexivity | now rewrite IH]. Qed.

Lemma length_append (a b : string) :
  String.length (a ++ b) = String.length a + String.length b.
Proof. induction a as [| x a IH]; simpl; [reflexivity | now rewrite IH]. Qed.

Lemma read_string_escape_char c tail :
  read_string (escape_char c ++ tail) = prepend c (read_string tail).
Proof.
  destruct c as [[|] [|] [|] [|] [|] [|] [|] [|]]; reflexivity.
Qed.

Lemma read_string_escape s rest :
  read_string (escape_string s ++ String quote rest) = Some (s, rest).
Proof.
  induction s as [| c s IH]; simpl.
  - reflexivity.
  - rewrite append_assoc, read_string_escape_char, IH. reflexivity.
Qed.

Lemma read_string_encode s rest :
  exists body,
    encode_string s ++ rest = String quote body
    /\ read_string body = Some (s, rest).
Proof.
  exists (escape_string s ++ String quote rest). split.
  - unfold encode_string. simpl. rewrite append_assoc. reflexivity.
  - apply read_string_escape.
Qed.

(** *** Numbers *)

Lemma delimited_stops rest : delimited rest = true -> stops rest = true.
Proof.
  destruct rest as [| c rest]; [reflexivity |]. unfold delimited, stops.
  intros H. apply andb_true_iff in H as [H _]. exact H.
Qed.

Lemma continues_number_false rest :
  delimited rest = true -> continues_number rest = false.
Proof.
  destruct rest as [| c rest]; [reflexivity |].
  unfold delimited. intros H. apply andb_true_iff in H as [_ H].
  apply negb_true_iff in H. exact H.
Qed.

Lemma span_digits_run ds rest :
  all_digits ds = true -> stops rest = true ->
  span_digits (ds ++ rest) = (ds, rest).
Proof.
  intros Hds Hrest. induction ds as [| c ds IH]; simpl.
  - destruct rest as [| c rest]; [reflexivity |]. simpl in *.
    apply negb_true_iff in Hrest. rewrite Hrest. reflexivity.
  - simpl in Hds. apply andb_true_iff in Hds as [Hc Hds].
    rewrite Hc, (IH Hds). reflexivity.
Qed.

Lemma digit_not_sign c :
  is_digit c = true ->
  Ascii.eqb c "-" = false /\ Ascii.eqb c "+" = false
  /\ Ascii.eqb c "." = false /\ Ascii.eqb c "e" = false /\ Ascii.eqb c "E" = false.
Proof.
  destruct c as [[|] [|] [|] [|] [|] [|] [|] [|]]; intros H;
    first [discriminate H | repeat split; reflexivity].
Qed.

Lemma int_part_head i :
  int_part i = true -> exists d ds, i = String d ds /\ is_digit d = true.
Proof.
  destruct i as [| d ds]; [discriminate |]. simpl. intros H.
  apply andb_true_iff in H as [H _]. apply andb_true_iff in H as [H _]. eauto.
Qed.

Lemma read_int_run i tail :
  int_part i = true -> stops tail = true -> read_int (i ++ tail) = Some (i, tail).
Proof.
  intros Hi Htail. unfold read_int.
  destruct i as [| d ds]; [discriminate Hi |].
  unfold int_part in Hi. apply andb_true_iff in Hi as [Hall Hlead].
  rewrite (span_digits_run _ _ Hall Htail).
  apply negb_true_iff in Hlead. rewrite Hlead. reflexivity.
Qed.

Lemma read_frac_some f tail :
  digit_run f = true -> stops tail = true ->
  read_frac (String "." (f ++ tail)) = Some (Some f, tail).
Proof.
  intros Hf Htail. unfold digit_run in Hf. apply andb_true_iff in Hf as [Hall Hne].
  simpl. rewrite (span_digits_run _ _ Hall Htail).
  destruct f; [discriminate Hne | reflexivity].
Qed.

Lemma read_frac_none tail :
  match tail with String c _ => Ascii.eqb c "." = false | EmptyString => True end ->
  read_frac tail = Some (None, tail).
Proof. destruct tail as [| c tail]; simpl; [| intros ->]; reflexivity. Qed.

Lemma read_exp_some (neg : bool) ds tail :
  digit_run ds = true -> stops tail = true ->
  read_exp (String "e" ((if neg then "-" else "+") ++ ds ++ tail))
  = Some (Some (neg, ds), tail).
Proof.
  intros Hds Htail. unfold digit_run in Hds. apply andb_true_iff in Hds as [Hall Hne].
  destruct neg; simpl; rewrite (span_digits_run _ _ Hall Htail);
    (destruct ds; [discriminate Hne | reflexivity]).
Qed.

Lemma read_exp_none tail :
  delimited tail = true -> read_exp tail = Some (None, tail).
Proof.
  intros H. apply continues_number_false in H.
  destruct tail as [| c tail]; [reflexivity |]. simpl in *.
  apply orb_false_iff in H as [H HE]. apply orb_false_iff in H as [_ He].
  rewrite He, HE. reflexivity.
Qed.

Lemma read_sign_digit (neg : bool) i tail :
  int_part i = true ->
  read_sign ((if neg then "-" else "") ++ i ++ tail) = (neg, i ++ tail).
Proof.
  intros Hi. destruct neg; [reflexivity |].
  destruct (int_part_head i Hi) as (d & ds & -> & Hd).
  simpl. rewrite (proj1 (digit_not_sign d Hd)). reflexivity.
Qed.

(** The reader takes a well-formed literal apart again. *)
(** The reader takes a well-formed literal apart again. *)
Lemma read_literal_print l rest :
  well_formed l = true ->
  delimited rest = true ->
  read_literal (print_literal l ++ rest) = Some (l, rest).
Proof.
  intros Hl Hrest. destruct l as [neg i f e]. unfold well_formed in Hl. simpl in Hl.
  apply andb_true_iff in Hl as [Hl He]. apply andb_true_iff in Hl as [Hi Hf].
  unfold print_literal, read_literal. simpl lit_negative. simpl lit_int.
  simpl lit_frac. simpl lit_exp.
  rewrite !append_assoc. rewrite (read_sign_digit neg i _ Hi).
  pose proof (delimited_stops rest Hrest) as Hstop.
  pose proof (continues_number_false rest Hrest) as Hcont.
  destruct f as [f |]; destruct e as [[eneg ds] |];
    rewrite ?append_assoc; cbn [append];
    (rewrite read_int_run by (exact Hi || exact Hstop || reflexivity)).
  - rewrite (read_frac_some f _ Hf) by reflexivity.
    rewrite (read_exp_some eneg ds rest He Hstop). reflexivity.
  - rewrite (read_frac_some f rest Hf Hstop).
    rewrite (read_exp_none rest Hrest). reflexivity.
  - rewrite read_frac_none by reflexivity.
    rewrite (read_exp_some eneg ds rest He Hstop). reflexivity.
  - rewrite read_frac_none.
    + rewrite (read_exp_none rest Hrest). reflexivity.
    + destruct rest as [| c rest]; [exact I |]. simpl in Hcont.
      apply orb_false_iff in Hcont as [H _]. apply orb_false_iff in H as [H _]. exact H.
Qed.

Lemma all_digits_digits u : all_digits (digits u) = true.
Proof. induction u; simpl; auto. Qed.

Lemma all_digits_app a b :
  all_digits (a ++ b) = all_digits a && all_digits b.
Proof.
  induction a as [| c a IH]; simpl; [reflexivity |].
  rewrite IH, andb_assoc. reflexivity.
Qed.

Lemma all_digits_zeros n : all_digits (zeros n) = true.
Proof. induction n; simpl; auto. Qed.

Lemma take_drop n s : string_take n s ++ string_drop n s = s.
Proof.
  revert s. induction n as [| n IH]; intros [| c s]; simpl; try reflexivity.
  rewrite IH. reflexivity.
Qed.

Lemma all_digits_take n s : all_digits s = true -> all_digits (string_take n s) = true.
Proof.
  intros H. rewrite <- (take_drop n s), all_digits_app in H.
  apply andb_true_iff in H as [H _]. exact H.
Qed.

Lemma all_digits_drop n s : all_digits s = true -> all_digits (string_drop n s) = true.
Proof.
  intros H. rewrite <- (take_drop n s), all_digits_app in H.
  apply andb_true_iff in H as [_ H]. exact H.
Qed.

Lemma length_take n s :
  n <= String.length s -> String.length (string_take n s) = n.
Proof.
  revert s. induction n as [| n IH]; intros [| c s]; simpl; intros H;
    try reflexivity; try lia.
  rewrite IH by lia. reflexivity.
Qed.

Lemma drop_nonempty n s :
  n < String.length s -> string_drop n s <> EmptyString.
Proof.
  revert s. induction n as [| n IH]; intros [| c s]; simpl; intros H;
    try lia; try discriminate.
  apply IH. lia.
Qed.

Lemma length_zeros n : String.length (zeros n) = n.
Proof. induction n; simpl; auto. Qed.

Lemma nzhead_head u :
  match Decimal.nzhead u with Decimal.D0 _ => False | _ => True end.
Proof. induction u; simpl; auto. Qed.

Lemma unorm_fixed_D0 u : Decimal.unorm (Decimal.D0 u) = Decimal.D0 u -> u = Decimal.Nil.
Proof.
  unfold Decimal.unorm. simpl. pose proof (nzhead_head u) as H.
  destruct (Decimal.nzhead u); intros E; try discriminate E; try contradiction.
  inversion E. reflexivity.
Qed.

Lemma to_uint_normal p : Decimal.unorm (Pos.to_uint p) = Pos.to_uint p.
Proof.
  rewrite <- DecimalPos.Unsigned.to_of, DecimalPos.Unsigned.of_to. reflexivity.
Qed.

(** The digits of a positive number start with a digit that is not zero. *)
Lemma significand_head p :
  exists c r,
    digits (Pos.to_uint p) = String c r
    /\ is_digit c = true /\ Ascii.eqb c "0" = false.
Proof.
  pose proof (to_uint_normal p) as Hn.
  pose proof (DecimalPos.Unsigned.of_to p) as Hof.
  destruct (Pos.to_uint p) as [| u | u | u | u | u | u | u | u | u | u];
    try (simpl; do 2 eexists; repeat split; reflexivity).
  - discriminate Hof.
  - apply unorm_fixed_D0 in Hn. subst u. discriminate Hof.
Qed.

Lemma digit_run_cons c s :
  is_digit c = true -> all_digits s = true -> digit_run (String c s) = true.
Proof. intros Hc Hs. unfold digit_run. simpl. rewrite Hc, Hs. reflexivity. Qed.

Lemma int_part_nonzero c s :
  is_digit c = true -> Ascii.eqb c "0" = false -> all_digits s = true ->
  int_part (String c s) = true.
Proof. intros Hc H0 Hs. simpl. rewrite Hc, Hs, H0. reflexivity. Qed.

Lemma digit_run_nonempty s :
  all_digits s = true -> s <> EmptyString -> digit_run s = true.
Proof.
  intros H Hne. unfold digit_run. rewrite H.
  destruct s; [contradiction | reflexivity].
Qed.

Lemma n_digits n :
  NilZero.string_of_uint (N.to_uint n) = digits (N.to_uint n)
  /\ digits (N.to_uint n) <> EmptyString.
Proof.
  destruct n as [| p]; [split; [reflexivity | discriminate] |].
  simpl N.to_uint. pose proof (DecimalPos.Unsigned.to_uint_nonnil p) as H.
  unfold NilZero.string_of_uint, digits. revert H.
  destruct (Pos.to_uint p); intros H; try contradiction; split;
    first [reflexivity | discriminate].
Qed.

Lemma exponent_digits_run e : digit_run (exponent_digits e) = true.
Proof.
  unfold exponent_digits. destruct (n_digits (Z.abs_N e)) as [-> Hne].
  pose proof (all_digits_digits (N.to_uint (Z.abs_N e))) as Hall.
  destruct (String.length _ <? 2)%nat.
  - apply digit_run_cons; [reflexivity | exact Hall].
  - apply digit_run_nonempty; assumption.
Qed.

Lemma float_literal_well_formed negative p decpt :
  well_formed (float_literal negative p decpt) = true.
Proof.
  unfold float_literal.
  destruct (significand_head p) as (c & r & Hd & Hc & H0).
  pose proof (all_digits_digits (Pos.to_uint p)) as Hall.
  rewrite Hd in *. simpl in Hall. apply andb_true_iff in Hall as [_ Hr].
  destruct ((decpt <=? -4)%Z || (16 <? decpt)%Z); [| destruct (decpt <=? 0)%Z eqn:Hle;
    [| destruct (decpt <? Z.of_nat (String.length (String c r)))%Z eqn:Hlt]];
    unfold well_formed; cbn [lit_int lit_frac lit_exp].
  - rewrite exponent_digits_run, andb_true_r.
    cbn [string_take string_drop].
    rewrite (int_part_nonzero c EmptyString Hc H0 eq_refl).
    destruct r as [| c' r']; [reflexivity |].
    simpl in Hr. apply andb_true_iff in Hr as [Hc' Hr'].
    rewrite (digit_run_cons c' r' Hc' Hr'). reflexivity.
  - rewrite andb_true_r. simpl int_part. cbn [andb].
    apply digit_run_nonempty.
    + rewrite all_digits_app, all_digits_zeros. simpl. rewrite Hc, Hr. reflexivity.
    + destruct (zeros _); discriminate.
  - rewrite andb_true_r. apply Z.leb_gt in Hle. apply Z.ltb_lt in Hlt.
    destruct (Z.to_nat decpt) as [| k] eqn:Hk; [lia |].
    cbn [string_take string_drop].
    rewrite (int_part_nonzero c _ Hc H0 (all_digits_take k r Hr)).
    apply digit_run_nonempty; [apply all_digits_drop, Hr |].
    apply drop_nonempty. simpl String.length in Hlt. lia.
  - rewrite andb_true_r. cbn [append].
    rewrite int_part_nonzero; [reflexivity | exact Hc | exact H0 |].
    rewrite all_digits_app, Hr, all_digits_zeros. reflexivity.
Qed.

Lemma float_literal_not_int negative p decpt :
  literal_value (float_literal negative p decpt)
  = PyFloat (float_of_literal (float_literal negative p decpt)).
Proof.
  unfold float_literal, literal_value.
  destruct ((decpt <=? -4)%Z || (16 <? decpt)%Z); [| destruct (decpt <=? 0)%Z;
    [| destruct (decpt <? _)%Z]]; cbn [lit_frac lit_exp]; try reflexivity.
  destruct (string_drop 1 _); reflexivity.
Qed.

(** A finite float, once written, is read as a float. *)
Lemma read_number_float x rest :
  float_finite x = true ->
  delimited rest = true ->
  read_number (encode_float x ++ rest) = Some (PyFloat (float_read_back x), rest).
Proof.
  intros Hx Hrest. unfold read_number.
  destruct x as [| neg | neg | neg p decpt]; try discriminate Hx; simpl encode_float.
  - rewrite (read_literal_print (zero_literal neg) rest eq_refl Hrest).
    destruct neg; reflexivity.
  - rewrite (read_literal_print _ rest (float_literal_well_formed neg p decpt) Hrest).
    rewrite float_literal_not_int. reflexivity.
Qed.

Lemma digits_value_digits u : digits_value (digits u) = N.of_uint u.
Proof. unfold digits_value, digits. rewrite NilEmpty.usu. reflexivity. Qed.

Lemma int_literal_well_formed neg p :
  well_formed {| lit_negative := neg; lit_int := digits (Pos.to_uint p);
                 lit_frac := None; lit_exp := None |} = true.
Proof.
  unfold well_formed. cbn [lit_int lit_frac lit_exp]. rewrite !andb_true_r.
  destruct (significand_head p) as (c & r & Hd & Hc & H0).
  pose proof (all_digits_digits (Pos.to_uint p)) as Hall.
  rewrite Hd in *. simpl in Hall. apply andb_true_iff in Hall as [_ Hr].
  apply int_part_nonzero; assumption.
Qed.

Lemma string_of_uint_digits p :
  NilZero.string_of_uint (Pos.to_uint p) = digits (Pos.to_uint p).
Proof. exact (proj1 (n_digits (Npos p))). Qed.

Lemma read_number_int n rest :
  delimited rest = true ->
  read_number (string_of_Z n ++ rest) = Some (PyInt n, rest).
Proof.
  intros Hrest. unfold string_of_Z, read_number.
  destruct n as [| p | p]; simpl Z.to_int.
  - change (NilZero.string_of_int (Decimal.Pos Decimal.zero))
      with (print_literal {| lit_negative := false; lit_int := "0";
                             lit_frac := None; lit_exp := None |}).
    rewrite read_literal_print by (reflexivity || exact Hrest). reflexivity.
  - simpl NilZero.string_of_int. rewrite string_of_uint_digits.
    replace (digits (Pos.to_uint p))
      with (print_literal {| lit_negative := false; lit_int := digits (Pos.to_uint p);
                             lit_frac := None; lit_exp := None |})
      by (unfold print_literal; simpl; apply append_nil_r).
    rewrite (read_literal_print _ rest (int_literal_well_formed false p) Hrest).
    unfold literal_value. cbn [lit_frac lit_exp lit_int lit_negative].
    rewrite digits_value_digits. unfold N.of_uint.
    rewrite DecimalPos.Unsigned.of_to. reflexivity.
  - simpl NilZero.string_of_int. rewrite string_of_uint_digits.
    replace (String "-" (digits (Pos.to_uint p)))
      with (print_literal {| lit_negative := true; lit_int := digits (Pos.to_uint p);
                             lit_frac := None; lit_exp := None |})
      by (unfold print_literal; simpl; rewrite append_nil_r; reflexivity).
    rewrite (read_literal_print _ rest (int_literal_well_formed true p) Hrest).
    unfold literal_value. cbn [lit_frac lit_exp lit_int lit_negative].
    rewrite digits_value_digits. unfold N.of_uint.
    rewrite DecimalPos.Unsigned.of_to. reflexivity.
Qed.

Lemma read_value_number fuel c r :
  opens_number c = true ->
  read_value (S fuel) (String c r) = read_number (String c r).
Proof.
  intros H.
  destruct c as [[|] [|] [|] [|] [|] [|] [|] [|]];
    first [discriminate H | reflexivity].
Qed.

Lemma print_literal_head l :
  well_formed l = true ->
  exists c r, print_literal l = String c r /\ opens_number c = true.
Proof.
  destruct l as [neg i f e]. unfold well_formed, print_literal.
  cbn [lit_negative lit_int lit_frac lit_exp]. intros H.
  apply andb_true_iff in H as [H _]. apply andb_true_iff in H as [Hi _].
  destruct neg; [do 2 eexists; split; reflexivity |].
  destruct (int_part_head i Hi) as (d & ds & -> & Hd).
  do 2 eexists. split; [reflexivity |]. unfold opens_number. rewrite Hd. reflexivity.
Qed.

Lemma string_of_Z_head n :
  exists c r, string_of_Z n = String c r /\ opens_number c = true.
Proof.
  unfold string_of_Z. destruct n as [| p | p]; simpl Z.to_int.
  - exists "0"%char, EmptyString. split; reflexivity.
  - simpl NilZero.string_of_int. rewrite string_of_uint_digits.
    destruct (significand_head p) as (c & r & Hd & Hc & _).
    exists c, r. split; [exact Hd |]. unfold opens_number. rewrite Hc. reflexivity.
  - exists "-"%char, (NilZero.string_of_uint (Pos.to_uint p)). split; reflexivity.
Qed.

Lemma read_value_int fuel n rest :
  delimited rest = true ->
  read_value (S fuel) (string_of_Z n ++ rest) = Some (PyInt n, rest).
Proof.
  intros Hrest. rewrite <- (read_number_int n rest Hrest).
  destruct (string_of_Z_head n) as (c & r & -> & Hc).
  simpl append. apply read_value_number, Hc.
Qed.

Lemma encode_float_head x :
  float_finite x = true ->
  exists c r, encode_float x = String c r /\ opens_number c = true.
Proof.
  destruct x as [| neg | neg | neg p decpt]; try discriminate; intros _.
  - apply print_literal_head. reflexivity.
  - apply print_literal_head, float_literal_well_formed.
Qed.

Lemma read_value_float fuel x rest :
  float_finite x = true ->
  delimited rest = true ->
  read_value (S fuel) (encode_float x ++ rest)
  = Some (PyFloat (float_read_back x), rest).
Proof.
  intros Hx Hrest. rewrite <- (read_number_float x rest Hx Hrest).
  destruct (encode_float_head x Hx) as (c & r & -> & Hc).
  simpl append. apply read_value_number, Hc.
Qed.

(** *** Layout *)

Lemma skip_ws_opens c r : opens_value c = true -> skip_ws (String c r) = String c r.
Proof.
  unfold opens_value. intros H. simpl.
  destruct (is_json_ws c); [discriminate H | reflexivity].
Qed.

Lemma opens_not_bracket c : opens_value c = true -> Ascii.eqb c "]" = false.
Proof.
  unfold opens_value. destruct (Ascii.eqb c "]"); [| reflexivity].
  rewrite andb_false_r. intros H; discriminate H.
Qed.

Lemma opens_number_value c : opens_number c = true -> opens_value c = true.
Proof.
  intros H. destruct c as [[|] [|] [|] [|] [|] [|] [|] [|]];
    first [discriminate H | reflexivity].
Qed.

Lemma skip_ws_spaces n s : skip_ws (spaces n ++ s) = skip_ws s.
Proof. induction n as [| n IH]; simpl; auto. Qed.

Lemma skip_ws_newline_indent indent lvl s :
  skip_ws (newline_indent indent lvl ++ s) = skip_ws s.
Proof.
  destruct indent as [n |]; simpl; [apply skip_ws_spaces | reflexivity].
Qed.

Lemma separator_gap indent lvl :
  item_separator indent ++ newline_indent indent lvl = String "," (gap indent lvl).
Proof. destruct indent; reflexivity. Qed.

Lemma skip_ws_gap indent lvl s : skip_ws (gap indent lvl ++ s) = skip_ws s.
Proof.
  destruct indent as [n |]; [apply skip_ws_newline_indent | reflexivity].
Qed.

Lemma delimited_closing indent lvl c rest :
  delimited (String c rest) = true ->
  delimited (newline_indent indent lvl ++ String c rest) = true.
Proof. destruct indent; intros H; [reflexivity | exact H]. Qed.

Lemma encode_head indent lvl v :
  exists c r, encode indent lvl v = String c r /\ opens_value c = true.
Proof.
  destruct v as [| [|] | n | fl | s | [| x xs] | [| kv kvs]]; simpl;
    try (do 2 eexists; split; reflexivity).
  - destruct (string_of_Z_head n) as (c & r & -> & Hc).
    exists c, r. split; [reflexivity | apply opens_number_value, Hc].
  - destruct fl as [| [|] | neg | neg p decpt];
      try (do 2 eexists; split; reflexivity).
    + destruct (encode_float_head (FZero neg) eq_refl) as (c & r & -> & Hc).
      exists c, r. split; [reflexivity | apply opens_number_value, Hc].
    + destruct (encode_float_head (FDecimal neg p decpt) eq_refl) as (c & r & -> & Hc).
      exists c, r. split; [reflexivity | apply opens_number_value, Hc].
Qed.

Lemma concat_cons sep a l :
  String.concat sep (a :: l)
  = match l with [] => a | _ :: _ => a ++ sep ++ String.concat sep l end.
Proof. reflexivity. Qed.

Lemma concat_head indent lvl sep x xs tail :
  exists c r,
    String.concat sep (map (encode indent lvl) (x :: xs)) ++ tail = String c r
    /\ opens_value c = true.
Proof.
  destruct (encode_head indent lvl x) as (c & r & Hx & Hc).
  simpl map. rewrite concat_cons, Hx.
  destruct (map (encode indent lvl) xs); simpl; eauto.
Qed.

(** *** Reading back what the encoder wrote *)

Lemma reads_elements xs :
  Forall reads xs ->
  xs <> [] ->
  forall indent lvl fuel rest,
    elements_weight xs <= fuel ->
    read_elements fuel
      (String.concat (item_separator indent ++ newline_indent indent (S lvl))
         (map (encode indent (S lvl)) xs)
       ++ newline_indent indent lvl ++ String "]" rest)
    = Some (map canon xs, rest).
Proof.
  induction 1 as [| x xs Hx Hxs IH]; [congruence |].
  intros _ indent lvl fuel rest Hfuel.
  unfold elements_weight in Hfuel. simpl in Hfuel.
  destruct fuel as [| fuel]; [lia |].
  simpl map. rewrite concat_cons.
  destruct xs as [| y ys].
  - simpl map. cbn iota. simpl read_elements.
    rewrite (Hx indent (S lvl) fuel _) by
      first [lia | apply delimited_closing; reflexivity].
    rewrite skip_ws_newline_indent. reflexivity.
  - remember (y :: ys) as xs' eqn:Hxs'.
    assert (Hne : xs' <> []) by (subst xs'; discriminate).
    replace (match map (encode indent (S lvl)) xs' with
             | [] => encode indent (S lvl) x
             | _ :: _ => _
             end)
      with (encode indent (S lvl) x
            ++ (item_separator indent ++ newline_indent indent (S lvl))
            ++ String.concat (item_separator indent ++ newline_indent indent (S lvl))
                 (map (encode indent (S lvl)) xs'))
      by (subst xs'; reflexivity).
    rewrite separator_gap. rewrite !append_assoc. simpl append.
    simpl read_elements.
    rewrite (Hx indent (S lvl) fuel _) by first [lia | reflexivity].
    simpl skip_ws. cbn iota. simpl Ascii.eqb. cbn iota.
    rewrite skip_ws_gap.
    assert (Hskip : forall tail,
               skip_ws (String.concat (String "," (gap indent (S lvl)))
                          (map (encode indent (S lvl)) xs') ++ tail)
               = String.concat (String "," (gap indent (S lvl)))
                   (map (encode indent (S lvl)) xs') ++ tail).
    { intros tail. subst xs'.
      destruct (concat_head indent (S lvl) (String "," (gap indent (S lvl))) y ys tail)
        as (c & r & -> & Hc).
      apply skip_ws_opens, Hc. }
    rewrite Hskip. rewrite <- separator_gap.
    rewrite (IH Hne indent lvl fuel rest) by (unfold elements_weight; lia).
    reflexivity.
Qed.

Lemma member_shape indent lvl kv tail :
  member indent lvl kv ++ tail
  = String quote (escape_string (fst kv)
                  ++ String quote (String ":" (String " "
                       (encode indent lvl (snd kv) ++ tail)))).
Proof.
  unfold member, encode_string, key_separator. simpl.
  rewrite !append_assoc. reflexivity.
Qed.

Lemma read_member indent lvl fuel kv tail :
  reads (snd kv) ->
  weight (snd kv) <= fuel ->
  delimited tail = true ->
  exists body,
    member indent lvl kv ++ tail = String quote body
    /\ read_string body
       = Some (fst kv, String ":" (String " " (encode indent lvl (snd kv) ++ tail)))
    /\ read_value fuel (skip_ws (String " " (encode indent lvl (snd kv) ++ tail)))
       = Some (canon (snd kv), tail).
Proof.
  intros Hkv Hfuel Htail. rewrite member_shape. eexists. split; [reflexivity |].
  split; [apply read_string_escape |].
  destruct (encode_head indent lvl (snd kv)) as (c & r & Hx & Hc).
  simpl skip_ws. rewrite Hx. simpl append. rewrite (skip_ws_opens c _ Hc).
  change (String c (r ++ tail)) with (String c r ++ tail). rewrite <- Hx.
  apply Hkv; assumption.
Qed.

Lemma append_String c a b : String c a ++ b = String c (a ++ b).
Proof. reflexivity. Qed.

Lemma reads_members kvs :
  Forall (fun kv => reads (snd kv)) kvs ->
  kvs <> [] ->
  forall indent lvl fuel rest,
    members_weight kvs <= fuel ->
    read_members fuel
      (String.concat (item_separator indent ++ newline_indent indent (S lvl))
         (map (member indent (S lvl)) kvs)
       ++ newline_indent indent lvl ++ String "}" rest)
    = Some (map canon_pair kvs, rest).
Proof.
  induction 1 as [| kv kvs Hkv Hkvs IH]; [congruence |].
  intros _ indent lvl fuel rest Hfuel.
  unfold members_weight in Hfuel. simpl in Hfuel.
  destruct fuel as [| fuel]; [lia |].
  simpl map. rewrite concat_cons.
  destruct kvs as [| kv' kvs'].
  - simpl map. cbn iota.
    destruct (read_member indent (S lvl) fuel kv
                (newline_indent indent lvl ++ String "}" rest) Hkv)
      as (body & -> & Hkey & Hval);
      [lia | apply delimited_closing; reflexivity |].
    simpl read_members. rewrite Hkey. simpl skip_ws at 1. cbn iota.
    simpl Ascii.eqb. cbn iota. rewrite Hval.
    rewrite skip_ws_newline_indent. reflexivity.
  - remember (kv' :: kvs') as l eqn:Hl.
    assert (Hne : l <> []) by (subst l; discriminate).
    replace (match map (member indent (S lvl)) l with
             | [] => member indent (S lvl) kv
             | _ :: _ => _
             end)
      with (member indent (S lvl) kv
            ++ (item_separator indent ++ newline_indent indent (S lvl))
            ++ String.concat (item_separator indent ++ newline_indent indent (S lvl))
                 (map (member indent (S lvl)) l))
      by (subst l; reflexivity).
    rewrite separator_gap. rewrite !append_assoc, append_String.
    match goal with
    | |- context [member indent (S lvl) kv ++ ?tail] =>
        destruct (read_member indent (S lvl) fuel kv tail Hkv)
          as (body & -> & Hkey & Hval); [lia | reflexivity |]
    end.
    simpl read_members. rewrite Hkey. simpl skip_ws at 1. cbn iota.
    simpl Ascii.eqb. cbn iota. rewrite Hval.
    simpl skip_ws at 1. cbn iota. simpl Ascii.eqb. cbn iota.
    rewrite skip_ws_gap.
    assert (Hskip : forall tail,
               skip_ws (String.concat (String "," (gap indent (S lvl)))
                          (map (member indent (S lvl)) l) ++ tail)
               = String.concat (String "," (gap indent (S lvl)))
                   (map (member indent (S lvl)) l) ++ tail).
    { intros tail. subst l. simpl map. rewrite concat_cons.
      destruct (map (member indent (S lvl)) kvs');
        rewrite ?append_assoc, member_shape; reflexivity. }
    rewrite Hskip. rewrite <- separator_gap.
    rewrite (IH Hne indent lvl fuel rest) by (unfold members_weight; lia).
    reflexivity.
Qed.

Lemma encode_reads v : finite v = true -> reads v.
Proof.
  induction v as [| b | n | fl | s | xs IH | kvs IH] using pyval_nested_ind;
    intros Hfin indent lvl fuel rest Hfuel Hrest;
    (destruct fuel as [| fuel]; [simpl in Hfuel; lia |]).
  - reflexivity.
  - destruct b; reflexivity.
  - apply read_value_int, Hrest.
  - apply read_value_float; assumption.
  - destruct (read_string_encode s rest) as (body & Henc & Hread).
    simpl encode. rewrite Henc. simpl. rewrite Hread. reflexivity.
  - assert (IH' : Forall reads xs).
    { simpl in Hfin. rewrite forallb_forall in Hfin. rewrite Forall_forall in *.
      intros x Hx. apply IH; [exact Hx | apply Hfin, Hx]. }
    clear IH. rename IH' into IH.
    destruct xs as [| x xs]; [reflexivity |].
    remember (x :: xs) as l eqn:Hl.
    assert (Hne : l <> []) by (subst l; discriminate).
    replace (encode indent lvl (PyList l))
      with ("[" ++ newline_indent indent (S lvl)
            ++ String.concat (item_separator indent ++ newline_indent indent (S lvl))
                 (map (encode indent (S lvl)) l)
            ++ newline_indent indent lvl ++ "]")
      by (subst l; reflexivity).
    rewrite !append_assoc. simpl append at 1.
    replace ("]" ++ rest) with (String "]" rest) by reflexivity.
    simpl read_value. rewrite skip_ws_newline_indent.
    pose proof (reads_elements l IH Hne indent lvl fuel rest) as Hel.
    subst l.
    destruct (concat_head indent (S lvl)
                (item_separator indent ++ newline_indent indent (S lvl)) x xs
                (newline_indent indent lvl ++ String "]" rest))
      as (c & r & Hc & Hopen).
    rewrite Hc in *. rewrite (skip_ws_opens c r Hopen).
    rewrite (opens_not_bracket c Hopen).
    rewrite Hel by (simpl in Hfuel; unfold elements_weight; simpl; lia).
    reflexivity.
  - assert (IH' : Forall (fun kv => reads (snd kv)) kvs).
    { simpl in Hfin. rewrite forallb_forall in Hfin. rewrite Forall_forall in *.
      intros kv Hkv. apply IH; [exact Hkv | apply Hfin, Hkv]. }
    clear IH. rename IH' into IH.
    destruct kvs as [| kv kvs]; [reflexivity |].
    remember (kv :: kvs) as l eqn:Hl.
    assert (Hne : l <> []) by (subst l; discriminate).
    replace (encode indent lvl (PyDict l))
      with ("{" ++ newline_indent indent (S lvl)
            ++ String.concat (item_separator indent ++ newline_indent indent (S lvl))
                 (map (member indent (S lvl)) l)
            ++ newline_indent indent lvl ++ "}")
      by (subst l; reflexivity).
    rewrite !append_assoc. simpl append at 1.
    replace ("}" ++ rest) with (String "}" rest) by reflexivity.
    simpl read_value. rewrite skip_ws_newline_indent.
    pose proof (reads_members l IH Hne indent lvl fuel rest) as Hel.
    subst l. simpl map in *. rewrite concat_cons in *.
    assert (Hshape : exists r,
               (match map (member indent (S lvl)) kvs with
                | [] => member indent (S lvl) kv
                | _ :: _ =>
                    member indent (S lvl) kv
                    ++ (item_separator indent ++ newline_indent indent (S lvl))
                    ++ String.concat
                         (item_separator indent ++ newline_indent indent (S lvl))
                         (map (member indent (S lvl)) kvs)
                end) ++ newline_indent indent lvl ++ String "}" rest
               = String quote r).
    { destruct (map (member indent (S lvl)) kvs);
        rewrite ?append_assoc, member_shape; eexists; reflexivity. }
    destruct Hshape as (r & Hr). rewrite Hr in *.
    simpl skip_ws. cbn iota. simpl Ascii.eqb. cbn iota.
    rewrite Hel by (simpl in Hfuel; unfold members_weight; simpl; lia).
    reflexivity.
Qed.

(** *** Enough fuel *)

Lemma separator_length indent lvl :
  1 <= String.length (item_separator indent ++ newline_indent indent lvl).
Proof. rewrite separator_gap. simpl. lia. Qed.

Lemma concat_weight {A} (w : A -> nat) (f : A -> string) sep (l : list A) :
  Forall (fun x => w x <= String.length (f x)) l ->
  1 <= String.length sep ->
  list_sum (map (fun x => S (w x)) l) <= S (String.length (String.concat sep (map f l))).
Proof.
  intros Hl Hsep. induction Hl as [| x l Hx Hl IH]; simpl map.
  - simpl. lia.
  - rewrite concat_cons. simpl list_sum. destruct l as [| y l].
    + simpl. lia.
    + remember (y :: l) as l'.
      replace (match map f l' with [] => f x | _ :: _ => f x ++ sep ++ String.concat sep (map f l') end)
        with (f x ++ sep ++ String.concat sep (map f l')) by (subst l'; reflexivity).
      rewrite !length_append. lia.
Qed.

Lemma weight_le_length indent lvl v :
  weight v <= String.length (encode indent lvl v).
Proof.
  revert lvl.
  induction v as [| b | n | fl | s | xs IH | kvs IH] using pyval_nested_ind; intros lvl.
  - simpl. lia.
  - destruct b; simpl; lia.
  - destruct (string_of_Z_head n) as (c & r & H & _). simpl. rewrite H. simpl. lia.
  - destruct (encode_head indent lvl (PyFloat fl)) as (c & r & H & _).
    rewrite H. simpl. lia.
  - simpl. lia.
  - destruct xs as [| x xs]; [simpl; lia |].
    remember (x :: xs) as l eqn:Hl.
    replace (encode indent lvl (PyList l))
      with ("[" ++ newline_indent indent (S lvl)
            ++ String.concat (item_separator indent ++ newline_indent indent (S lvl))
                 (map (encode indent (S lvl)) l)
            ++ newline_indent indent lvl ++ "]")
      by (subst l; reflexivity).
    rewrite !length_append. simpl weight. simpl String.length.
    assert (Hw : Forall (fun x => weight x <= String.length (encode indent (S lvl) x)) l).
    { eapply Forall_impl; [| exact IH]. intros a Ha. apply Ha. }
    pose proof (concat_weight weight (encode indent (S lvl)) _ l Hw
                  (separator_length indent (S lvl))).
    lia.
  - destruct kvs as [| kv kvs]; [simpl; lia |].
    remember (kv :: kvs) as l eqn:Hl.
    replace (encode indent lvl (PyDict l))
      with ("{" ++ newline_indent indent (S lvl)
            ++ String.concat (item_separator indent ++ newline_indent indent (S lvl))
                 (map (member indent (S lvl)) l)
            ++ newline_indent indent lvl ++ "}")
      by (subst l; reflexivity).
    rewrite !length_append. simpl weight. simpl String.length.
    assert (Hw : Forall (fun kv => weight (snd kv)
                                   <= String.length (member indent (S lvl) kv)) l).
    { eapply Forall_impl; [| exact IH]. intros a Ha. cbv beta in Ha.
      unfold member. rewrite !length_append. specialize (Ha (S lvl)). lia. }
    pose proof (concat_weight (fun kv => weight (snd kv)) (member indent (S lvl)) _ l Hw
                  (separator_length indent (S lvl))).
    lia.
Qed.

(** What [json.dumps] writes of a value without NaN and infinities,
    [json.loads] reads back. *)
Lemma json_loads_dumps indent v :
  finite v = true -> json_loads (json_dumps indent v) = Some (canon v).
Proof.
  intros Hfin. unfold json_loads, json_dumps.
  destruct (encode_head indent 0 v) as (c & r & Hc & Hopen).
  pose proof (weight_le_length indent 0 v) as Hw.
  pose proof (encode_reads v Hfin indent 0 (String.length (encode indent 0 v))
                EmptyString Hw eq_refl) as Hread.
  rewrite append_nil_r in Hread.
  rewrite Hc in *. rewrite (skip_ws_opens c r Hopen), Hread. reflexivity.
Qed.

(** ** The orchestrator *)

Lemma run_inv {A} (m : Eff A) t o : run m = (t, o) -> m tt = (t, tt, o).
Proof.
  unfold run. destruct (m tt) as [[t' []] o']. intros H; inversion H; reflexivity.
Qed.

(** The aggregate, whatever the world answers. *)
Lemma combine_results_composite w query use_google use_wiki :
  exists t G W F,
    run (combine_results w query use_google use_wiki)
    = (t, Returned (composite query G W F)).
Proof.
  destruct (search_google_run w query) as (tg & g & Hg).
  destruct (search_duckduckgo_run w query) as (td & f & Hd).
  destruct (combine_results_run w query use_google use_wiki _ _ _ _ Hg Hd)
    as (t & W & _ & _ & Hrun).
  destruct use_google; [destruct g |]; rewrite Hrun; eauto.
Qed.

(** With every endpoint and the model unreachable. *)
Example full_pipeline_network_down :
  snd (run (full_pipeline network_down "cats" true true))
  = Returned (no_results_message,
              json_dumps (Some 2) (composite "cats" [] (PyDict []) []))
  /\ json_loads (json_dumps (Some 2) (composite "cats" [] (PyDict []) []))
     = Some (composite "cats" [] (PyDict []) []).
Proof. split; reflexivity. Qed.

(** ** Instances

    The theorems above that carry hypotheses, applied to sample worlds. *)

(** C3 with every endpoint unreachable (the fallback fires) and on the sample
    page (it does not). *)
Lemma fallback_iff_primary_empty_witness :
  (exists t W td f,
      run (search_duckduckgo network_down "cats") = (td, Returned f)
      /\ run (combine_results network_down "cats" true true)
         = (t, Returned (composite "cats" [] W f))
      /\ count (is_request_to duckduckgo_url) t = 1)
  /\ (exists t W td f,
         run (search_duckduckgo (answers_with "<html>" (Returned (PyDict [])) sample_page)
                "cats")
         = (td, Returned f)
         /\ run (combine_results
                   (answers_with "<html>" (Returned (PyDict [])) sample_page)
                   "cats" true false)
            = (t, Returned (composite "cats"
                              (scraped [titled_block "https://a.example/" " First ";
                                        titled_block "https://c.example/" "Third"])
                              W []))
         /\ count (is_request_to duckduckgo_url) t = 0).
Proof.
  split.
  - exact (fallback_iff_primary_empty network_down "cats" true _ [] eq_refl).
  - exact (fallback_iff_primary_empty
             (answers_with "<html>" (Returned (PyDict [])) sample_page)
             "cats" false _
             (scraped [titled_block "https://a.example/" " First ";
                       titled_block "https://c.example/" "Third"])
             eq_refl).
Defined.

(** C7 on the sample page, whose second block has no title element. *)
Lemma search_google_skips_failing_block_witness :
  exists t,
    run (search_google (answers_with "<html>" (Returned (PyDict [])) sample_page) "cats")
    = (t, Returned (scraped [titled_block "https://a.example/" " First "]
                    ++ scraped [titled_block "https://c.example/" "Third"])%list).
Proof.
  apply (search_google_skips_failing_block
           (answers_with "<html>" (Returned (PyDict [])) sample_page) "cats"
           page_response sample_page
           [titled_block "https://a.example/" " First "]
           untitled_block
           [titled_block "https://c.example/" "Third"]);
    try reflexivity.
  do 3 eexists. reflexivity.
Defined.

(** C8 with the Wikipedia endpoint unreachable: the client's own error
    mapping. *)
Lemma wikipedia_error_not_surfaced_witness :
  exists t G F,
    run (combine_results network_down "cats" true true)
    = (t, Returned (composite "cats" G (PyDict []) F)).
Proof.
  exact (wikipedia_error_not_surfaced network_down "cats" true true _
           [("error", PyStr "network unreachable")] eq_refl eq_refl eq_refl).
Defined.

(** C10 on a success response with no hit. *)
Lemma zero_evidence_short_circuit_witness :
  exists t G F,
    let c := composite "cats" G (wikipedia_entry (PyList []) PyNone) F in
    let prompt := make_prompt "cats" (json_dumps (Some 2) c) in
    run (combine_results (answers_with "{}" (Returned (PyDict no_hits)) [])
           "cats" false true)
    = (t, Returned c)
    /\ run (generate_answer (answers_with "{}" (Returned (PyDict no_hits)) []) "cats" c)
       = ([OllamaChat model_name prompt],
          Returned (model_answer (answers_with "{}" (Returned (PyDict no_hits)) [])
                      prompt)).
Proof.
  apply (proj2 (zero_evidence_short_circuit
                  (answers_with "{}" (Returned (PyDict no_hits)) []) "cats")
           false _ no_hits
           [("searchinfo", PyDict [("totalhits", PyInt 0)]); ("search", PyList [])]
           eq_refl eq_refl eq_refl).
  intros si H. inversion H; subst si. eexists. split; reflexivity.
Defined.

(** * Further properties of the pipeline *)

(** ** Traces *)

Lemma requests_app t1 t2 : requests (t1 ++ t2) = (requests t1 ++ requests t2)%list.
Proof.
  induction t1 as [| ev t1 IH]; simpl; [reflexivity |].
  destruct ev; simpl; rewrite IH; reflexivity.
Qed.

Lemma requests_local t : Forall local_effect t -> requests t = [].
Proof.
  induction 1 as [| ev t (Hev & _) _ IH]; simpl; [reflexivity |].
  destruct ev; try exact IH. discriminate Hev.
Qed.

Lemma count_local p t :
  (forall ev, local_effect ev -> p ev = false) ->
  Forall local_effect t -> count p t = 0.
Proof.
  intros Hp Ht. apply count_none. eapply Forall_impl; [| exact Ht]. exact Hp.
Qed.

Ltac local_tac :=
  repeat first
    [ apply emits_ret | apply emits_raise | apply emits_of_outcome
    | apply emits_get_local | apply emits_set_local
    | apply emits_emit; repeat split; reflexivity
    | apply emits_bind; [| intros ?]
    | apply emits_try_except; [| intros ?]
    | apply emits_with_local
    | progress unfold logging
    | match goal with |- emits _ (if ?b then _ else _) => destruct b end
    | match goal with |- emits _ (match ?x with _ => _ end) => destruct x end ].

Lemma scrape_block_local result : emits local_effect (scrape_block result).
Proof.
  unfold scrape_block, scrape_body, text_of, tag_getitem. local_tac.
Qed.

Lemma for_each_scrape_local blocks results t results' o :
  for_each blocks scrape_block results = (t, results', o) -> Forall local_effect t.
Proof.
  intros H.
  pose proof (emits_for_each local_effect blocks scrape_block scrape_block_local results)
    as Hl.
  unfold trace_of in Hl. rewrite H in Hl. exact Hl.
Qed.

Ltac not_model_tac :=
  repeat first
    [ apply emits_ret | apply emits_raise | apply emits_of_outcome
    | apply emits_get_local | apply emits_set_local
    | apply emits_emit; reflexivity
    | apply emits_bind; [| intros ?]
    | apply emits_try_except; [| intros ?]
    | apply emits_with_local
    | apply emits_call
    | apply emits_for_each; intros ?
    | progress unfold logging, http_get, response_json, parse_html, stage,
        py_contains, py_getitem, py_setitem, py_get, text_of, tag_getitem
    | match goal with |- emits _ (if ?b then _ else _) => destruct b end
    | match goal with |- emits _ (match ?x with _ => _ end) => destruct x end ].

(** The aggregator never calls the model. *)

Lemma combine_results_no_model w query use_google use_wiki :
  emits not_model (combine_results w query use_google use_wiki).
Proof.
  unfold combine_results, web_stage, wiki_stage, assign_source,
    search_google, search_duckduckgo, search_wikipedia, scrape_block, scrape_body.
  not_model_tac.
Qed.

(** ** The Wikipedia client *)

Lemma search_wikipedia_cases w query :
  exists t,
    run (search_wikipedia w query)
    = (t, Returned
            match wikipedia_outcome w query with
            | Returned payload => payload
            | Raised e => PyDict [("error", PyStr (str_of_exn e))]
            end).
Proof.
  unfold search_wikipedia, wikipedia_outcome. py_unfold.
  destruct (requests_get w wikipedia_url (wikipedia_params query)) as [r | e];
    cbn iota beta; [| eexists; reflexivity].
  destruct (json r) as [payload | e]; cbn iota beta; eexists; reflexivity.
Qed.

Lemma search_wikipedia_requests w query t o :
  run (search_wikipedia w query) = (t, o) -> requests t = [wikipedia_url].
Proof.
  unfold search_wikipedia. py_unfold.
  destruct (requests_get w wikipedia_url (wikipedia_params query)) as [r | e];
    cbn iota beta; [| intros H; inversion H; reflexivity].
  destruct (json r) as [data | e]; cbn iota beta; intros H; inversion H; reflexivity.
Qed.

(** X1: the Wikipedia client never raises.  It returns the decoded payload
    as it is when the request and the decoding succeed, and otherwise a mapping
    whose only field, [error], holds the message of the exception; either way
    it has sent exactly one request, to the Wikipedia endpoint. *)
Theorem search_wikipedia_behaviour w query :
  exists t,
    run (search_wikipedia w query) = (t, Returned (wikipedia_data w query))
    /\ requests t = [wikipedia_url].
Proof.
  destruct (search_wikipedia_cases w query) as (t & H).
  exists t. split; [exact H | exact (search_wikipedia_requests _ _ _ _ H)].
Qed.

(** ** The primary client *)

Lemma search_google_cases w query :
  exists t,
    run (search_google w query)
    = (Log INFO ("Starting Google search for: " ++ query)
         :: Sleep :: HttpGet google_url (google_params query) :: t,
       Returned (primary_records w query))
    /\ Forall local_effect t.
Proof.
  unfold search_google, primary_records, primary_page. py_unfold.
  destruct (requests_get w google_url (google_params query)) as [resp | e];
    cbn iota beta.
  2: { eexists; split; [reflexivity | repeat constructor]. }
  destruct (blocked (text resp)); cbn iota beta.
  { eexists; split; [reflexivity | repeat constructor]. }
  destruct (BeautifulSoup w (text resp)) as [soup | e]; cbn iota beta.
  2: { eexists; split; [reflexivity | repeat constructor]. }
  destruct (for_each_scrape (soup_select sel_result_block soup) []) as (tl & Hl).
  pose proof (for_each_scrape_local _ _ _ _ _ Hl) as Hlocal.
  rewrite Hl. cbn iota beta. eexists; split; [reflexivity |].
  simpl. constructor; [repeat split |].
  rewrite ?app_nil_r. apply Forall_app; split; [exact Hlocal | repeat constructor].
Qed.

Lemma search_google_requests w query t o :
  run (search_google w query) = (t, o) -> requests t = [google_url].
Proof.
  destruct (search_google_cases w query) as (t' & Hrun & Hlocal).
  rewrite Hrun. intros H; inversion H; subst.
  simpl. rewrite (requests_local t' Hlocal). reflexivity.
Qed.

(** X2: the primary client never raises and returns the records scraped from
    the page, or the empty list when the request raises, the body is blocked or
    the parser raises.  In every one of these runs it starts with the log
    record, one sleep and one request to the search endpoint carrying
    [q], [hl=en], [gl=in], [num=5]; it sleeps and requests nothing else. *)
Theorem search_google_behaviour w query :
  exists t,
    run (search_google w query) = (t, Returned (primary_records w query))
    /\ requests t = [google_url]
    /\ count is_sleep t = 1
    /\ (exists t', t = Log INFO ("Starting Google search for: " ++ query)
                         :: Sleep :: HttpGet google_url (google_params query) :: t').
Proof.
  destruct (search_google_cases w query) as (t & Hrun & Hlocal).
  eexists. split; [exact Hrun |]. repeat split.
  - simpl. rewrite (requests_local t Hlocal). reflexivity.
  - change (count is_sleep (?a :: ?b :: ?c :: t)) with (1 + count is_sleep t).
    rewrite (count_local is_sleep t); [reflexivity | | exact Hlocal].
    intros ev (_ & H & _); exact H.
  - eauto.
Qed.

Lemma scraped_single block : scraped [block] = record_list block.
Proof.
  unfold record_list, block_record, internal_link, scraped, for_each, scrape_block,
    scrape_body, try_except, bind, text_of, tag_getitem, ret, raise, logging, emit,
    get_local, set_local.
  destruct (select_one sel_title block) as [title |]; cbn iota beta.
  2: { destruct (find_tag "a" block) as [[|] |]; reflexivity. }
  destruct (find_tag "a" block) as [[cls s | nm attrs cs] |]; cbn iota beta;
    try reflexivity.
  destruct (attr_lookup "href" attrs) as [url |]; cbn iota beta; [| reflexivity].
  destruct (startswith "/search?" url || startswith "/url?" url); reflexivity.
Qed.

Lemma scraped_flat_map blocks : scraped blocks = flat_map record_list blocks.
Proof.
  induction blocks as [| b bs IH]; [reflexivity |].
  rewrite scraped_cons, scraped_single, IH. reflexivity.
Qed.

Lemma lstrip_cons c r : py_isspace c = false -> lstrip (String c r) = String c r.
Proof. intros H. simpl. rewrite H. reflexivity. Qed.

Lemma rstrip_cons c r : py_isspace c = false -> rstrip (String c r) = String c (rstrip r).
Proof. intros H. simpl. rewrite H. destruct (rstrip r); reflexivity. Qed.

Lemma lstrip_head s :
  lstrip s = EmptyString
  \/ exists c r, lstrip s = String c r /\ py_isspace c = false.
Proof.
  induction s as [| c s IH]; simpl; [auto |].
  destruct (py_isspace c) eqn:Hc; [exact IH | right; eauto].
Qed.

Lemma rstrip_idempotent s : rstrip (rstrip s) = rstrip s.
Proof.
  induction s as [| c s IH]; [reflexivity |].
  simpl. destruct (rstrip s) as [| d r] eqn:Hr.
  - destruct (py_isspace c) eqn:Hc; simpl; [reflexivity | rewrite Hc; reflexivity].
  - change (rstrip (String c (String d r))) with
      (match rstrip (String d r) with
       | EmptyString => if py_isspace c then EmptyString else String c EmptyString
       | String a b => String c (String a b)
       end).
    rewrite IH. reflexivity.
Qed.

Lemma strip_idempotent s : strip (strip s) = strip s.
Proof.
  unfold strip. destruct (lstrip_head s) as [-> | (c & r & -> & Hc)]; [reflexivity |].
  rewrite (rstrip_cons c r Hc), (lstrip_cons c _ Hc).
  rewrite <- (rstrip_cons c r Hc). apply rstrip_idempotent.
Qed.

Lemma block_record_shape block r : block_record block = Some r -> google_record r.
Proof.
  unfold block_record.
  destruct (select_one sel_title block) as [title |]; [| discriminate].
  destruct (find_tag "a" block) as [[cls s | nm attrs cs] |]; try discriminate.
  destruct (attr_lookup "href" attrs) as [url |]; [| discriminate].
  destruct (internal_link url) eqn:Hurl; [discriminate |].
  intros H; inversion H; subst r.
  do 3 eexists. split; [reflexivity |].
  repeat split; auto using strip_idempotent.
Qed.

Lemma scraped_records blocks : Forall google_record (scraped blocks).
Proof.
  rewrite scraped_flat_map. induction blocks as [| b bs IH]; simpl; [constructor |].
  apply Forall_app; split; [| exact IH].
  unfold record_list. destruct (block_record b) as [r |] eqn:Hr; constructor;
    [eapply block_record_shape; exact Hr | constructor].
Qed.



Lemma primary_records_shape w query : Forall google_record (primary_records w query).
Proof.
  unfold primary_records. destruct (primary_page w query);
    [apply scraped_records | constructor].
Qed.

(** X4: in every world, every record the primary client returns has exactly
    the fields title, url, snippet and source, all strings, with source
    "google", a title and a snippet that [strip] leaves unchanged (no leading
    or trailing white space), and a url that starts with neither "/search?" nor
    "/url?". *)
Theorem search_google_records w query :
  exists t records,
    run (search_google w query) = (t, Returned records)
    /\ Forall google_record records.
Proof.
  destruct (search_google_cases w query) as (t & Hrun & _).
  do 2 eexists. split; [exact Hrun | apply primary_records_shape].
Qed.

(** X5: the two ways a block is skipped differ in the log.  A block dropped by
    the URL filter leaves no trace at all; a block whose extraction raises
    leaves exactly one warning, "Skipping result: " followed by the message of
    the exception.  Neither changes the results collected so far. *)
Theorem skipped_blocks_logging block results :
  (forall title nm attrs cs url,
      select_one sel_title block = Some title ->
      find_tag "a" block = Some (Tag nm attrs cs) ->
      attr_lookup "href" attrs = Some url ->
      internal_link url = true ->
      scrape_block block results = ([], results, Returned tt))
  /\ (forall t results' e,
         scrape_body block results = (t, results', Raised e) ->
         scrape_block block results
         = ([Log WARNING ("Skipping result: " ++ str_of_exn e)], results, Returned tt)).
Proof.
  split.
  - intros title nm attrs cs url Ht Ha Hh Hi.
    unfold scrape_block, scrape_body, try_except, bind, text_of, tag_getitem, ret.
    rewrite Ht, Ha, Hh. cbn iota beta. unfold internal_link in Hi. rewrite Hi.
    reflexivity.
  - intros t results' e H.
    unfold scrape_block, try_except. rewrite H.
    revert H.
    unfold scrape_body, bind, text_of, tag_getitem, ret, raise, get_local, set_local,
      logging, emit.
    destruct (select_one sel_title block) as [title |]; cbn iota beta;
      [| intros H; inversion H; reflexivity].
    destruct (find_tag "a" block) as [[cls s | nm attrs cs] |]; cbn iota beta;
      try (intros H; inversion H; reflexivity).
    destruct (attr_lookup "href" attrs) as [url |]; cbn iota beta;
      [| intros H; inversion H; reflexivity].
    destruct (startswith "/search?" url || startswith "/url?" url); cbn iota beta;
      intros H; inversion H.
Qed.

Lemma prefix_iff p s : String.prefix p s = true <-> exists b, s = p ++ b.
Proof.
  revert s. induction p as [| a p IH]; intros s; simpl.
  - destruct s; split; eauto.
  - destruct s as [| c s]; simpl.
    + split; [discriminate | intros (b & H); discriminate H].
    + destruct (ascii_dec a c) as [-> | Hne].
      * rewrite IH. split; intros (b & H); exists b;
          [rewrite H; reflexivity | inversion H; reflexivity].
      * split; [discriminate | intros (b & H); inversion H; congruence].
Qed.

Lemma is_substring_iff p s :
  is_substring p s = true <-> exists a b, s = a ++ p ++ b.
Proof.
  unfold is_substring. induction s as [| c s IH].
  - simpl. destruct p as [| x p]; split; intros H; try discriminate H.
    + exists EmptyString, EmptyString. reflexivity.
    + reflexivity.
    + destruct H as ([| y a] & b & H); simpl in H; discriminate H.
  - cbn [String.index]. destruct (String.prefix p (String c s)) eqn:Hp.
    + split; [intros _ | reflexivity].
      apply prefix_iff in Hp as (b & Hb). exists EmptyString, b. exact Hb.
    + split.
      * destruct (String.index 0 p s); [intros _ | discriminate].
        destruct (proj1 IH eq_refl) as (a & b & ->).
        exists (String c a), b. reflexivity.
      * intros ([| y a] & b & H).
        -- assert (String.prefix p (String c s) = true) as E
             by (apply prefix_iff; exists b; exact H).
           congruence.
        -- inversion H; subst.
           assert (is_sub : match String.index 0 p (a ++ p ++ b) with
                            | Some _ => true | None => false end = true)
             by (apply IH; eauto).
           destruct (String.index 0 p (a ++ p ++ b)); [reflexivity | discriminate].
Qed.

(** X6: a body is taken as blocked exactly when it contains, somewhere and
    with this very capitalisation, one of the three phrases. *)
Theorem blocked_iff body :
  blocked body = true
  <-> exists phrase before after,
        In phrase ["CAPTCHA"; "unusual traffic"; "automated requests"]
        /\ body = before ++ phrase ++ after.
Proof.
  unfold blocked, block_phrases. rewrite existsb_exists. split.
  - intros (phrase & Hin & Hsub). apply is_substring_iff in Hsub as (a & b & H).
    exists phrase, a, b. auto.
  - intros (phrase & a & b & Hin & H). exists phrase. split; [exact Hin |].
    apply is_substring_iff. eauto.
Qed.

(** ** The aggregator *)

Lemma search_duckduckgo_requests w query t o :
  run (search_duckduckgo w query) = (t, o) -> requests t = [duckduckgo_url].
Proof.
  unfold search_duckduckgo. py_unfold.
  destruct (requests_get w duckduckgo_url (duckduckgo_params query)) as [r | e];
    cbn iota beta; [| intros H; inversion H; reflexivity].
  destruct (json r) as [data | e]; cbn iota beta; [| intros H; inversion H; reflexivity].
  unfold py_get, ret, raise.
  destruct data; cbn iota beta; try (intros H; inversion H; reflexivity).
  destruct (dict_lookup "Heading" kvs), (dict_lookup "AbstractURL" kvs),
    (dict_lookup "AbstractText" kvs); cbn iota beta; intros H; inversion H; reflexivity.
Qed.

Ltac wiki_trace_case := simpl; rewrite ?app_nil_r; do 2 eexists; reflexivity.

Lemma wiki_stage_trace w query G F tw d :
  run (search_wikipedia w query) = (tw, Returned d) ->
  exists c o, wiki_stage w query (composite query G (PyDict []) F) = (tw, c, o).
Proof.
  intros Hw. unfold wiki_stage, bind. rewrite (call_run _ _ _ _ Hw).
  unfold py_contains, py_getitem, py_get, ret, raise.
  destruct d as [ | b | n | fl | s | xs | kvs ]; try solve [wiki_trace_case].
  - destruct (is_substring "query" s); wiki_trace_case.
  - destruct (existsb _ xs); wiki_trace_case.
  - unfold dict_has. destruct (dict_lookup "query" kvs) as [q1 |]; [| wiki_trace_case].
    destruct q1 as [ | b | n | fl | s | xs | qd ]; try solve [wiki_trace_case].
    destruct (dict_lookup "search" qd) as [results |]; [| wiki_trace_case].
    destruct (dict_lookup "searchinfo" qd) as [si |].
    + destruct si as [ | b | n | fl | s | xs | sd ]; try solve [wiki_trace_case].
      destruct (dict_lookup "suggestion" sd); wiki_trace_case.
    + wiki_trace_case.
Qed.

(** The trace and the value of the aggregation, given what the three clients
    do. *)
Lemma combine_results_trace w query use_google use_wiki tg g td f tw d :
  run (search_google w query) = (tg, Returned g) ->
  run (search_duckduckgo w query) = (td, Returned f) ->
  run (search_wikipedia w query) = (tw, Returned d) ->
  exists t_log W,
    run (combine_results w query use_google use_wiki)
    = ((web_trace use_google tg g td ++ (if use_wiki then tw else []) ++ t_log)%list,
       Returned (composite query (web_google use_google g) W
                   (web_fallback use_google g f)))
    /\ Forall local_effect t_log.
Proof.
  intros Hg Hd Hw. rewrite (combine_results_via_tail _ _ _ _ _ _ _ _ Hg Hd).
  set (G := web_google use_google g). set (F := web_fallback use_google g f).
  destruct use_wiki; unfold stage, try_except, bind.
  - destruct (wiki_stage_trace w query G F tw d Hw) as (c & o & Htr).
    destruct (wiki_stage_run w query G F) as (t & c' & o' & Hrun & _ & Hc).
    rewrite Htr in Hrun. inversion Hrun; subst t c' o'. rewrite Htr.
    destruct Hc as [(e & -> & ->) | (-> & [-> | (r & s & ->)])];
      unfold on_failure, logging, emit, bind, get_local; cbn iota beta.
    + do 2 eexists. split; [reflexivity |]. repeat constructor.
    + do 2 eexists. split; [reflexivity |]. repeat constructor.
    + do 2 eexists. split; [reflexivity |]. repeat constructor.
  - unfold ret, get_local. do 2 eexists. split; [reflexivity |]. constructor.
Qed.

Lemma web_trace_requests use_google tg g td :
  requests tg = [google_url] ->
  requests td = [duckduckgo_url] ->
  requests (web_trace use_google tg g td)
  = if use_google
    then google_url :: match g with [] => [duckduckgo_url] | _ :: _ => [] end
    else [].
Proof.
  intros Hg Hd. destruct use_google; [| reflexivity].
  destruct g; simpl; [| exact Hg].
  rewrite requests_app. simpl. rewrite Hg, Hd. reflexivity.
Qed.

(** X7: the aggregator contacts the endpoints in a fixed order and never
    twice: the search endpoint when web search is enabled, then the fallback
    endpoint when the primary client returned nothing, then the Wikipedia
    endpoint when the encyclopedia is enabled.  A disabled source is never
    contacted. *)
Theorem combine_results_request_order w query use_google use_wiki :
  exists t c,
    run (combine_results w query use_google use_wiki) = (t, Returned c)
    /\ requests t = expected_requests w query use_google use_wiki.
Proof.
  destruct (search_google_cases w query) as (tg' & Hg & _).
  destruct (search_duckduckgo_run w query) as (td & f & Hd).
  destruct (search_wikipedia_run w query) as (tw & d & Hw).
  destruct (combine_results_trace w query use_google use_wiki _ _ _ _ _ _ Hg Hd Hw)
    as (t_log & W & Hrun & Hlog).
  do 2 eexists. split; [exact Hrun |].
  rewrite !requests_app, (requests_local t_log Hlog), app_nil_r.
  rewrite (web_trace_requests use_google _ _ _
             (search_google_requests _ _ _ _ Hg) (search_duckduckgo_requests _ _ _ _ Hd)).
  unfold expected_requests. f_equal.
  destruct use_wiki; [exact (search_wikipedia_requests _ _ _ _ Hw) | reflexivity].
Qed.

Ltac wiki_field_case := simpl; rewrite ?app_nil_r; eexists; reflexivity.

Lemma wiki_stage_result w query G F tw :
  run (search_wikipedia w query) = (tw, Returned (wikipedia_data w query)) ->
  exists o,
    wiki_stage w query (composite query G (PyDict []) F)
    = (tw, composite query G (wikipedia_field w query) F, o).
Proof.
  intros Hw. unfold wiki_stage, bind. rewrite (call_run _ _ _ _ Hw).
  unfold wikipedia_field, suggestion_of.
  unfold py_contains, py_getitem, py_get, ret, raise.
  destruct (wikipedia_data w query) as [ | b | n | fl | s | xs | kvs ];
    try solve [wiki_field_case].
  - destruct (is_substring "query" s); wiki_field_case.
  - destruct (existsb _ xs); wiki_field_case.
  - unfold dict_has. destruct (dict_lookup "query" kvs) as [q1 |]; [| wiki_field_case].
    destruct q1 as [ | b | n | fl | s | xs | qd ]; try solve [wiki_field_case].
    destruct (dict_lookup "search" qd) as [results |]; [| wiki_field_case].
    destruct (dict_lookup "searchinfo" qd) as [si |].
    + destruct si as [ | b | n | fl | s | xs | sd ]; try solve [wiki_field_case].
      destruct (dict_lookup "suggestion" sd); wiki_field_case.
    + wiki_field_case.
Qed.

Lemma combine_results_aggregate w query use_google use_wiki :
  exists t,
    run (combine_results w query use_google use_wiki)
    = (t, Returned (aggregate w query use_google use_wiki)).
Proof.
  destruct (search_google_cases w query) as (tg & Hg & _).
  destruct (search_duckduckgo_spec w query) as (td & Hd & _).
  destruct (search_wikipedia_cases w query) as (tw & Hw).
  rewrite (combine_results_via_tail _ _ _ _ _ _ _ _ Hg Hd).
  fold (fallback_records w query). unfold aggregate.
  destruct use_wiki; unfold stage, try_except, bind.
  - destruct (wiki_stage_result w query
                (web_google use_google (primary_records w query))
                (web_fallback use_google (primary_records w query)
                   (fallback_records w query)) tw Hw) as (o & ->).
    destruct o as [[] | e]; unfold get_local, on_failure, logging, emit, bind;
      cbn iota beta; eexists; reflexivity.
  - unfold ret, get_local. eexists; reflexivity.
Qed.

(** X8: the aggregate is a function of the toggles and of what the three
    endpoints answer: [google] holds the primary records when web search is
    enabled, [fallback] holds the fallback's records when web search is enabled
    and the primary records are empty, [wikipedia] holds the extracted fields
    when the encyclopedia is enabled and the response has the success shape;
    every other field is empty.  The web fields do not depend on the
    encyclopedia toggle, nor the [wikipedia] field on the web toggle. *)
Theorem combine_results_characterised w query use_google use_wiki :
  exists t,
    run (combine_results w query use_google use_wiki)
    = (t, Returned (aggregate w query use_google use_wiki)).
Proof. apply combine_results_aggregate. Qed.

Lemma wiki_stage_fields w query tw d qd results G W F :
  run (search_wikipedia w query) = (tw, Returned (PyDict d)) ->
  dict_lookup "query" d = Some (PyDict qd) ->
  dict_lookup "search" qd = Some results ->
  exists o,
    wiki_stage w query (composite query G W F)
    = (tw,
       composite query G
         match suggestion_of qd with
         | Some s => wikipedia_entry results s
         | None => W
         end F,
       o)
    /\ (suggestion_of qd <> None -> o = Returned tt).
Proof.
  intros Hw Hq Hs. unfold wiki_stage, bind. rewrite (call_run _ _ _ _ Hw).
  unfold py_contains, py_getitem, py_get, ret, raise, dict_has, suggestion_of.
  rewrite Hq. cbn iota beta. rewrite Hs. cbn iota beta.
  destruct (dict_lookup "searchinfo" qd) as [si |].
  - destruct si as [ | b | n | fl | s | xs | sd ];
      try (simpl; rewrite ?app_nil_r; eexists; split;
           [reflexivity | intros H; contradiction]).
    destruct (dict_lookup "suggestion" sd); simpl; rewrite ?app_nil_r;
      eexists; split; reflexivity.
  - simpl. rewrite ?app_nil_r. eexists; split; reflexivity.
Qed.

(** X9: from a success response the aggregator copies the hit list and the
    suggestion as they are: [results] is [wiki_data["query"]["search"]] and
    [suggestion] is the suggestion of [searchinfo], [None] when there is none.
    When [searchinfo] is not a mapping the second [.get] raises and the
    [wikipedia] field stays empty. *)
Theorem wikipedia_fields_extracted w query use_google tw d qd results :
  run (search_wikipedia w query) = (tw, Returned (PyDict d)) ->
  dict_lookup "query" d = Some (PyDict qd) ->
  dict_lookup "search" qd = Some results ->
  exists t G F,
    run (combine_results w query use_google true)
    = (t, Returned (composite query G
                      match suggestion_of qd with
                      | Some s => wikipedia_entry results s
                      | None => PyDict []
                      end F)).
Proof.
  intros Hw Hq Hs.
  destruct (search_google_run w query) as (tg & g & Hg).
  destruct (search_duckduckgo_run w query) as (td & f & Hd).
  rewrite (combine_results_via_tail _ _ _ _ _ _ _ _ Hg Hd).
  unfold stage, try_except, bind.
  destruct (wiki_stage_fields w query tw d qd results
              (web_google use_google g) (PyDict []) (web_fallback use_google g f)
              Hw Hq Hs) as (o & -> & Ho).
  destruct o as [[] | e]; unfold get_local, on_failure, logging, emit, bind;
    cbn iota beta; do 3 eexists; reflexivity.
Qed.

(** X10: whenever the primary client has no page to scrape -- the request
    raised, the body was blocked, or the parser raised -- the aggregator, with
    web search enabled, asks the fallback endpoint right after the search
    endpoint and stores what the fallback client returns under [fallback],
    leaving [google] empty. *)
Theorem primary_failure_falls_back w query use_wiki :
  primary_page w query = None ->
  exists t W,
    run (combine_results w query true use_wiki)
    = (t, Returned (composite query [] W (fallback_records w query)))
    /\ requests t
       = google_url :: duckduckgo_url :: (if use_wiki then [wikipedia_url] else []).
Proof.
  intros Hpage.
  destruct (search_google_cases w query) as (tg' & Hg & _).
  destruct (search_duckduckgo_spec w query) as (td & Hd & _).
  destruct (search_wikipedia_run w query) as (tw & d & Hw).
  destruct (combine_results_trace w query true use_wiki _ _ _ _ _ _ Hg Hd Hw)
    as (t_log & W & Hrun & Hlog).
  pose proof (search_google_requests _ _ _ _ Hg) as Hrg.
  unfold primary_records in *. rewrite Hpage in *.
  cbn [web_google web_fallback] in Hrun.
  do 2 eexists. split; [exact Hrun |].
  rewrite !requests_app, (requests_local t_log Hlog), app_nil_r.
  rewrite (web_trace_requests true _ _ _ Hrg (search_duckduckgo_requests _ _ _ _ Hd)).
  destruct use_wiki; [rewrite (search_wikipedia_requests _ _ _ _ Hw) |]; reflexivity.
Qed.

(** ** The synthesizer and the orchestrator *)

Lemma generate_answer_calls w query G W F :
  exists ta a,
    run (generate_answer w query (composite query G W F)) = (ta, Returned a)
    /\ count is_model_call ta = (if any [PyList G; W; PyList F] then 1 else 0)
    /\ (any [PyList G; W; PyList F] = false -> a = no_results_message).
Proof.
  rewrite generate_answer_run.
  destruct (any [PyList G; W; PyList F]); do 2 eexists;
    (split; [reflexivity | split; [reflexivity | intros H]]);
    [discriminate H | reflexivity].
Qed.

(** The orchestrator in terms of its two stages. *)
Lemma full_pipeline_run w query use_google use_wiki tc c ta a :
  run (combine_results w query use_google use_wiki) = (tc, Returned c) ->
  run (generate_answer w query c) = (ta, Returned a) ->
  run (full_pipeline w query use_google use_wiki)
  = ((Log INFO banner
        :: Log INFO ("Starting pipeline for query: '" ++ query ++ "'")
        :: tc
        ++ Log INFO "Results combined, generating answer..."
        :: ta
        ++ [Log INFO "Pipeline completed successfully"])%list,
     Returned (a, json_dumps (Some 2) c)).
Proof.
  intros Hc Ha. apply run_inv in Hc. apply run_inv in Ha.
  unfold full_pipeline, try_except, bind, run, logging, emit, ret.
  rewrite Hc. cbn iota beta. rewrite Ha. cbn iota beta.
  rewrite !app_nil_r. reflexivity.
Qed.

(** The aggregate when the Wikipedia client's result has no [query] field. *)
Lemma combine_results_without_query w query use_google use_wiki tw d :
  run (search_wikipedia w query) = (tw, Returned (PyDict d)) ->
  dict_has "query" d = false ->
  exists t,
    run (combine_results w query use_google use_wiki)
    = (t, Returned (composite query
                      (web_google use_google (primary_records w query))
                      (PyDict [])
                      (web_fallback use_google (primary_records w query)
                         (fallback_records w query)))).
Proof.
  intros Hw Hq.
  destruct (search_google_cases w query) as (tg & Hg & _).
  destruct (search_duckduckgo_spec w query) as (td & Hd & _).
  rewrite (combine_results_via_tail _ _ _ _ _ _ _ _ Hg Hd).
  destruct use_wiki; unfold stage, try_except, bind.
  - rewrite (wiki_stage_no_query w query tw d _ Hw Hq). unfold get_local. eauto.
  - unfold ret, get_local. eauto.
Qed.

Lemma full_pipeline_effects w query use_google use_wiki tc G W F :
  run (combine_results w query use_google use_wiki)
  = (tc, Returned (composite query G W F)) ->
  exists t a,
    run (full_pipeline w query use_google use_wiki)
    = (t, Returned (a, json_dumps (Some 2) (composite query G W F)))
    /\ requests t = requests tc
    /\ count is_model_call t = (if any [PyList G; W; PyList F] then 1 else 0)
    /\ (any [PyList G; W; PyList F] = false -> a = no_results_message)
    /\ last t Sleep = Log INFO "Pipeline completed successfully".
Proof.
  intros Hc.
  destruct (generate_answer_calls w query G W F) as (ta & a & Ha & Hcount & Hmsg).
  pose proof (emits_run _ _ _ _
                (combine_results_no_model w query use_google use_wiki) Hc) as Htc.
  rewrite (full_pipeline_run _ _ _ _ _ _ _ _ Hc Ha).
  do 2 eexists. split; [reflexivity |]. repeat split.
  - simpl. rewrite requests_app. simpl. rewrite requests_app. simpl.
    assert (Hta : requests ta = []).
    { revert Ha. rewrite generate_answer_run.
      destruct (any [PyList G; W; PyList F]); intros H; inversion H; reflexivity. }
    rewrite Hta, app_nil_r. reflexivity.
  - change (Log INFO banner :: ?x :: ?r) with ([Log INFO banner; x] ++ r)%list.
    change (Log INFO "Results combined, generating answer..." :: ?r)
      with ([Log INFO "Results combined, generating answer..."] ++ r)%list.
    rewrite !count_app, (count_none _ tc Htc), Hcount.
    destruct (any [PyList G; W; PyList F]); reflexivity.
  - exact Hmsg.
  - change (Log INFO banner :: ?x :: ?r) with ([Log INFO banner; x] ++ r)%list.
    change (Log INFO "Results combined, generating answer..." :: ?r)
      with ([Log INFO "Results combined, generating answer..."] ++ r)%list.
    rewrite !app_assoc. apply last_last.
Qed.

(** X11: the orchestrator is the composition of its two stages: its answer is
    what the synthesizer returns on the aggregate, its evidence is the
    aggregate serialised with [indent=2], and its trace is the two opening log
    records, the aggregator's trace, a log record, the synthesizer's trace and
    the record "Pipeline completed successfully" -- written in every run, also
    when every source failed.  The model is called by the synthesizer only, at
    most once. *)
Theorem full_pipeline_composition w query use_google use_wiki :
  exists tc c ta a,
    run (combine_results w query use_google use_wiki) = (tc, Returned c)
    /\ run (generate_answer w query c) = (ta, Returned a)
    /\ run (full_pipeline w query use_google use_wiki)
       = ((Log INFO banner
             :: Log INFO ("Starting pipeline for query: '" ++ query ++ "'")
             :: tc
             ++ Log INFO "Results combined, generating answer..."
             :: ta
             ++ [Log INFO "Pipeline completed successfully"])%list,
          Returned (a, json_dumps (Some 2) c))
    /\ count is_model_call tc = 0
    /\ count is_model_call ta <= 1.
Proof.
  destruct (combine_results_composite w query use_google use_wiki)
    as (tc & G & W & F & Hc).
  destruct (generate_answer_calls w query G W F) as (ta & a & Ha & Hcount & _).
  exists tc, (composite query G W F), ta, a.
  split; [exact Hc | split; [exact Ha |]].
  split; [apply full_pipeline_run; assumption |].
  split.
  - apply count_none.
    exact (emits_run _ _ _ _ (combine_results_no_model w query use_google use_wiki) Hc).
  - rewrite Hcount. destruct (any [PyList G; W; PyList F]); lia.
Qed.

(** X12: the result of the orchestrator in closed form: the evidence is the
    serialised aggregate, and the answer is the fixed message when the three
    source fields are empty and otherwise the reply of the model, or the string
    that reports its failure. *)
Theorem full_pipeline_characterised w query use_google use_wiki :
  exists t,
    run (full_pipeline w query use_google use_wiki)
    = (t, Returned
            (pipeline_answer w query use_google use_wiki,
             json_dumps (Some 2) (aggregate w query use_google use_wiki))).
Proof.
  destruct (combine_results_aggregate w query use_google use_wiki) as (tc & Hc).
  pose proof (generate_answer_run w query (google_field w query use_google)
                (encyclopedia_field w query use_wiki)
                (fallback_field w query use_google)) as Ha.
  fold (aggregate w query use_google use_wiki) in Ha.
  eexists.
  rewrite (full_pipeline_run w query use_google use_wiki tc _
             (fst (run (generate_answer w query (aggregate w query use_google use_wiki))))
             (pipeline_answer w query use_google use_wiki) Hc).
  - reflexivity.
  - rewrite Ha. unfold pipeline_answer.
    destruct (any _); reflexivity.
Qed.

(** X13: when every request raises, the pipeline answers with the fixed
    message and the empty aggregate, whatever the query and the toggles, and
    never calls the model. *)
Theorem offline_pipeline w query use_google use_wiki :
  (forall url params, exists e, requests_get w url params = Raised e) ->
  exists t,
    run (full_pipeline w query use_google use_wiki)
    = (t, Returned (no_results_message,
                    json_dumps (Some 2) (composite query [] (PyDict []) [])))
    /\ count is_model_call t = 0.
Proof.
  intros Hdown.
  destruct (Hdown google_url (google_params query)) as (eg & Heg).
  destruct (Hdown duckduckgo_url (duckduckgo_params query)) as (ed & Hed).
  destruct (Hdown wikipedia_url (wikipedia_params query)) as (ew & Hew).
  destruct (search_wikipedia_cases w query) as (tw & Hw).
  unfold wikipedia_outcome in Hw. rewrite Hew in Hw.
  destruct (combine_results_without_query w query use_google use_wiki _ _ Hw eq_refl)
    as (tc & Hc).
  unfold primary_records, primary_page, fallback_records, duckduckgo_payload in Hc.
  rewrite Heg, Hed in Hc.
  assert (Hc' : run (combine_results w query use_google use_wiki)
                = (tc, Returned (composite query [] (PyDict []) []))).
  { rewrite Hc. destruct use_google; reflexivity. }
  destruct (full_pipeline_effects w query use_google use_wiki _ _ _ _ Hc')
    as (t & a & Hrun & _ & Hcount & Hmsg & _).
  exists t. rewrite Hrun, (Hmsg eq_refl). split; [reflexivity | exact Hcount].
Qed.

(** X14: the fallback's record of defaults counts as evidence.  When the
    primary client returns nothing and the fallback endpoint answers with any
    JSON object -- even one without Heading, AbstractURL and AbstractText -- the
    aggregate holds one fallback record, the short-circuit is not taken and the
    model is called exactly once. *)
Theorem empty_fallback_record_reaches_model w query use_wiki d :
  primary_records w query = [] ->
  duckduckgo_payload w query = Some d ->
  exists t a W,
    run (full_pipeline w query true use_wiki)
    = (t, Returned
            (a, json_dumps (Some 2)
                  (composite query [] W
                     [duckduckgo_record (field "Heading" d) (field "AbstractURL" d)
                        (field "AbstractText" d)])))
    /\ count is_model_call t = 1.
Proof.
  intros Hprimary Hpayload.
  destruct (search_google_cases w query) as (tg & Hg & _).
  destruct (search_duckduckgo_spec w query) as (td & Hd & _).
  destruct (combine_results_run w query true use_wiki _ _ _ _ Hg Hd)
    as (tr & W & _ & _ & Hc).
  rewrite Hprimary, Hpayload in Hc.
  destruct (full_pipeline_effects w query true use_wiki _ _ _ _ Hc)
    as (t & a & Hrun & _ & Hcount & _).
  exists t, a, W. split; [exact Hrun |].
  rewrite Hcount. unfold any, existsb, truthy. cbn iota.
  rewrite orb_true_r. reflexivity.
Qed.

(** X15: when there is evidence and the model call raises, the synthesizer
    does not raise: it returns "Error generating answer: " followed by the
    message, having called the model once. *)
Theorem model_failure_reported w query G W F e :
  any [PyList G; W; PyList F] = true ->
  ollama_chat w model_name
    (make_prompt query (json_dumps (Some 2) (composite query G W F)))
  = Raised e ->
  run (generate_answer w query (composite query G W F))
  = ([OllamaChat model_name
        (make_prompt query (json_dumps (Some 2) (composite query G W F)))],
     Returned ("Error generating answer: " ++ str_of_exn e)).
Proof.
  intros Hany Hchat. rewrite generate_answer_run, Hany. cbn zeta.
  unfold model_answer. rewrite Hchat. reflexivity.
Qed.

(** X16: the synthesizer reads [combined_results["sources"]] outside its
    [try]: on a mapping without that key it raises [KeyError] and calls
    nothing. *)
Theorem generate_answer_needs_sources w query d :
  dict_lookup "sources" d = None ->
  run (generate_answer w query (PyDict d)) = ([], Raised (KeyError "sources")).
Proof.
  intros H. unfold generate_answer, py_getitem. rewrite H. reflexivity.
Qed.

(** ** The evidence read back *)

Lemma distinct_NoDup ks : distinct ks = true -> NoDup ks.
Proof.
  induction ks as [| k ks IH]; simpl; intros H; constructor.
  - apply andb_true_iff in H as [H _]. apply negb_true_iff in H.
    intros Hin. assert (existsb (String.eqb k) ks = true) as E.
    { apply existsb_exists. exists k. split; [exact Hin | apply String.eqb_refl]. }
    congruence.
  - apply IH. apply andb_true_iff in H as [_ H]. exact H.
Qed.

Lemma dict_set_fresh k v acc :
  ~ In k (map fst acc) -> dict_set k v acc = (acc ++ [(k, v)])%list.
Proof.
  induction acc as [| [k' v'] acc IH]; simpl; intros H; [reflexivity |].
  destruct (String.eqb_spec k k') as [-> | Hne]; [exfalso; auto |].
  rewrite IH by auto. reflexivity.
Qed.

Lemma dict_of_pairs_acc kvs acc :
  NoDup (map fst kvs) ->
  (forall k, In k (map fst kvs) -> ~ In k (map fst acc)) ->
  fold_left (fun d kv => dict_set (fst kv) (snd kv) d) kvs acc = (acc ++ kvs)%list.
Proof.
  revert acc. induction kvs as [| [k v] kvs IH]; intros acc Hnd Hfresh; simpl.
  - rewrite app_nil_r. reflexivity.
  - inversion Hnd as [| ? ? Hk Hnd']; subst.
    rewrite dict_set_fresh by (apply Hfresh; left; reflexivity).
    rewrite IH; [rewrite <- app_assoc; reflexivity | exact Hnd' |].
    intros k' Hin. rewrite map_app, in_app_iff. simpl.
    intros [Hacc | [<- | []]]; [| exact (Hk Hin)].
    exact (Hfresh k' (or_intror Hin) Hacc).
Qed.

Lemma dict_of_pairs_distinct kvs :
  distinct (map fst kvs) = true -> dict_of_pairs kvs = kvs.
Proof.
  intros H. unfold dict_of_pairs.
  rewrite dict_of_pairs_acc; [reflexivity | apply distinct_NoDup, H | auto].
Qed.

Lemma lstrip_zeros_nonzero c r :
  Ascii.eqb c "0" = false -> lstrip_zeros (String c r) = String c r.
Proof. intros H. simpl. rewrite H. reflexivity. Qed.

Lemma lstrip_zeros_zeros n s : lstrip_zeros (zeros n ++ s) = lstrip_zeros s.
Proof. induction n as [| n IH]; simpl; auto. Qed.

Lemma rstrip_zeros_zeros n : rstrip_zeros (zeros n) = EmptyString.
Proof. induction n as [| n IH]; simpl; [reflexivity | rewrite IH; reflexivity]. Qed.

Lemma rstrip_zeros_app s n : rstrip_zeros (s ++ zeros n) = rstrip_zeros s.
Proof.
  induction s as [| c s IH]; simpl; [apply rstrip_zeros_zeros | rewrite IH; reflexivity].
Qed.

Lemma digits_value_zero s : digits_value (String "0" s) = digits_value s.
Proof.
  unfold digits_value. simpl.
  destruct (NilEmpty.uint_of_string s); reflexivity.
Qed.

Lemma exponent_value_digits e :
  exponent_value (Some ((e <? 0)%Z, exponent_digits e)) = e.
Proof.
  unfold exponent_value, exponent_digits.
  destruct (n_digits (Z.abs_N e)) as [-> _].
  assert (H : digits_value
                (if (String.length (digits (N.to_uint (Z.abs_N e))) <? 2)%nat
                 then "0" ++ digits (N.to_uint (Z.abs_N e))
                 else digits (N.to_uint (Z.abs_N e)))
              = Z.abs_N e).
  { destruct (_ <? 2)%nat; cbn [append]; rewrite ?digits_value_zero;
      rewrite digits_value_digits; apply DecimalN.Unsigned.of_to. }
  rewrite H. destruct (Z.ltb_spec e 0); rewrite N2Z.inj_abs_N; lia.
Qed.

Lemma significand_value p : digits_value (digits (Pos.to_uint p)) = Npos p.
Proof.
  rewrite digits_value_digits. unfold N.of_uint. apply DecimalPos.Unsigned.of_to.
Qed.

(** A float whose digits are the shortest ones is read back as it was. *)
Lemma float_read_back_shortest x :
  float_shortest x = true -> float_read_back x = x.
Proof.
  destruct x as [| neg | neg | neg p decpt]; try reflexivity.
  unfold float_shortest, float_read_back. intros Hs. apply String.eqb_eq in Hs.
  pose proof (significand_value p) as Hv.
  destruct (significand_head p) as (c & r & Hd & Hc & H0).
  unfold float_literal, float_of_literal.
  set (ds := digits (Pos.to_uint p)) in *.
  assert (Hl : forall t, lstrip_zeros (ds ++ t) = ds ++ t).
  { intros t. rewrite Hd. apply (lstrip_zeros_nonzero c (r ++ t) H0). }
  assert (Hl0 : lstrip_zeros ds = ds).
  { specialize (Hl EmptyString). rewrite append_nil_r in Hl. exact Hl. }
  assert (Hlen : 1 <= String.length ds) by (rewrite Hd; simpl; lia).
  destruct ((decpt <=? -4)%Z || (16 <? decpt)%Z) eqn:Hsci;
    [| destruct (decpt <=? 0)%Z eqn:Hle;
       [| destruct (decpt <? Z.of_nat (String.length ds))%Z eqn:Hlt]];
    cbn [lit_negative lit_int lit_frac lit_exp].
  - assert (Hall : string_take 1 ds
                   ++ match match string_drop 1 ds with
                            | EmptyString => None
                            | String a s => Some (String a s)
                            end with
                      | Some f => f
                      | None => EmptyString
                      end = ds).
    { rewrite <- (take_drop 1 ds) at 3. destruct (string_drop 1 ds); reflexivity. }
    rewrite Hall, exponent_value_digits.
    rewrite Hl0, Hs, Hv.
    rewrite length_take by exact Hlen. f_equal. lia.
  - cbn [append].
    change (String "0" (zeros (Z.to_nat (- decpt)) ++ ds))
      with (zeros (S (Z.to_nat (- decpt))) ++ ds).
    rewrite lstrip_zeros_zeros.
    rewrite Hl0, Hs, Hv.
    rewrite length_append, length_zeros. apply Z.leb_le in Hle.
    cbn [exponent_value String.length]. f_equal. lia.
  - rewrite take_drop. apply Z.leb_gt in Hle. apply Z.ltb_lt in Hlt.
    rewrite Hl0, Hs, Hv.
    rewrite length_take by lia. cbn [exponent_value]. f_equal. lia.
  - apply Z.leb_gt in Hle. apply Z.ltb_ge in Hlt.
    rewrite append_assoc, Hl.
    change (zeros (Z.to_nat (decpt - Z.of_nat (String.length ds))) ++ "0")
      with (zeros (Z.to_nat (decpt - Z.of_nat (String.length ds))) ++ zeros 1).
    rewrite <- append_assoc, !rstrip_zeros_app, Hs, Hv.
    rewrite !length_append, !length_zeros. cbn [exponent_value]. f_equal. lia.
Qed.

Lemma canon_exact v : exact v = true -> canon v = v.
Proof.
  induction v as [| b | n | fl | s | xs IH | kvs IH] using pyval_nested_ind;
    try reflexivity; simpl; intros H.
  - apply andb_true_iff in H as [_ H].
    rewrite (float_read_back_shortest fl H). reflexivity.
  - f_equal. induction IH as [| x xs Hx _ IHxs]; [reflexivity |].
    simpl in H. apply andb_true_iff in H as [H1 H2].
    simpl. rewrite (Hx H1), (IHxs H2). reflexivity.
  - apply andb_true_iff in H as [Hd Hall].
    assert (Hmap : map (fun kv => (fst kv, canon (snd kv))) kvs = kvs).
    { clear Hd. induction IH as [| [k x] kvs Hx _ IHkvs]; [reflexivity |].
      simpl in Hall, Hx. apply andb_true_iff in Hall as [H1 H2].
      simpl. rewrite (Hx H1), (IHkvs H2). reflexivity. }
    rewrite Hmap, (dict_of_pairs_distinct kvs Hd). reflexivity.
Qed.

Lemma exact_finite v : exact v = true -> finite v = true.
Proof.
  induction v as [| b | n | fl | s | xs IH | kvs IH] using pyval_nested_ind;
    try reflexivity; simpl; intros H.
  - apply andb_true_iff in H as [H _]. exact H.
  - rewrite forallb_forall in *. rewrite Forall_forall in IH.
    intros x Hx. apply IH; [exact Hx | apply H, Hx].
  - apply andb_true_iff in H as [_ H].
    rewrite forallb_forall in *. rewrite Forall_forall in IH.
    intros kv Hkv. apply IH; [exact Hkv | apply H, Hkv].
Qed.

Lemma json_round_trip indent v :
  exact v = true -> json_loads (json_dumps indent v) = Some v.
Proof.
  intros H. rewrite (json_loads_dumps indent v (exact_finite v H)), (canon_exact v H).
  reflexivity.
Qed.

Ltac wiki_kept_case Hc0 :=
  simpl; intros H; inversion H; subst; exact Hc0.

(** *** What the aggregator keeps

    A property of values that holds of every string and of [None], and of a
    list or a dictionary as soon as it holds of its items, holds of the
    aggregate when it holds of the payloads: the aggregator copies parts of
    the payloads and adds strings of its own. *)
Section Kept.

Variable ok : pyval -> bool.
Hypothesis ok_none : ok PyNone = true.
Hypothesis ok_str : forall s, ok (PyStr s) = true.
Hypothesis ok_list : forall xs, ok (PyList xs) = forallb ok xs.
Hypothesis ok_lookup :
  forall k d x, ok (PyDict d) = true -> dict_lookup k d = Some x -> ok x = true.
Hypothesis ok_dict :
  forall kvs,
    distinct (map fst kvs) = true ->
    forallb (fun kv => ok (snd kv)) kvs = true ->
    ok (PyDict kvs) = true.

Lemma composite_kept query G W F :
  forallb ok G = true -> ok W = true -> forallb ok F = true ->
  ok (composite query G W F) = true.
Proof.
  intros HG HW HF. unfold composite.
  apply ok_dict; [reflexivity |]. simpl. rewrite ok_str. simpl.
  rewrite andb_true_r. apply ok_dict; [reflexivity |].
  simpl. rewrite !ok_list, HG, HW, HF. reflexivity.
Qed.

Lemma composite_parts query G W F :
  ok (composite query G W F) = true -> forallb ok G = true /\ forallb ok F = true.
Proof.
  intros H. unfold composite in H.
  pose proof (ok_lookup "sources" _ _ H eq_refl) as Hs.
  pose proof (ok_lookup "google" _ _ Hs eq_refl) as HG.
  pose proof (ok_lookup "fallback" _ _ Hs eq_refl) as HF.
  rewrite ok_list in HG, HF. split; assumption.
Qed.

Lemma google_record_kept r : google_record r -> ok r = true.
Proof.
  intros (title & url & snippet & -> & _).
  apply ok_dict; [reflexivity |]. simpl. rewrite !ok_str. reflexivity.
Qed.

Lemma primary_records_kept w query : forallb ok (primary_records w query) = true.
Proof.
  apply forallb_forall. intros r Hin.
  apply google_record_kept.
  exact (proj1 (Forall_forall _ _) (primary_records_shape w query) r Hin).
Qed.

Lemma field_kept k d : ok (PyDict d) = true -> ok (field k d) = true.
Proof.
  intros H. unfold field. destruct (dict_lookup k d) as [x |] eqn:Hx;
    [exact (ok_lookup k d x H Hx) | apply ok_str].
Qed.

Lemma fallback_records_kept w query :
  payloads ok w -> forallb ok (fallback_records w query) = true.
Proof.
  intros Hw. unfold fallback_records, duckduckgo_payload.
  destruct (requests_get w duckduckgo_url (duckduckgo_params query)) as [r | e] eqn:Hr;
    [| reflexivity].
  destruct (json r) as [[| | | | | | d] | e] eqn:Hj; try reflexivity.
  pose proof (Hw _ _ _ _ Hr Hj) as Hd.
  simpl. rewrite andb_true_r. unfold duckduckgo_record.
  apply ok_dict; [reflexivity |].
  simpl. rewrite !(field_kept _ d Hd), ok_str. reflexivity.
Qed.

Lemma search_wikipedia_kept w query t v :
  payloads ok w ->
  run (search_wikipedia w query) = (t, Returned v) ->
  ok v = true.
Proof.
  intros Hw. destruct (search_wikipedia_cases w query) as (t' & ->).
  unfold wikipedia_outcome.
  assert (Herr : forall e, ok (PyDict [("error", PyStr (str_of_exn e))]) = true).
  { intros e. apply ok_dict; [reflexivity |]. simpl. rewrite ok_str. reflexivity. }
  destruct (requests_get w wikipedia_url (wikipedia_params query)) as [r | e] eqn:Hr.
  - destruct (json r) as [payload | e] eqn:Hj; intros H; inversion H; subst;
      [exact (Hw _ _ _ _ Hr Hj) | apply Herr].
  - intros H; inversion H; apply Herr.
Qed.

Lemma wikipedia_entry_kept r s :
  ok r = true -> ok s = true -> ok (wikipedia_entry r s) = true.
Proof.
  intros Hr Hs. unfold wikipedia_entry. apply ok_dict; [reflexivity |].
  simpl. rewrite Hr, Hs. reflexivity.
Qed.

Lemma wiki_stage_kept w query G F tw d t c o :
  run (search_wikipedia w query) = (tw, Returned d) ->
  ok d = true ->
  ok (composite query G (PyDict []) F) = true ->
  wiki_stage w query (composite query G (PyDict []) F) = (t, c, o) ->
  ok c = true.
Proof.
  intros Hw Hd Hc0. unfold wiki_stage, bind. rewrite (call_run _ _ _ _ Hw).
  unfold py_contains, py_getitem, py_get, ret, raise.
  destruct d as [ | b | n | fl | s | xs | kvs ]; try solve [wiki_kept_case Hc0].
  - destruct (is_substring "query" s); wiki_kept_case Hc0.
  - destruct (existsb _ xs); wiki_kept_case Hc0.
  - unfold dict_has.
    destruct (dict_lookup "query" kvs) as [q1 |] eqn:Hq; [| wiki_kept_case Hc0].
    pose proof (ok_lookup _ _ _ Hd Hq) as Hq1.
    destruct q1 as [ | b | n | fl | s | xs | qd ]; try solve [wiki_kept_case Hc0].
    destruct (dict_lookup "search" qd) as [results |] eqn:Hs;
      [| wiki_kept_case Hc0].
    pose proof (ok_lookup _ _ _ Hq1 Hs) as Hres.
    assert (Hentry : forall s,
               ok s = true ->
               ok (composite query G (wikipedia_entry results s) F) = true).
    { intros s Hsug. destruct (composite_parts _ _ _ _ Hc0) as [HG HF].
      apply composite_kept;
        [exact HG | apply wikipedia_entry_kept; assumption | exact HF]. }
    destruct (dict_lookup "searchinfo" qd) as [si |] eqn:Hsi.
    + pose proof (ok_lookup _ _ _ Hq1 Hsi) as Hsi'.
      destruct si as [ | b | n | fl | s | xs | sd ]; try solve [wiki_kept_case Hc0].
      destruct (dict_lookup "suggestion" sd) as [sug |] eqn:Hsug; simpl;
        intros H; inversion H; subst; apply Hentry;
        [exact (ok_lookup _ _ _ Hsi' Hsug) | exact ok_none].
    + simpl. intros H; inversion H; subst. apply Hentry. exact ok_none.
Qed.

Lemma aggregate_kept w query use_google use_wiki :
  payloads ok w ->
  exists t c,
    run (combine_results w query use_google use_wiki) = (t, Returned c)
    /\ ok c = true.
Proof.
  intros Hw.
  destruct (search_google_cases w query) as (tg & Hg & _).
  destruct (search_duckduckgo_spec w query) as (td & Hd & _).
  destruct (search_wikipedia_run w query) as (tw & d & Hwiki).
  rewrite (combine_results_via_tail _ _ _ _ _ _ _ _ Hg Hd).
  fold (fallback_records w query).
  set (G := web_google use_google (primary_records w query)).
  set (F := web_fallback use_google (primary_records w query) (fallback_records w query)).
  assert (Hc0 : ok (composite query G (PyDict []) F) = true).
  { pose proof (primary_records_kept w query) as HG.
    pose proof (fallback_records_kept w query Hw) as HF.
    apply composite_kept; subst G F.
    - destruct use_google; [exact HG | reflexivity].
    - apply ok_dict; reflexivity.
    - destruct use_google; [| reflexivity].
      destruct (primary_records w query); [exact HF | reflexivity]. }
  destruct use_wiki; unfold stage, try_except, bind.
  - destruct (wiki_stage w query (composite query G (PyDict []) F))
      as [[t c] o] eqn:Hstage.
    pose proof (wiki_stage_kept _ _ _ _ _ _ _ _ _ Hwiki
                  (search_wikipedia_kept _ _ _ _ Hw Hwiki) Hc0 Hstage) as Hc.
    destruct o as [[] | e]; unfold get_local, on_failure, logging, emit, bind;
      cbn iota beta; do 2 eexists; (split; [reflexivity | exact Hc]).
  - unfold ret, get_local. do 2 eexists. split; [reflexivity | exact Hc0].
Qed.

End Kept.


Lemma exact_lookup k d x :
  exact (PyDict d) = true -> dict_lookup k d = Some x -> exact x = true.
Proof.
  simpl. intros H. apply andb_true_iff in H as [_ H].
  induction d as [| [k' v] d IH]; simpl; [discriminate |].
  simpl in H. apply andb_true_iff in H as [Hv Hd].
  destruct (String.eqb k k'); [intros E; inversion E; subst; exact Hv | exact (IH Hd)].
Qed.


Lemma aggregate_exact w query use_google use_wiki :
  payloads exact w ->
  exists t c,
    run (combine_results w query use_google use_wiki) = (t, Returned c)
    /\ exact c = true.
Proof.
  apply (aggregate_kept exact eq_refl (fun _ => eq_refl) (fun _ => eq_refl)
           exact_lookup).
  intros kvs Hd H. simpl. rewrite Hd, H. reflexivity.
Qed.

(** *** The evidence of the orchestrator *)



(** X17: when the payloads the endpoints deliver have distinct keys in every
    object and only finite floats, decoding the evidence string gives back
    exactly the aggregate the aggregator returned. *)
Theorem evidence_round_trip w query use_google use_wiki :
  payloads exact w ->
  exists tc c t answer evidence,
    run (combine_results w query use_google use_wiki) = (tc, Returned c)
    /\ run (full_pipeline w query use_google use_wiki)
       = (t, Returned (answer, evidence))
    /\ json_loads evidence = Some c.
Proof.
  intros Hw.
  destruct (aggregate_exact w query use_google use_wiki Hw) as (tc & c & Hc & Hu).
  destruct (combine_results_composite w query use_google use_wiki)
    as (tc' & G & W & F & Hc').
  rewrite Hc in Hc'. inversion Hc'; subst tc' c.
  destruct (generate_answer_calls w query G W F) as (ta & a & Ha & _).
  do 5 eexists. split; [exact Hc |].
  split; [exact (full_pipeline_run _ _ _ _ _ _ _ _ Hc Ha) |].
  apply json_round_trip, Hu.
Qed.

(** X18: the evidence of the orchestrator's [except] branch,
    [json.dumps({"error": message})], decodes to [{"error": message}] for every
    message, whatever characters it holds. *)
Theorem error_evidence_decodes message :
  json_loads (json_dumps None (PyDict [("error", PyStr message)]))
  = Some (PyDict [("error", PyStr message)]).
Proof. apply json_round_trip. reflexivity. Qed.

(** ** Instances of the further properties *)


(** The text of an element leaves out the scripts, style sheets, templates and
    comments below it: the record the loop body appends for [noisy_block]. *)
Example noisy_block_record :
  scraped [noisy_block]
  = [PyDict [("title", PyStr "Title"); ("url", PyStr "https://e.example/");
             ("snippet", PyStr "snip"); ("source", PyStr "google")]]
  /\ flat_map record_list [noisy_block] = scraped [noisy_block].
Proof. split; reflexivity. Qed.

(** X5 on a redirect block and on the block without a title. *)
Lemma skipped_blocks_logging_witness :
  scrape_block redirect_block [] = ([], [], Returned tt)
  /\ scrape_block untitled_block []
     = ([Log WARNING
           ("Skipping result: "
              ++ str_of_exn
                   (AttributeError "'NoneType' object has no attribute 'text'"))],
        [], Returned tt).
Proof.
  split.
  - apply (proj1 (skipped_blocks_logging redirect_block [])
             (Tag "h3" [] [TextNode NavigableString "Redirect"]) "a"
             [("href", "/url?q=https://d.example/")]
             [Tag "h3" [] [TextNode NavigableString "Redirect"]]
             "/url?q=https://d.example/"); reflexivity.
  - apply (proj2 (skipped_blocks_logging untitled_block []) [] []
             (AttributeError "'NoneType' object has no attribute 'text'"));
      reflexivity.
Defined.

(** X9 on a success response with one hit and a suggestion. *)
Lemma wikipedia_fields_extracted_witness :
  exists t G F,
    run (combine_results (answers_with "{}" (Returned (PyDict one_hit)) [])
           "cats" false true)
    = (t, Returned
            (composite "cats" G
               (wikipedia_entry
                  (PyList [PyDict [("title", PyStr "Cat"); ("pageid", PyInt 6678)]])
                  (PyStr "cat"))
               F)).
Proof.
  exact (wikipedia_fields_extracted
           (answers_with "{}" (Returned (PyDict one_hit)) []) "cats" false _ one_hit
           [("searchinfo", PyDict [("totalhits", PyInt 1); ("suggestion", PyStr "cat")]);
            ("search", PyList [PyDict [("title", PyStr "Cat"); ("pageid", PyInt 6678)]])]
           (PyList [PyDict [("title", PyStr "Cat"); ("pageid", PyInt 6678)]])
           eq_refl eq_refl eq_refl).
Defined.

(** X10 on a blocked page, the fallback endpoint answering with an empty
    object. *)
Lemma primary_failure_falls_back_witness :
  exists t W,
    run (combine_results
           (answers_with "Please solve this CAPTCHA" (Returned (PyDict [])) [])
           "cats" true true)
    = (t, Returned
            (composite "cats" [] W
               (fallback_records
                  (answers_with "Please solve this CAPTCHA" (Returned (PyDict [])) [])
                  "cats")))
    /\ requests t = [google_url; duckduckgo_url; wikipedia_url].
Proof.
  exact (primary_failure_falls_back
           (answers_with "Please solve this CAPTCHA" (Returned (PyDict [])) [])
           "cats" true eq_refl).
Defined.

(** X13 with every endpoint unreachable. *)
Lemma offline_pipeline_witness :
  exists t,
    run (full_pipeline network_down "cats" true true)
    = (t, Returned (no_results_message,
                    json_dumps (Some 2) (composite "cats" [] (PyDict []) [])))
    /\ count is_model_call t = 0.
Proof.
  apply (offline_pipeline network_down "cats" true true).
  intros url params. eexists. reflexivity.
Defined.

(** X14 on a blocked page, the fallback endpoint answering with an empty
    object. *)
Lemma empty_fallback_record_reaches_model_witness :
  exists t a W,
    run (full_pipeline
           (answers_with "Please solve this CAPTCHA" (Returned (PyDict [])) [])
           "cats" true false)
    = (t, Returned
            (a, json_dumps (Some 2)
                  (composite "cats" [] W
                     [duckduckgo_record (PyStr EmptyString) (PyStr EmptyString)
                        (PyStr EmptyString)])))
    /\ count is_model_call t = 1.
Proof.
  exact (empty_fallback_record_reaches_model
           (answers_with "Please solve this CAPTCHA" (Returned (PyDict [])) [])
           "cats" false [] eq_refl eq_refl).
Defined.

(** X15 with the model unreachable and one record at hand. *)
Lemma model_failure_reported_witness :
  run (generate_answer network_down "cats"
         (composite "cats" [PyDict [("title", PyStr "Cat")]] (PyDict []) []))
  = ([OllamaChat model_name
        (make_prompt "cats"
           (json_dumps (Some 2)
              (composite "cats" [PyDict [("title", PyStr "Cat")]] (PyDict []) [])))],
     Returned ("Error generating answer: "
                 ++ str_of_exn (PyExn "ConnectionError" "connection refused"))).
Proof.
  exact (model_failure_reported network_down "cats"
           [PyDict [("title", PyStr "Cat")]] (PyDict []) []
           (PyExn "ConnectionError" "connection refused") eq_refl eq_refl).
Defined.

(** X16 on the empty mapping. *)
Lemma generate_answer_needs_sources_witness :
  run (generate_answer network_down "cats" (PyDict []))
  = ([], Raised (KeyError "sources")).
Proof.
  exact (generate_answer_needs_sources network_down "cats" [] eq_refl).
Defined.


(** X17 with every endpoint answering with a hit whose score is [12.5]. *)
Lemma evidence_round_trip_witness :
  exists tc c t answer evidence,
    run (combine_results
           (answers_with "{}" (Returned (PyDict (scored_hit (FDecimal false 125 2))))
              sample_page)
           "cats" true true)
    = (tc, Returned c)
    /\ run (full_pipeline
              (answers_with "{}"
                 (Returned (PyDict (scored_hit (FDecimal false 125 2))))
                 sample_page)
              "cats" true true)
       = (t, Returned (answer, evidence))
    /\ json_loads evidence = Some c.
Proof.
  apply (evidence_round_trip
           (answers_with "{}" (Returned (PyDict (scored_hit (FDecimal false 125 2))))
              sample_page)
           "cats" true true).
  intros url params r v Hr Hv. simpl in Hr. inversion Hr; subst r.
  simpl in Hv. inversion Hv. reflexivity.
Defined.
